(** * json-to-dto: schema registry and recursive conversion engine

    A shallow embedding of [src/types.ts], [src/metadata-store.ts],
    [src/decorators.ts] and [src/converters.ts].

    - JavaScript values are an inductive type [Value]; objects carry their
      own data properties in insertion order, and the constructor whose
      prototype they were given.  Properties inherited through the prototype
      chain (methods, accessors) are outside the model.
    - JavaScript numbers are modelled by their exact mathematical value (a
      rational), with [NaN] and the two infinities; rounding to binary64 is
      not modelled.
    - A JavaScript [Map<string, V>] is an association list in insertion
      order ([JsMap]); the registry's outer maps, keyed by constructor and
      never iterated, are stdpp [gmap]s and [classSet] is a [gset].
    - A thrown [Error] is a value of the type [Error], one constructor per
      [throw] site.  [convertToType] recurses through schema defaults as
      well as through the input, so it takes fuel: [OutOfFuel] is not a
      result of the program. *)

From Stdlib Require Import ZArith QArith Qabs Ascii String List Bool Lia.
From stdpp Require Import gmap strings.

Import ListNotations.
Local Open Scope string_scope.

(* ===================================================================== *)
(** * Insertion-ordered maps with string keys *)
(* ===================================================================== *)

Module JsMap.

Definition t (V : Type) : Type := list (string * V).

Definition empty {V} : t V := [].

Fixpoint get {V} (k : string) (m : t V) : option V :=
  match m with
  | [] => None
  | (k', v) :: m' => if String.eqb k k' then Some v else get k m'
  end.

Definition has {V} (k : string) (m : t V) : bool :=
  match get k m with Some _ => true | None => false end.

(** [Map.prototype.set]: an existing key keeps its position, a new key is
    appended. *)
Fixpoint set {V} (k : string) (v : V) (m : t V) : t V :=
  match m with
  | [] => [(k, v)]
  | (k', v') :: m' =>
      if String.eqb k k' then (k, v) :: m' else (k', v') :: set k v m'
  end.

Fixpoint delete {V} (k : string) (m : t V) : t V :=
  match m with
  | [] => []
  | (k', v') :: m' =>
      if String.eqb k k' then delete k m' else (k', v') :: delete k m'
  end.

Definition keys {V} (m : t V) : list string := map fst m.
Definition values {V} (m : t V) : list V := map snd m.

End JsMap.

(* ===================================================================== *)
(** * JavaScript numbers and [parseFloat] *)
(* ===================================================================== *)

Inductive number : Type :=
| NaN
| Infinity (negative : bool)
| Finite (q : Q).

Definition isNaN (n : number) : bool :=
  match n with NaN => true | _ => false end.

(** [x % y] for [y = 1]: the remainder has the sign of the dividend; it is
    [NaN] when [x] is not finite. *)
Definition truncQ (q : Q) : Z := Z.quot (Qnum q) (Zpos (Qden q)).

Definition rem1 (n : number) : number :=
  match n with
  | Finite q => Finite (Qred (q - inject_Z (truncQ q)))
  | _ => NaN
  end.

(** [x !== 0] on numbers. *)
Definition strictNeqZero (n : number) : bool :=
  match n with
  | Finite q => negb (Qeq_bool q 0)
  | _ => true
  end.

Module Parse.

Definition isWhiteSpace (c : ascii) : bool :=
  let n := nat_of_ascii c in
  ((n =? 32) || (n =? 9) || (n =? 10) || (n =? 11) || (n =? 12) || (n =? 13))%nat.

Fixpoint trimStart (s : string) : string :=
  match s with
  | String c s' => if isWhiteSpace c then trimStart s' else s
  | EmptyString => EmptyString
  end.

Definition digit (c : ascii) : option Z :=
  let n := nat_of_ascii c in
  if ((48 <=? n) && (n <=? 57))%nat then Some (Z.of_nat (n - 48)) else None.

(** Longest run of decimal digits at the head of [s]: its value on top of
    the accumulator, the number of digits read, and the rest. *)
Fixpoint digits (acc : Z) (count : nat) (s : string) : Z * nat * string :=
  match s with
  | String c s' =>
      match digit c with
      | Some d => digits (10 * acc + d)%Z (S count) s'
      | None => (acc, count, s)
      end
  | EmptyString => (acc, count, s)
  end.

Definition sign (s : string) : bool * string :=
  match s with
  | String "-" s' => (true, s')
  | String "+" s' => (false, s')
  | _ => (false, s)
  end.

(** ExponentPart, when one is there: [e] or [E], an optional sign and at
    least one digit.  Otherwise the exponent is 0 and nothing is read. *)
Definition exponent (s : string) : Z :=
  match s with
  | String c s' =>
      if (Ascii.eqb c "e" || Ascii.eqb c "E")%bool then
        let '(neg, s'') := sign s' in
        let '(e, n, _) := digits 0 0 s'' in
        match n with
        | O => 0%Z
        | S _ => if neg then (- e)%Z else e
        end
      else 0%Z
  | EmptyString => 0%Z
  end.

(** [parseFloat] on a string: the value of the longest prefix of the
    trimmed string that is a StrDecimalLiteral, [NaN] when there is none. *)
Definition parseFloat (s : string) : number :=
  let '(neg, s1) := sign (trimStart s) in
  if String.prefix "Infinity" s1 then Infinity neg
  else
    let '(ip, ni, s2) := digits 0 0 s1 in
    let '(m, nf, s3) :=
      match s2 with
      | String "." s2' => let '(m, nf, s3) := digits ip 0 s2' in (m, nf, s3)
      | _ => (ip, O, s2)
      end in
    match (ni + nf)%nat with
    | O => NaN
    | S _ =>
        let e := (exponent s3 - Z.of_nat nf)%Z in
        let q := (inject_Z m * Qpower (inject_Z 10) e)%Q in
        Finite (Qred (if neg then - q else q))
    end.

End Parse.

(* ===================================================================== *)
(** * Values, type descriptors and schema metadata ([types.ts]) *)
(* ===================================================================== *)

(** A class constructor, identified by name. *)
Abbreviation ClassType := string (only parsing).

#[warnings="-register-all"] Inductive Value : Type :=
| VUndefined
| VNull
| VBoolean (b : bool)
| VNumber (n : number)
| VString (s : string)
| VArray (elems : list Value)
| VObject (proto : option ClassType) (props : JsMap.t Value)
| VDate (time : number).

Module PrimitiveType.
Inductive t : Type := Int | Float | String | Boolean.
End PrimitiveType.

(** [Type]: a primitive, [Date], [Object], an array literal of element
    types ([ArrayType], meant to hold exactly one) or a class constructor. *)
#[warnings="-register-all"] Inductive Type_ : Type :=
| TPrimitive (p : PrimitiveType.t)
| TDate
| TObject
| TArray (elems : list Type_)
| TClass (classType : ClassType).

Record PropMetadata : Type := {
  name : string;
  type : Type_;
  isOptional : bool;
  default : Value;  (* [VUndefined] when no default is set *)
}.

(** The own properties of the object under construction. *)
Abbreviation Props := (JsMap.t Value) (only parsing).

(** [PropValidator]: [(val, name, obj) => string | undefined].  A validator
    may write to [obj]; the model returns the properties it leaves behind
    together with its return value ([None] for [undefined]). *)
Definition PropValidator : Type :=
  Value -> string -> Props -> Props * option string.

(** ** Operators of the language used by the converters *)

Definition typeof (v : Value) : string :=
  match v with
  | VUndefined => "undefined"
  | VNull => "object"
  | VBoolean _ => "boolean"
  | VNumber _ => "number"
  | VString _ => "string"
  | VArray _ => "object"
  | VObject _ _ => "object"
  | VDate _ => "object"
  end.

(** [v === 'lit'] for a string literal. *)
Definition strictEqString (v : Value) (lit : string) : bool :=
  match v with
  | VString s => String.eqb s lit
  | _ => false
  end.

(** [v == undefined]: true of [undefined] and [null] only. *)
Definition looseEqUndefined (v : Value) : bool :=
  match v with
  | VUndefined | VNull => true
  | _ => false
  end.

(** [v === undefined] and [v === null]. *)
Definition isUndefined (v : Value) : bool :=
  match v with VUndefined => true | _ => false end.

Definition isNull (v : Value) : bool :=
  match v with VNull => true | _ => false end.

Definition isArray (v : Value) : bool :=
  match v with VArray _ => true | _ => false end.

(** [!!error] for [error : string | undefined]. *)
Definition truthy (error : option string) : bool :=
  match error with
  | Some s => negb (String.eqb s "")
  | None => false
  end.

(** A canonical array index: decimal digits without a leading zero. *)
Definition arrayIndex (s : string) : option nat :=
  match s with
  | EmptyString => None
  | String c s' =>
      if (Ascii.eqb c "0" && negb (String.eqb s' ""))%bool then None
      else
        match Parse.digits 0 0 s with
        | (i, _, EmptyString) => Some (Z.to_nat i)
        | _ => None
        end
  end.

(** [val[name]] on a value whose [typeof] is ["object"] and that is not
    [null]: an own property of an object, an element or the length of an
    array, and [undefined] otherwise. *)
Definition getProp (val : Value) (key : string) : Value :=
  match val with
  | VObject _ props =>
      match JsMap.get key props with Some v => v | None => VUndefined end
  | VArray elems =>
      if String.eqb key "length" then
        VNumber (Finite (inject_Z (Z.of_nat (List.length elems))))
      else
        match arrayIndex key with
        | Some i => nth i elems VUndefined
        | None => VUndefined
        end
  | _ => VUndefined
  end.

(** ** Errors and outcomes *)

Inductive Error : Type :=
| UnsupportedType (val : Value) (toType : Type_)
| UndefinedResult (val : Value) (toType : Type_)
| NotInt (val : Value)
| NotFloat (val : Value)
| NotString (val : Value)
| NotBoolean (val : Value)
| NotDate (val : Value)
| NotObject (val : Value)
| ElementTypeUndefined (val : Value)
| NotArray (val : Value)
| NotClassObject (val : Value) (classType : ClassType)
| MissingRequiredField (val : Value) (classType : ClassType) (field : string)
| InvalidProperty (val : Value) (classType : ClassType) (propName : string)
    (propValue : Value) (reason : string)
| ArrayTypeLength (type : Type_).

Inductive outcome (A : Type) : Type :=
| Return (a : A)
| Throw (e : Error)
| OutOfFuel.

Arguments Return {A} a.
Arguments Throw {A} e.
Arguments OutOfFuel {A}.

Definition bind {A B} (m : outcome A) (k : A -> outcome B) : outcome B :=
  match m with
  | Return a => k a
  | Throw e => Throw e
  | OutOfFuel => OutOfFuel
  end.

Notation "'let!' x ':=' m 'in' k" := (bind m (fun x => k))
  (at level 10, x name, m at level 100, k at level 200).

(** ** The registry ([metadata-store.ts]) *)

Record Store : Type := {
  classSet : gset string;
  classTypeToPropMetadata : gmap string (JsMap.t PropMetadata);
  classTypeToPropValidator : gmap string (JsMap.t (list PropValidator));
}.

Definition emptyStore : Store :=
  {| classSet := ∅; classTypeToPropMetadata := ∅; classTypeToPropValidator := ∅ |}.

(** [getOrCreateMetadataMap]: the map of the class, created empty and
    registered first when the class has none. *)
Definition getOrCreateMetadataMap (clsCtor : ClassType) (st : Store)
  : JsMap.t PropMetadata * Store :=
  match classTypeToPropMetadata st !! clsCtor with
  | Some propNameToMetadata => (propNameToMetadata, st)
  | None =>
      (JsMap.empty,
       {| classSet := classSet st;
          classTypeToPropMetadata := <[clsCtor := JsMap.empty]> (classTypeToPropMetadata st);
          classTypeToPropValidator := classTypeToPropValidator st |})
  end.

Definition getOrCreateValidatorMap (clsCtor : ClassType) (st : Store)
  : JsMap.t (list PropValidator) * Store :=
  match classTypeToPropValidator st !! clsCtor with
  | Some propNameToValidators => (propNameToValidators, st)
  | None =>
      (JsMap.empty,
       {| classSet := classSet st;
          classTypeToPropMetadata := classTypeToPropMetadata st;
          classTypeToPropValidator := <[clsCtor := JsMap.empty]> (classTypeToPropValidator st) |})
  end.

(** The maps are mutable objects shared with the registry: a write to the
    map of a class is a write to the registry's entry for that class. *)
Definition putMetadataMap (clsCtor : ClassType) (m : JsMap.t PropMetadata)
    (st : Store) : Store :=
  {| classSet := classSet st;
     classTypeToPropMetadata := <[clsCtor := m]> (classTypeToPropMetadata st);
     classTypeToPropValidator := classTypeToPropValidator st |}.

Definition putValidatorMap (clsCtor : ClassType) (m : JsMap.t (list PropValidator))
    (st : Store) : Store :=
  {| classSet := classSet st;
     classTypeToPropMetadata := classTypeToPropMetadata st;
     classTypeToPropValidator := <[clsCtor := m]> (classTypeToPropValidator st) |}.

(* ===================================================================== *)
(** * The conversion engine ([converters.ts]) *)
(* ===================================================================== *)

Section Converters.

(** What the host supplies: [Date.parse] on strings, and the string a
    value that is not [undefined], [null], a boolean or a string turns
    into (through [toString], [join] and the like) when the language
    needs one. *)
Variable DateParse : string -> number.
Variable ObjectToString : Value -> string.

(** The registry the conversions read. *)
Variable store : Store.

(** [ToString] as applied by [parseFloat] to what it is given. *)
Definition ToString (v : Value) : string :=
  match v with
  | VUndefined => "undefined"
  | VNull => "null"
  | VBoolean true => "true"
  | VBoolean false => "false"
  | VString s => s
  | _ => ObjectToString v
  end.

Definition parseFloat (val : Value) : number := Parse.parseFloat (ToString val).

(** [TimeClip]: a finite time value within 8.64e15 ms of the epoch,
    truncated to an integer, and [NaN] otherwise. *)
Definition TimeClip (t : number) : number :=
  match t with
  | Finite q =>
      if Qle_bool (Qabs q) (inject_Z 8640000000000000)
      then Finite (inject_Z (truncQ q))
      else NaN
  | _ => NaN
  end.

(** The time value of [new Date(val)]. *)
Definition newDate (val : Value) : number :=
  match val with
  | VDate t => t
  | VUndefined => NaN
  | VNull => TimeClip (Finite 0)
  | VBoolean b => TimeClip (Finite (if b then 1 else 0))
  | VNumber n => TimeClip n
  | VString s => TimeClip (DateParse s)
  | _ => TimeClip (DateParse (ObjectToString val))
  end.

Definition convertToInt (val : Value) : outcome Value :=
  let parsed :=
    if String.eqb (typeof val) "number"
    then match val with VNumber n => n | _ => NaN end
    else parseFloat val in
  if (isNaN parsed || strictNeqZero (rem1 parsed))%bool
  then Throw (NotInt val)
  else Return (VNumber parsed).

Definition convertToFloat (val : Value) : outcome Value :=
  let parsed :=
    if String.eqb (typeof val) "number"
    then match val with VNumber n => n | _ => NaN end
    else parseFloat val in
  if isNaN parsed
  then Throw (NotFloat val)
  else Return (VNumber parsed).

(** ['' + val] where [val === 'number'] has just been established. *)
Definition convertToString (val : Value) : outcome Value :=
  if strictEqString val "string" then Return val
  else if strictEqString val "number" then Return (VString ("" ++ ToString val))
  else Throw (NotString val).

Definition convertToBoolean (val : Value) : outcome Value :=
  if strictEqString val "boolean" then Return val
  else if strictEqString val "true" then Return (VBoolean true)
  else if strictEqString val "false" then Return (VBoolean false)
  else Throw (NotBoolean val).

Definition convertToDate (val : Value) : outcome Value :=
  let parsed := newDate val in
  if isNaN parsed
  then Throw (NotDate val)
  else Return (VDate parsed).

Definition convertToObject (val : Value) : outcome Value :=
  if negb (strictEqString val "object")
  then Throw (NotObject val)
  else Return val.

(** The bodies of [convertToArray] and [convertToClass] call
    [convertToType] back; [rec] stands for that call. *)
Section Recursive.

Variable rec : Value -> Type_ -> outcome Value.

(** The loop [for (i = 0; i < n; i++) parsed[i] = convertToType(val[i], elementType)]. *)
Fixpoint convertElements (elems : list Value) (elementType : Type_)
  : outcome (list Value) :=
  match elems with
  | [] => Return []
  | v :: elems' =>
      let! v' := rec v elementType in
      let! parsed := convertElements elems' elementType in
      Return (v' :: parsed)
  end.

(** [elementType] is [toType[0]]: [None] when the array literal is empty. *)
Definition convertToArray (val : Value) (elementType : option Type_)
  : outcome Value :=
  match elementType with
  | None => Throw (ElementTypeUndefined val)
  | Some elementType =>
      match val with
      | VArray elems =>
          let! parsed := convertElements elems elementType in
          Return (VArray parsed)
      | _ => Throw (NotArray val)
      end
  end.

(** One turn of the loop of Step2, on the object under construction. *)
Definition convertProp (val : Value) (classType : ClassType)
    (parsed : Props) (propMetadata : PropMetadata) : outcome Props :=
  let assign (propValue : Value) :=
    let! v := rec propValue (type propMetadata) in
    Return (JsMap.set (name propMetadata) v parsed) in
  let propValue := getProp val (name propMetadata) in
  if looseEqUndefined propValue then
    let propValue := default propMetadata in
    if looseEqUndefined propValue then
      if Bool.eqb (isOptional propMetadata) false then
        Throw (MissingRequiredField val classType (name propMetadata))
      else if isUndefined propValue then
        Return parsed
      else assign propValue
    else assign propValue
  else assign propValue.

Fixpoint convertProps (val : Value) (classType : ClassType)
    (metadata : list PropMetadata) (parsed : Props) : outcome Props :=
  match metadata with
  | [] => Return parsed
  | propMetadata :: metadata' =>
      let! parsed' := convertProp val classType parsed propMetadata in
      convertProps val classType metadata' parsed'
  end.

(** The validators of one property, each called with the [propValue]
    read before the first of them ran. *)
Fixpoint runValidators (val : Value) (classType : ClassType)
    (propName : string) (propValue : Value)
    (validators : list PropValidator) (parsed : Props) : outcome Props :=
  match validators with
  | [] => Return parsed
  | validator :: validators' =>
      let '(parsed', error) := validator propValue propName parsed in
      if truthy error then
        Throw (InvalidProperty val classType propName propValue
                 (match error with Some reason => reason | None => "" end))
      else runValidators val classType propName propValue validators' parsed'
  end.

(** The loop of Step3 over [propNameToValidators.keys()]. *)
Fixpoint validateProps (val : Value) (classType : ClassType)
    (propNameToValidators : JsMap.t (list PropValidator))
    (propNames : list string) (parsed : Props) : outcome Props :=
  match propNames with
  | [] => Return parsed
  | propName :: propNames' =>
      let! parsed' :=
        match JsMap.get propName propNameToValidators with
        | Some validators =>
            let propValue :=
              match JsMap.get propName parsed with
              | Some v => v
              | None => VUndefined
              end in
            if negb (isUndefined propValue)
            then runValidators val classType propName propValue validators parsed
            else Return parsed
        | None => Return parsed
        end in
      validateProps val classType propNameToValidators propNames' parsed'
  end.

(** Step2: convert all properties registered by [@Prop]. *)
Definition convertAllProps (val : Value) (classType : ClassType)
    (parsed : Props) : outcome Props :=
  match classTypeToPropMetadata store !! classType with
  | Some propNameToMetadata =>
      convertProps val classType (JsMap.values propNameToMetadata) parsed
  | None => Return parsed
  end.

(** Step3: validate all properties. *)
Definition validateAllProps (val : Value) (classType : ClassType)
    (parsed : Props) : outcome Props :=
  match classTypeToPropValidator store !! classType with
  | Some propNameToValidators =>
      validateProps val classType propNameToValidators
        (JsMap.keys propNameToValidators) parsed
  | None => Return parsed
  end.

Definition convertToClass (val : Value) (classType : ClassType) : outcome Value :=
  if negb (String.eqb (typeof val) "object") then
    Throw (NotClassObject val classType)
  else if isNull val then
    Return VNull
  else
    (* Step1: a new object that inherits from [classType.prototype] *)
    let parsed : Props := JsMap.empty in
    let! parsed := convertAllProps val classType parsed in
    let! parsed := validateAllProps val classType parsed in
    Return (VObject (Some classType) parsed).

End Recursive.

Fixpoint convertToType (fuel : nat) (val : Value) (toType : Type_) : outcome Value :=
  match fuel with
  | O => OutOfFuel
  | S fuel' =>
      let! parsed :=
        match toType with
        | TPrimitive PrimitiveType.Int => convertToInt val
        | TPrimitive PrimitiveType.Float => convertToFloat val
        | TPrimitive PrimitiveType.String => convertToString val
        | TPrimitive PrimitiveType.Boolean => convertToBoolean val
        | TDate => convertToDate val
        | TObject => convertToObject val
        | TArray elems => convertToArray (convertToType fuel') val (head elems)
        | TClass classType =>
            if bool_decide (classType ∈ classSet store)
            then convertToClass (convertToType fuel') val classType
            else Throw (UnsupportedType val toType)
        end in
      (* double check after convertion, parsed must not be undefined but can be null *)
      if isUndefined parsed
      then Throw (UndefinedResult val toType)
      else Return parsed
  end.

End Converters.

(* ===================================================================== *)
(** * The decorators ([decorators.ts]) *)
(* ===================================================================== *)

(** [validate?: PropValidator | PropValidator[]]. *)
Inductive ValidateOption : Type :=
| NoValidate
| OneValidator (validator : PropValidator)
| ManyValidators (validators : list PropValidator).

Record PropOptions : Type := {
  opt_type : Type_;
  opt_isOptional : option bool;
  opt_default : Value;  (* [VUndefined] when not given *)
  opt_validate : ValidateOption;
}.

(** [propValidators] as [Prop] computes it: empty without [validate], the
    array itself, or the single validator wrapped in an array. *)
Definition propValidatorsOf (options : PropOptions) : list PropValidator :=
  match opt_validate options with
  | NoValidate => []
  | OneValidator validator => [validator]
  | ManyValidators validators => validators
  end.

Definition currentMetadataOf (options : PropOptions) (propName : string) : PropMetadata :=
  {| name := propName;
     type := opt_type options;
     isOptional :=
       if negb (isUndefined (opt_default options)) then true
       else match opt_isOptional options with Some true => true | _ => false end;
     default := opt_default options |}.

(** [Prop(options)] applied to the property [propName] of the class
    [clsCtor] (the [constructor] of the decorated prototype). *)
Definition PropDecorator (options : PropOptions) (clsCtor : ClassType)
    (propName : string) (st : Store) : outcome Store :=
  if match opt_type options with
     | TArray elems => negb (List.length elems =? 1)%nat
     | _ => false
     end
  then Throw (ArrayTypeLength (opt_type options))
  else
    let currentMetadata := currentMetadataOf options propName in
    let '(metadataMap, st) := getOrCreateMetadataMap clsCtor st in
    let st := putMetadataMap clsCtor
                (JsMap.set (name currentMetadata) currentMetadata metadataMap) st in
    let propValidators := propValidatorsOf options in
    let '(validatorMap, st) := getOrCreateValidatorMap clsCtor st in
    if (0 <? List.length propValidators)%nat then
      Return (putValidatorMap clsCtor
                (JsMap.set (name currentMetadata) propValidators validatorMap) st)
    else
      Return (putValidatorMap clsCtor
                (JsMap.delete (name currentMetadata) validatorMap) st).

(** The two merge loops of [Class]: an entry of the parent is copied when
    the current map has no entry under that name. *)
Fixpoint mergeMetadata (parentMetadata : list PropMetadata)
    (currentMetadata : JsMap.t PropMetadata) : JsMap.t PropMetadata :=
  match parentMetadata with
  | [] => currentMetadata
  | pm :: rest =>
      mergeMetadata rest
        (if Bool.eqb (JsMap.has (name pm) currentMetadata) false
         then JsMap.set (name pm) pm currentMetadata
         else currentMetadata)
  end.

Fixpoint mergeValidators (parentValidatorMap : JsMap.t (list PropValidator))
    (propNameToValidators : JsMap.t (list PropValidator))
  : JsMap.t (list PropValidator) :=
  match parentValidatorMap with
  | [] => propNameToValidators
  | (propName, parentValidators) :: rest =>
      mergeValidators rest
        (if Bool.eqb (JsMap.has propName propNameToValidators) false
         then JsMap.set propName parentValidators propNameToValidators
         else propNameToValidators)
  end.

Section Decorators.

(** [Object.getPrototypeOf] on constructors: the class named in the
    [extends] clause, [None] for a class that extends nothing. *)
Variable getPrototypeOf : ClassType -> option ClassType.

(** [Class()] applied to the class [clsCtor]. *)
Definition ClassDecorator (clsCtor : ClassType) (st : Store) : Store :=
  let parentCtor := getPrototypeOf clsCtor in
  let st :=
    match parentCtor ≫= (fun p => classTypeToPropMetadata st !! p) with
    | Some parentMetadataMap =>
        let '(currentMetadata, st) := getOrCreateMetadataMap clsCtor st in
        putMetadataMap clsCtor
          (mergeMetadata (JsMap.values parentMetadataMap) currentMetadata) st
    | None => st
    end in
  let st :=
    match parentCtor ≫= (fun p => classTypeToPropValidator st !! p) with
    | Some parentValidatorMap =>
        let '(propNameToValidators, st) := getOrCreateValidatorMap clsCtor st in
        putValidatorMap clsCtor
          (mergeValidators parentValidatorMap propNameToValidators) st
    | None => st
    end in
  {| classSet := {[clsCtor]} ∪ classSet st;
     classTypeToPropMetadata := classTypeToPropMetadata st;
     classTypeToPropValidator := classTypeToPropValidator st |}.

(** A decorated class declaration: the property decorators run in the
    order of the class body, then the class decorator. *)
Fixpoint declareProps (clsCtor : ClassType)
    (props : list (string * PropOptions)) (st : Store) : outcome Store :=
  match props with
  | [] => Return st
  | (propName, options) :: props' =>
      let! st' := PropDecorator options clsCtor propName st in
      declareProps clsCtor props' st'
  end.

Definition declareClass (clsCtor : ClassType)
    (props : list (string * PropOptions)) (st : Store) : outcome Store :=
  let! st' := declareProps clsCtor props st in
  Return (ClassDecorator clsCtor st').

End Decorators.

(* ===================================================================== *)
(** * The built-in validators ([validators.ts]) *)
(* ===================================================================== *)

(** [String.prototype.trim], on the white space [parseFloat] skips. *)
Fixpoint trimEnd (s : string) : string :=
  match s with
  | EmptyString => EmptyString
  | String c s' =>
      match trimEnd s' with
      | EmptyString => if Parse.isWhiteSpace c then EmptyString else String c EmptyString
      | rest => String c rest
      end
  end.

Definition trimString (s : string) : string := trimEnd (Parse.trimStart s).

(** [x < y] on numbers: [None] when it is undefined, one of them being
    [NaN]. *)
Definition lessThan (x y : number) : option bool :=
  match x, y with
  | NaN, _ | _, NaN => None
  | Finite a, Finite b => Some (negb (Qle_bool b a))
  | Infinity false, _ => Some false
  | Infinity true, Infinity true => Some false
  | Infinity true, _ => Some true
  | Finite _, Infinity negative => Some (negb negative)
  end.

Module StringNotEmptyOptions.
Record t : Type := {
  trim : option bool;
  max : option number;
  min : option number;
}.
End StringNotEmptyOptions.

(** What [NewValidatorMinMax] gives: a validator, or the error it throws
    for [max < min]. *)
Inductive MinMaxValidator : Type :=
| Made (validator : PropValidator)
| Refused (min max : number).

Section Validators.

(** The host again: the string a number or an object turns into, and the
    number a string stands for ([Number(s)]). *)
Variable ObjectToString : Value -> string.
Variable StringToNumber : string -> number.

Definition ToBoolean (v : Value) : bool :=
  match v with
  | VUndefined | VNull => false
  | VBoolean b => b
  | VNumber NaN => false
  | VNumber (Infinity _) => true
  | VNumber (Finite q) => negb (Qeq_bool q 0)
  | VString s => negb (String.eqb s "")
  | VArray _ | VObject _ _ | VDate _ => true
  end.

(** [ToNumber], as the relational operators apply it to an operand that
    stands beside a number. *)
Definition ToNumber (v : Value) : number :=
  match v with
  | VUndefined => NaN
  | VNull => Finite 0
  | VBoolean b => Finite (if b then 1 else 0)
  | VNumber n => n
  | VString s => StringToNumber s
  | VDate t => t
  | VArray _ | VObject _ _ => StringToNumber (ObjectToString v)
  end.

(** [val >= y], [val <= y], [val > y] and [val < y] for a number [y]. *)
Definition greaterOrEqual (val : Value) (y : number) : bool :=
  match lessThan (ToNumber val) y with Some false => true | _ => false end.

Definition lessOrEqual (val : Value) (y : number) : bool :=
  match lessThan y (ToNumber val) with Some false => true | _ => false end.

Definition greater (val : Value) (y : number) : bool :=
  match lessThan y (ToNumber val) with Some true => true | _ => false end.

Definition less (val : Value) (y : number) : bool :=
  match lessThan (ToNumber val) y with Some true => true | _ => false end.

(** [val.length] of a value that is neither [undefined] nor [null]; a
    string has the length it has in the model, one per character. *)
Definition lengthOf (val : Value) : Value :=
  match val with
  | VString s => VNumber (Finite (inject_Z (Z.of_nat (String.length s))))
  | _ => getProp val "length"
  end.

(** [${v}] in a template literal. *)
Definition show (v : Value) : string := ToString ObjectToString v.

Definition NewValidatorMin (min : number) : PropValidator :=
  fun val name obj =>
    (obj,
     if greaterOrEqual val min then None
     else Some ("validate prop:" ++ name ++ " fail, expect val:" ++ show val
                  ++ " >= min:" ++ show (VNumber min))).

Definition NewValidatorMax (max : number) : PropValidator :=
  fun val name obj =>
    (obj,
     if lessOrEqual val max then None
     else Some ("validate prop:" ++ name ++ " fail, expect value:" ++ show val
                  ++ " <= max:" ++ show (VNumber max))).

Definition NewValidatorMinMax (min max : number) : MinMaxValidator :=
  if less (VNumber max) min then Refused min max
  else
    Made (fun val name obj =>
            (obj,
             if (greaterOrEqual val min && lessOrEqual val max)%bool then None
             else Some ("validate prop:" ++ name ++ " fail, expect min:"
                          ++ show (VNumber min) ++ " <= val:" ++ show val
                          ++ " <= " ++ show (VNumber max)))).

Definition NewValidatorStringNotEmpty (options : option StringNotEmptyOptions.t)
  : PropValidator :=
  fun val name obj =>
    let '(val, obj) :=
      match options with
      | Some o =>
          match StringNotEmptyOptions.trim o with
          | Some true =>
              let val := VString (trimString (show val)) in
              (val, JsMap.set name val obj)
          | _ => (val, obj)
          end
      | None => (val, obj)
      end in
    let tooLong :=
      match options with
      | Some o =>
          match StringNotEmptyOptions.max o with
          | Some max =>
              if (ToBoolean (VNumber max) && ToBoolean val
                  && greater (lengthOf val) max)%bool
              then Some ("validate prop:" ++ name ++ " fail, expect string length:"
                           ++ show (lengthOf val) ++ " <= max:" ++ show (VNumber max))
              else None
          | None => None
          end
      | None => None
      end in
    let tooShort :=
      match options with
      | Some o =>
          match StringNotEmptyOptions.min o with
          | Some min =>
              if (ToBoolean (VNumber min) && ToBoolean val
                  && less (lengthOf val) min)%bool
              then Some ("validate prop:" ++ name ++ " fail, expect string length:"
                           ++ show (lengthOf val) ++ " >= min:" ++ show (VNumber min))
              else None
          | None => None
          end
      | None => None
      end in
    match tooLong, tooShort with
    | Some reason, _ => (obj, Some reason)
    | None, Some reason => (obj, Some reason)
    | None, None =>
        (obj,
         if (ToBoolean val && greater (lengthOf val) (Finite 0))%bool then None
         else Some ("validate prop:" ++ name ++ " fail, expect string length > 0"))
    end.

Definition NewValidatorArrayNotEmpty : PropValidator :=
  fun val name obj =>
    (obj,
     if (ToBoolean val && greater (lengthOf val) (Finite 0))%bool then None
     else Some ("validate prop:" ++ name ++ " fail, expect Array.length > 0")).

End Validators.

(** A validator accepts a value when what it returns is [undefined] or the
    empty string, as the validation pass reads it. *)
Definition accepts (validator : PropValidator) (val : Value) (propName : string)
    (obj : JsMap.t Value) : Prop :=
  truthy (snd (validator val propName obj)) = false.

(* ===================================================================== *)
(** * Notions used by the statements *)
(* ===================================================================== *)

(** The invariant of the maps of the registry: a [Map] holds a key once,
    and [Prop] and [Class] file every [PropMetadata] under its [name]. *)
Definition wfMetadata (propNameToMetadata : JsMap.t PropMetadata) : Prop :=
  NoDup (JsMap.keys propNameToMetadata) /\
  Forall (fun entry => name (snd entry) = fst entry) propNameToMetadata.

Definition wfValidators (propNameToValidators : JsMap.t (list PropValidator)) : Prop :=
  NoDup (JsMap.keys propNameToValidators).

Record wfStore (st : Store) : Prop := {
  wf_metadata : forall c m, classTypeToPropMetadata st !! c = Some m -> wfMetadata m;
  wf_validators : forall c m, classTypeToPropValidator st !! c = Some m -> wfValidators m;
}.

(** The maps a class has in the registry, empty when it has none, and what
    they hold for a property name. *)
Definition metadataMapOf (st : Store) (c : ClassType) : JsMap.t PropMetadata :=
  match classTypeToPropMetadata st !! c with
  | Some m => m
  | None => JsMap.empty
  end.

Definition validatorMapOf (st : Store) (c : ClassType) : JsMap.t (list PropValidator) :=
  match classTypeToPropValidator st !! c with
  | Some m => m
  | None => JsMap.empty
  end.

Definition metadataFor (st : Store) (c : ClassType) (propName : string) : option PropMetadata :=
  JsMap.get propName (metadataMapOf st c).

Definition validatorsFor (st : Store) (c : ClassType) (propName : string)
  : option (list PropValidator) :=
  JsMap.get propName (validatorMapOf st c).

(** A validator list as an entry of a validator map: [Prop] keeps no entry
    for an empty list. *)
Definition nonEmptyEntry (validators : list PropValidator) : option (list PropValidator) :=
  match validators with
  | [] => None
  | _ :: _ => Some validators
  end.

(** The options a class body gives for a property name: those of its last
    [@Prop] on that name. *)
Fixpoint declared (props : list (string * PropOptions)) (propName : string)
  : option PropOptions :=
  match props with
  | [] => None
  | (k, options) :: props' =>
      match declared props' propName with
      | Some options' => Some options'
      | None => if String.eqb propName k then Some options else None
      end
  end.

(** The validators a class body declares for a property name: none when it
    does not declare the property, or declares it without [validate]. *)
Definition ownValidators (props : list (string * PropOptions)) (propName : string)
  : list PropValidator :=
  match declared props propName with
  | Some options => propValidatorsOf options
  | None => []
  end.

(** "None of the parent's validators for that field name remain attached
    unless the child redeclared them itself": every validator the class
    holds for the name is one its own declaration lists. *)
Definition onlyOwnValidators (st : Store) (c : ClassType) (propName : string)
    (options : PropOptions) : Prop :=
  forall validators validator,
    validatorsFor st c propName = Some validators ->
    In validator validators ->
    In validator (propValidatorsOf options).

(** [rec'] agrees with [rec] wherever [rec] has an outcome of the program. *)
Definition extends (rec rec' : Value -> Type_ -> outcome Value) : Prop :=
  forall val toType, rec val toType <> OutOfFuel -> rec' val toType = rec val toType.

(** The value of a field whose raw value is absent or null, once "the
    default is substituted if present". *)
Definition substituted (raw : Value) (propMetadata : PropMetadata) : Value :=
  if isUndefined (default propMetadata) then raw else default propMetadata.

(** A validator that, run for the property [propName], leaves the
    property [key] absent when it finds it absent. *)
Definition keepsAbsent (key propName : string) (validator : PropValidator) : Prop :=
  forall propValue parsed,
    JsMap.get key parsed = None ->
    JsMap.get key (fst (validator propValue propName parsed)) = None.

(** A rational that is an integer. *)
Definition isIntegerQ (q : Q) : bool :=
  (Z.rem (Qnum q) (Zpos (Qden q)) =? 0)%Z.

(** [propValue] as the loop of Step2 has it once the default has been
    applied: the raw value, or the default when the raw value is
    [undefined] or [null]. *)
Definition effectiveValue (val : Value) (propMetadata : PropMetadata) : Value :=
  let propValue := getProp val (name propMetadata) in
  if looseEqUndefined propValue then default propMetadata else propValue.

(** How many array literals are nested at [toType[0]]. *)
Fixpoint typeDepth (toType : Type_) : nat :=
  match toType with
  | TArray (elementType :: _) => S (typeDepth elementType)
  | _ => O
  end.

(** No class is reached through [toType[0]]. *)
Fixpoint classFree (toType : Type_) : bool :=
  match toType with
  | TClass _ => false
  | TArray (elementType :: _) => classFree elementType
  | _ => true
  end.

(** Neither a class nor [Boolean] is reached through [toType[0]]. *)
Fixpoint repeatable (toType : Type_) : bool :=
  match toType with
  | TClass _ => false
  | TPrimitive PrimitiveType.Boolean => false
  | TArray (elementType :: _) => repeatable elementType
  | _ => true
  end.

(** A property name the class body does not declare. *)
Definition undeclared (props : list (string * PropOptions)) (propName : string) : bool :=
  match declared props propName with
  | Some _ => false
  | None => true
  end.

(** A length within the bounds of [NewValidatorStringNotEmpty]: a bound
    that is absent or 0 bounds nothing. *)
Definition withinMax (max : option Q) (len : nat) : Prop :=
  match max with
  | Some max => (max == 0)%Q \/ (inject_Z (Z.of_nat len) <= max)%Q
  | None => True
  end.

Definition withinMin (min : option Q) (len : nat) : Prop :=
  match min with
  | Some min => (min == 0)%Q \/ (min <= inject_Z (Z.of_nat len))%Q
  | None => True
  end.

Definition trimOptions (max min : option Q) : option StringNotEmptyOptions.t :=
  Some {| StringNotEmptyOptions.trim := Some true;
          StringNotEmptyOptions.max := option_map Finite max;
          StringNotEmptyOptions.min := option_map Finite min |}.

(* ===================================================================== *)
(** * An example schema *)
(* ===================================================================== *)

(** [Base] declares [id] with a validator; [Child extends Base] redeclares
    [id] without one, and declares an optional [nick] and a validated
    [age]. *)
Module Example.

Definition DateParse (s : string) : number := NaN.
Definition ObjectToString (v : Value) : string := "[object Object]".

Definition getPrototypeOf (c : ClassType) : option ClassType :=
  if String.eqb c "Child" then Some "Base" else None.

Definition atLeast (min : Q) (reason : string) : PropValidator :=
  fun val _ parsed =>
    (parsed,
     match val with
     | VNumber (Finite q) => if Qle_bool min q then None else Some reason
     | _ => Some reason
     end).

Definition atMost (max : Q) (reason : string) : PropValidator :=
  fun val _ parsed =>
    (parsed,
     match val with
     | VNumber (Finite q) => if Qle_bool q max then None else Some reason
     | _ => Some reason
     end).

Definition nonNegative : PropValidator := atLeast 0 "v must >= 0".
Definition atMost150 : PropValidator := atMost 150 "v must <= 150".

Definition idOfBase : PropOptions :=
  {| opt_type := TPrimitive PrimitiveType.Int; opt_isOptional := None;
     opt_default := VUndefined; opt_validate := OneValidator nonNegative |}.

Definition idOfChild : PropOptions :=
  {| opt_type := TPrimitive PrimitiveType.Float; opt_isOptional := None;
     opt_default := VUndefined; opt_validate := NoValidate |}.

Definition nickOfChild : PropOptions :=
  {| opt_type := TPrimitive PrimitiveType.Int; opt_isOptional := Some true;
     opt_default := VUndefined; opt_validate := NoValidate |}.

Definition ageOfChild : PropOptions :=
  {| opt_type := TPrimitive PrimitiveType.Int; opt_isOptional := None;
     opt_default := VUndefined;
     opt_validate := ManyValidators [nonNegative; atMost150] |}.

Definition baseProps : list (string * PropOptions) := [("id", idOfBase)].

Definition childProps : list (string * PropOptions) :=
  [("id", idOfChild); ("nick", nickOfChild); ("age", ageOfChild)].

Definition orElse (st : Store) (r : outcome Store) : Store :=
  match r with Return st' => st' | _ => st end.

Definition afterBase : Store :=
  orElse emptyStore (declareClass getPrototypeOf "Base" baseProps emptyStore).

Definition store : Store :=
  orElse afterBase (declareClass getPrototypeOf "Child" childProps afterBase).

Definition childMetadata : JsMap.t PropMetadata :=
  [("id", currentMetadataOf idOfChild "id");
   ("nick", currentMetadataOf nickOfChild "nick");
   ("age", currentMetadataOf ageOfChild "age")].

(** [{ id: 1, age: 30 }] and [{ id: 1, age: 300 }]. *)
Definition young : Value :=
  VObject None [("id", VNumber (Finite 1)); ("age", VNumber (Finite 30))].

Definition old : Value :=
  VObject None [("id", VNumber (Finite 1)); ("age", VNumber (Finite 300))].

End Example.

(** [C extends B] and [B extends A], and a class [Node] whose field [next]
    has the type [Node] and the default [{}]. *)
Module Chain.

Definition StringToNumber (s : string) : number := Parse.parseFloat s.

Definition getPrototypeOf (c : ClassType) : option ClassType :=
  if String.eqb c "C" then Some "B"
  else if String.eqb c "B" then Some "A"
  else None.

Definition propsA : list (string * PropOptions) := [("id", Example.idOfBase)].
Definition propsB : list (string * PropOptions) := [("nick", Example.nickOfChild)].
Definition propsC : list (string * PropOptions) := [("age", Example.ageOfChild)].

Definition afterA : Store :=
  Example.orElse emptyStore (declareClass getPrototypeOf "A" propsA emptyStore).
Definition afterB : Store :=
  Example.orElse afterA (declareClass getPrototypeOf "B" propsB afterA).
Definition afterC : Store :=
  Example.orElse afterB (declareClass getPrototypeOf "C" propsC afterB).

(** [B] declared before [A]. *)
Definition firstB : Store :=
  Example.orElse emptyStore (declareClass getPrototypeOf "B" propsB emptyStore).
Definition thenA : Store :=
  Example.orElse firstB (declareClass getPrototypeOf "A" propsA firstB).

(** The property decorators of [A] without [@Class]. *)
Definition onlyProps : Store :=
  Example.orElse emptyStore (declareProps "A" propsA emptyStore).

Definition nextOfNode : PropOptions :=
  {| opt_type := TClass "Node"; opt_isOptional := None;
     opt_default := VObject None []; opt_validate := NoValidate |}.

Definition withNode : Store :=
  Example.orElse emptyStore
    (declareClass getPrototypeOf "Node" [("next", nextOfNode)] emptyStore).

(** [@Prop({ type: Node, isOptional: false, default: null })]. *)
Definition withNullDefault : PropOptions :=
  {| opt_type := TClass "Node"; opt_isOptional := Some false;
     opt_default := VNull; opt_validate := NoValidate |}.

(** [{ id: "x", age: 30 }]. *)
Definition badId : Value :=
  VObject None [("id", VString "x"); ("age", VNumber (Finite 30))].

End Chain.

(** A class [Account] with a [kind] that a validator trims, a [level]
    whose default is 1, an optional [nick] and a required [age]. *)
Module Account.

Definition trimmed : PropValidator :=
  NewValidatorStringNotEmpty Example.ObjectToString Chain.StringToNumber
    (trimOptions None None).

Definition kindOfAccount : PropOptions :=
  {| opt_type := TPrimitive PrimitiveType.String; opt_isOptional := None;
     opt_default := VUndefined; opt_validate := OneValidator trimmed |}.

Definition levelOfAccount : PropOptions :=
  {| opt_type := TPrimitive PrimitiveType.Int; opt_isOptional := None;
     opt_default := VNumber (Finite 1); opt_validate := NoValidate |}.

Definition accountProps : list (string * PropOptions) :=
  [("kind", kindOfAccount); ("level", levelOfAccount);
   ("nick", Example.nickOfChild); ("age", Example.ageOfChild)].

Definition store : Store :=
  Example.orElse emptyStore
    (declareClass Example.getPrototypeOf "Account" accountProps emptyStore).

Definition accountMetadata : JsMap.t PropMetadata :=
  [("kind", currentMetadataOf kindOfAccount "kind");
   ("level", currentMetadataOf levelOfAccount "level");
   ("nick", currentMetadataOf Example.nickOfChild "nick");
   ("age", currentMetadataOf Example.ageOfChild "age")].

Definition accountValidators : JsMap.t (list PropValidator) :=
  [("kind", [trimmed]); ("age", [Example.nonNegative; Example.atMost150])].

(** [{ kind: "string", age: 30 }] and [{ kind: "string" }]. *)
Definition complete : Value :=
  VObject None [("kind", VString "string"); ("age", VNumber (Finite 30))].

Definition noAge : Value := VObject None [("kind", VString "string")].

(** What [complete] is converted to. *)
Definition converted : JsMap.t Value :=
  [("kind", VString "string"); ("level", VNumber (Finite 1));
   ("age", VNumber (Finite 30))].

End Account.

(* ===================================================================== *)
(** * Scalar targets *)
(* ===================================================================== *)

Section ScalarFacts.

Variable DateParse : string -> number.
Variable ObjectToString : Value -> string.
Variable store : Store.

(** What [convertToString] accepts: the two strings ["string"] and
    ["number"], and nothing else. *)
Lemma convertToString_Return (val v : Value) :
  convertToString ObjectToString val = Return v <->
  (val = VString "string" \/ val = VString "number") /\ v = val.
Proof.
  unfold convertToString, strictEqString.
  destruct val as [| | b | n | s | l | p o | d];
    try (split; [discriminate | intros [[H|H] _]; discriminate]).
  destruct (String.eqb s "string") eqn:E1.
  - apply String.eqb_eq in E1; subst s. split.
    + intros [= <-]. auto.
    + intros [_ ->]. reflexivity.
  - destruct (String.eqb s "number") eqn:E2.
    + apply String.eqb_eq in E2; subst s. split.
      * intros [= <-]. auto.
      * intros [_ ->]. reflexivity.
    + apply String.eqb_neq in E1, E2. split; [discriminate |].
      intros [[[= H]|[= H]] _]; contradiction.
Qed.

(** What [convertToBoolean] accepts: the strings ["boolean"], ["true"]
    and ["false"], and nothing else. *)
Lemma convertToBoolean_Return (val v : Value) :
  convertToBoolean val = Return v <->
  (val = VString "boolean" /\ v = val) \/
  (val = VString "true" /\ v = VBoolean true) \/
  (val = VString "false" /\ v = VBoolean false).
Proof.
  unfold convertToBoolean, strictEqString.
  destruct val as [| | b | n | s | l | p o | d];
    try (split; [discriminate | intros [[H _]|[[H _]|[H _]]]; discriminate]).
  destruct (String.eqb s "boolean") eqn:E1; [|destruct (String.eqb s "true") eqn:E2;
    [|destruct (String.eqb s "false") eqn:E3]];
    rewrite ?String.eqb_eq, ?String.eqb_neq in *; subst.
  - split; [intros [= <-]; auto | intros [[_ ->]|[[[=] _]|[[=] _]]]; reflexivity].
  - split; [intros [= <-]; auto | intros [[[=] _]|[[_ ->]|[[=] _]]]; reflexivity].
  - split; [intros [= <-]; auto | intros [[[=] _]|[[[=] _]|[_ ->]]]; reflexivity].
  - split; [discriminate | intros [[[= H] _]|[[[= H] _]|[[= H] _]]]; contradiction].
Qed.

(** C1: on the inputs the claim is about, [convertToString] compares the
    value itself, not its [typeof], with ['string'] and ['number']: an
    ordinary string and a number are both rejected, and the string
    ["number"] is what is returned for the string ["number"]. *)
Theorem C1_convertToString_rejects_strings_and_numbers (fuel : nat) :
  convertToType DateParse ObjectToString store (S fuel)
    (VString "hello") (TPrimitive PrimitiveType.String)
    = Throw (NotString (VString "hello")) /\
  convertToType DateParse ObjectToString store (S fuel)
    (VNumber (Finite 5)) (TPrimitive PrimitiveType.String)
    = Throw (NotString (VNumber (Finite 5))) /\
  convertToType DateParse ObjectToString store (S fuel)
    (VString "number") (TPrimitive PrimitiveType.String)
    = Return (VString "number").
Proof. repeat split; reflexivity. Qed.

(** C2: [convertToBoolean] compares the value itself with ['boolean']:
    the booleans [true] and [false] are rejected, and the string
    ["boolean"] is returned as it is.  The number 1 is rejected. *)
Theorem C2_convertToBoolean_rejects_booleans (fuel : nat) :
  convertToType DateParse ObjectToString store (S fuel)
    (VBoolean true) (TPrimitive PrimitiveType.Boolean)
    = Throw (NotBoolean (VBoolean true)) /\
  convertToType DateParse ObjectToString store (S fuel)
    (VBoolean false) (TPrimitive PrimitiveType.Boolean)
    = Throw (NotBoolean (VBoolean false)) /\
  convertToType DateParse ObjectToString store (S fuel)
    (VString "boolean") (TPrimitive PrimitiveType.Boolean)
    = Return (VString "boolean") /\
  convertToType DateParse ObjectToString store (S fuel)
    (VString "true") (TPrimitive PrimitiveType.Boolean)
    = Return (VBoolean true) /\
  convertToType DateParse ObjectToString store (S fuel)
    (VString "false") (TPrimitive PrimitiveType.Boolean)
    = Return (VBoolean false) /\
  convertToType DateParse ObjectToString store (S fuel)
    (VNumber (Finite 1)) (TPrimitive PrimitiveType.Boolean)
    = Throw (NotBoolean (VNumber (Finite 1))).
Proof. repeat split; reflexivity. Qed.

(** C3: whatever the element type, [null] is not an array for
    [convertToArray], which throws. *)
Theorem C3_convertToArray_null_throws (fuel : nat) (elem : Type_) :
  convertToType DateParse ObjectToString store (S fuel)
    VNull (TArray [elem]) = Throw (NotArray VNull).
Proof. reflexivity. Qed.

(** C8: [null] converts to [null] for a registered class, and is
    rejected for [Int]. *)
Theorem C8_null_to_class_is_null_to_Int_fails (fuel : nat) (classType : ClassType) :
  classType ∈ classSet store ->
  convertToType DateParse ObjectToString store (S fuel)
    VNull (TClass classType) = Return VNull /\
  convertToType DateParse ObjectToString store (S fuel)
    VNull (TPrimitive PrimitiveType.Int) = Throw (NotInt VNull).
Proof.
  intros Hreg. split; [| reflexivity].
  simpl. rewrite bool_decide_eq_true_2 by exact Hreg. reflexivity.
Qed.

(** C9: [Int] and [Float] read the numeric prefix of a string that is not
    a numeric string: ["5abc"] converts to 5 for both. *)
Theorem C9_numeric_prefix_is_parsed (fuel : nat) :
  convertToType DateParse ObjectToString store (S fuel)
    (VString "5abc") (TPrimitive PrimitiveType.Int)
    = Return (VNumber (Finite 5)) /\
  convertToType DateParse ObjectToString store (S fuel)
    (VString "5abc") (TPrimitive PrimitiveType.Float)
    = Return (VNumber (Finite 5)).
Proof. split; reflexivity. Qed.

(** C10: a call of [convertToType] that returns does not return
    [undefined]. *)
Theorem C10_result_is_never_undefined (fuel : nat) (val : Value) (toType : Type_) (v : Value) :
  convertToType DateParse ObjectToString store fuel val toType = Return v -> v <> VUndefined.
Proof.
  destruct fuel as [| fuel]; [discriminate |].
  cbn [convertToType]. unfold bind.
  match goal with |- match ?m with _ => _ end = _ -> _ => destruct m as [parsed | e |] end;
    try discriminate.
  destruct parsed; cbn [isUndefined]; intros [= <-]; discriminate.
Qed.

End ScalarFacts.

(* ===================================================================== *)
(** * Facts about insertion-ordered maps *)
(* ===================================================================== *)

Module JsMapFacts.
Import JsMap.

Section WithValues.
Context {V : Type}.
Implicit Types (m : JsMap.t V) (k : string) (v : V).

Lemma get_set k k' v m :
  get k (set k' v m) = if String.eqb k k' then Some v else get k m.
Proof.
  induction m as [| [k0 v0] m IH]; simpl.
  - destruct (String.eqb k k'); reflexivity.
  - destruct (String.eqb k' k0) eqn:E0; simpl.
    + apply String.eqb_eq in E0; subst k0.
      destruct (String.eqb k k'); reflexivity.
    + rewrite IH. destruct (String.eqb k k') eqn:E; [| reflexivity].
      apply String.eqb_eq in E; subst k. rewrite E0. reflexivity.
Qed.

Lemma get_set_eq k v m : get k (set k v m) = Some v.
Proof. rewrite get_set, String.eqb_refl. reflexivity. Qed.

Lemma get_set_ne k k' v m : k <> k' -> get k (set k' v m) = get k m.
Proof. intros H. rewrite get_set. apply String.eqb_neq in H. rewrite H. reflexivity. Qed.

Lemma get_delete k k' m :
  get k (delete k' m) = if String.eqb k k' then None else get k m.
Proof.
  induction m as [| [k0 v0] m IH]; simpl.
  - destruct (String.eqb k k'); reflexivity.
  - destruct (String.eqb k' k0) eqn:E0; simpl.
    + apply String.eqb_eq in E0; subst k0. rewrite IH.
      destruct (String.eqb k k'); reflexivity.
    + rewrite IH. destruct (String.eqb k k') eqn:E; [| reflexivity].
      apply String.eqb_eq in E; subst k. rewrite E0. reflexivity.
Qed.

Lemma has_true k m : has k m = true <-> is_Some (get k m).
Proof.
  unfold has. destruct (get k m); split; intros H; try reflexivity; eauto.
  - discriminate.
  - destruct H as [? [=]].
Qed.

Lemma get_None k m : get k m = None <-> k ∉ keys m.
Proof.
  unfold keys. induction m as [| [k0 v0] m IH]; simpl.
  - split; [intros _; apply not_elem_of_nil | reflexivity].
  - rewrite not_elem_of_cons, <- IH.
    destruct (String.eqb k k0) eqn:E.
    + apply String.eqb_eq in E. split; [discriminate | intros [H _]; contradiction].
    + apply String.eqb_neq in E. tauto.
Qed.

Lemma get_app k m1 m2 :
  get k (m1 ++ m2)%list = match get k m1 with Some v => Some v | None => get k m2 end.
Proof.
  induction m1 as [| [k0 v0] m1 IH]; simpl; [reflexivity |].
  destruct (String.eqb k k0); [reflexivity | exact IH].
Qed.

Lemma elem_of_keys k v m : (k, v) ∈ m -> k ∈ keys m.
Proof.
  unfold keys. induction m as [| [k0 v0] m IH]; simpl; intros Hin.
  - apply elem_of_nil in Hin. contradiction.
  - apply elem_of_cons in Hin as [[= -> ->] | Hin]; [left | right; auto].
Qed.

Lemma elem_of_values v m : v ∈ values m <-> exists k, (k, v) ∈ m.
Proof.
  unfold values. induction m as [| [k0 v0] m IH]; simpl.
  - split; [intros H; apply elem_of_nil in H; contradiction |].
    intros [k H]. apply elem_of_nil in H. contradiction.
  - rewrite elem_of_cons, IH. split.
    + intros [-> | [k H]]; [exists k0; left | exists k; right; exact H].
    + intros [k H]. apply elem_of_cons in H as [[= -> ->] | H]; eauto.
Qed.

(** In a map without repeated keys, an entry is what [get] finds. *)
Lemma get_elem_of k v m : NoDup (keys m) -> (k, v) ∈ m -> get k m = Some v.
Proof.
  unfold keys. induction m as [| [k0 v0] m IH]; simpl; intros Hnd Hin.
  - apply elem_of_nil in Hin. contradiction.
  - apply NoDup_cons in Hnd as [Hk0 Hnd].
    apply elem_of_cons in Hin as [[= -> ->] | Hin].
    + rewrite String.eqb_refl. reflexivity.
    + destruct (String.eqb k k0) eqn:E; [| auto].
      apply String.eqb_eq in E; subst k0. exfalso. apply Hk0.
      exact (elem_of_keys _ _ _ Hin).
Qed.

Lemma elem_of_keys_set k k' v m : k ∈ keys (set k' v m) <-> k = k' \/ k ∈ keys m.
Proof.
  unfold keys. induction m as [| [k0 v0] m IH]; simpl.
  - rewrite list_elem_of_singleton, elem_of_nil. tauto.
  - destruct (String.eqb k' k0) eqn:E; simpl.
    + apply String.eqb_eq in E; subst k0. rewrite !elem_of_cons. tauto.
    + rewrite !elem_of_cons, IH. tauto.
Qed.

Lemma NoDup_keys_set k v m : NoDup (keys m) -> NoDup (keys (set k v m)).
Proof.
  unfold keys. induction m as [| [k0 v0] m IH]; simpl; intros Hnd.
  - apply NoDup_singleton.
  - apply NoDup_cons in Hnd as [Hk0 Hnd].
    destruct (String.eqb k k0) eqn:E; simpl.
    + apply String.eqb_eq in E; subst k0. apply NoDup_cons. auto.
    + apply String.eqb_neq in E. apply NoDup_cons. split; [| auto].
      intros Hin. apply (elem_of_keys_set k0 k v m) in Hin as [-> | Hin]; auto.
Qed.

Lemma elem_of_keys_delete k k' m : k ∈ keys (delete k' m) -> k ∈ keys m.
Proof.
  unfold keys. induction m as [| [k0 v0] m IH]; simpl; [auto |].
  destruct (String.eqb k' k0); simpl; rewrite !elem_of_cons; tauto.
Qed.

Lemma NoDup_keys_delete k m : NoDup (keys m) -> NoDup (keys (delete k m)).
Proof.
  unfold keys. induction m as [| [k0 v0] m IH]; simpl; intros Hnd; [exact Hnd |].
  apply NoDup_cons in Hnd as [Hk0 Hnd].
  destruct (String.eqb k k0); simpl; [auto |].
  apply NoDup_cons. split; [| auto].
  intros Hin. apply Hk0. exact (elem_of_keys_delete _ _ _ Hin).
Qed.

Lemma Forall_set (P : string * V -> Prop) k v m :
  Forall P m -> P (k, v) -> Forall P (set k v m).
Proof.
  intros Hm Hkv. induction Hm as [| [k0 v0] m H0 Hm IH]; simpl.
  - constructor; [exact Hkv | constructor].
  - destruct (String.eqb k k0); constructor; auto.
Qed.

End WithValues.
End JsMapFacts.

(* ===================================================================== *)
(** * The registry after [Prop] and [Class] *)
(* ===================================================================== *)

Section RegistryFacts.

Variable getPrototypeOf : ClassType -> option ClassType.

Import JsMapFacts.

(** What one [@Prop] leaves in the registry. *)
Lemma PropDecorator_Return options c n st st' :
  PropDecorator options c n st = Return st' ->
  classSet st' = classSet st /\
  classTypeToPropMetadata st' =
    <[c := JsMap.set n (currentMetadataOf options n) (metadataMapOf st c)]>
      (classTypeToPropMetadata st) /\
  classTypeToPropValidator st' =
    <[c := match propValidatorsOf options with
           | [] => JsMap.delete n (validatorMapOf st c)
           | _ :: _ => JsMap.set n (propValidatorsOf options) (validatorMapOf st c)
           end]> (classTypeToPropValidator st).
Proof.
  unfold PropDecorator, getOrCreateMetadataMap, getOrCreateValidatorMap,
    metadataMapOf, validatorMapOf.
  destruct (match opt_type options with TArray _ => _ | _ => _ end); [discriminate |].
  destruct (classTypeToPropMetadata st !! c) as [mm |];
    destruct (classTypeToPropValidator st !! c) as [vm |] eqn:Ev;
    cbn [classTypeToPropValidator classTypeToPropMetadata classSet putMetadataMap
         name currentMetadataOf];
    rewrite ?Ev;
    destruct (propValidatorsOf options) as [| v vs]; cbn [List.length Nat.ltb Nat.leb];
    intros [= <-]; cbn; rewrite ?insert_insert_eq; auto.
Qed.

Lemma PropDecorator_metadataFor options c n st st' c' n' :
  PropDecorator options c n st = Return st' ->
  metadataFor st' c' n' =
    if bool_decide (c' = c) && String.eqb n' n
    then Some (currentMetadataOf options n)
    else metadataFor st c' n'.
Proof.
  intros H. apply PropDecorator_Return in H as (_ & Hm & _).
  unfold metadataFor, metadataMapOf. rewrite Hm.
  case_bool_decide as Hc; simpl.
  - subst c'. rewrite lookup_insert_eq, get_set. reflexivity.
  - rewrite lookup_insert_ne by congruence. reflexivity.
Qed.

Lemma PropDecorator_validatorsFor options c n st st' c' n' :
  PropDecorator options c n st = Return st' ->
  validatorsFor st' c' n' =
    if bool_decide (c' = c) && String.eqb n' n
    then nonEmptyEntry (propValidatorsOf options)
    else validatorsFor st c' n'.
Proof.
  intros H. apply PropDecorator_Return in H as (_ & _ & Hv).
  unfold validatorsFor, validatorMapOf at 1. rewrite Hv.
  case_bool_decide as Hc; simpl.
  - subst c'. rewrite lookup_insert_eq.
    destruct (propValidatorsOf options); [rewrite get_delete | rewrite get_set];
      destruct (String.eqb n' n); reflexivity.
  - rewrite lookup_insert_ne by congruence. reflexivity.
Qed.

(** A class body: for each name, the last [@Prop] on it decides. *)
Lemma declareProps_validatorsFor c props : forall st st' c' n,
  declareProps c props st = Return st' ->
  validatorsFor st' c' n =
    match (if bool_decide (c' = c) then declared props n else None) with
    | Some options => nonEmptyEntry (propValidatorsOf options)
    | None => validatorsFor st c' n
    end.
Proof.
  induction props as [| [k options] props IH]; intros st st' c' n; simpl.
  - intros [= <-]. destruct (bool_decide (c' = c)); reflexivity.
  - destruct (PropDecorator options c k st) as [st1 | |] eqn:E1; try discriminate.
    simpl. intros H. rewrite (IH _ _ c' n H).
    rewrite (PropDecorator_validatorsFor _ _ _ _ _ c' n E1).
    destruct (bool_decide (c' = c)); simpl; [| reflexivity].
    destruct (declared props n); [reflexivity |].
    destruct (String.eqb n k); reflexivity.
Qed.

Lemma declareProps_metadataFor c props : forall st st' c' n,
  declareProps c props st = Return st' ->
  metadataFor st' c' n =
    match (if bool_decide (c' = c) then declared props n else None) with
    | Some options => Some (currentMetadataOf options n)
    | None => metadataFor st c' n
    end.
Proof.
  induction props as [| [k options] props IH]; intros st st' c' n; simpl.
  - intros [= <-]. destruct (bool_decide (c' = c)); reflexivity.
  - destruct (PropDecorator options c k st) as [st1 | |] eqn:E1; try discriminate.
    simpl. intros H. rewrite (IH _ _ c' n H).
    rewrite (PropDecorator_metadataFor _ _ _ _ _ c' n E1).
    destruct (bool_decide (c' = c)); simpl; [| reflexivity].
    destruct (declared props n); [reflexivity |].
    destruct (String.eqb n k) eqn:E; [| reflexivity].
    apply String.eqb_eq in E. subst k. reflexivity.
Qed.

(** The merge loops: the current map wins, the parent fills the gaps. *)
Lemma mergeValidators_get parent : forall current n,
  JsMap.get n (mergeValidators parent current) =
    match JsMap.get n current with
    | Some validators => Some validators
    | None => JsMap.get n parent
    end.
Proof.
  induction parent as [| [k pvs] parent IH]; intros current n; simpl.
  - destruct (JsMap.get n current); reflexivity.
  - rewrite IH. unfold JsMap.has.
    destruct (JsMap.get k current) as [vs |] eqn:Ek; simpl.
    + destruct (JsMap.get n current) eqn:En; [reflexivity |].
      destruct (String.eqb n k) eqn:E; [| reflexivity].
      apply String.eqb_eq in E. congruence.
    + rewrite get_set. destruct (String.eqb n k) eqn:E.
      * apply String.eqb_eq in E. subst k. rewrite Ek. reflexivity.
      * reflexivity.
Qed.

Lemma mergeMetadata_get_Some parent : forall current n pm,
  JsMap.get n current = Some pm ->
  JsMap.get n (mergeMetadata parent current) = Some pm.
Proof.
  induction parent as [| p parent IH]; intros current n pm Hn; simpl; [exact Hn |].
  apply IH. unfold JsMap.has.
  destruct (JsMap.get (name p) current) eqn:Ep; simpl; [exact Hn |].
  rewrite get_set. destruct (String.eqb n (name p)) eqn:E; [| exact Hn].
  apply String.eqb_eq in E. congruence.
Qed.

(** What [@Class] leaves in the registry for the validators. *)
Lemma ClassDecorator_validatorsFor c st c' n :
  validatorsFor (ClassDecorator getPrototypeOf c st) c' n =
    if bool_decide (c' = c) then
      match validatorsFor st c n with
      | Some validators => Some validators
      | None =>
          match getPrototypeOf c with
          | Some p => validatorsFor st p n
          | None => None
          end
      end
    else validatorsFor st c' n.
Proof.
  unfold ClassDecorator, validatorsFor, validatorMapOf at 1.
  cbn [classTypeToPropValidator].
  set (st1 := match getPrototypeOf c ≫= _ with Some _ => _ | None => st end).
  assert (Hst1 : classTypeToPropValidator st1 = classTypeToPropValidator st).
  { subst st1. destruct (getPrototypeOf c ≫= _); [| reflexivity].
    unfold getOrCreateMetadataMap.
    destruct (classTypeToPropMetadata st !! c); reflexivity. }
  destruct (getPrototypeOf c) as [p |]; simpl.
  - rewrite Hst1. unfold validatorMapOf.
    destruct (classTypeToPropValidator st !! p) as [pv |] eqn:Ep.
    + unfold getOrCreateValidatorMap. rewrite Hst1.
      destruct (classTypeToPropValidator st !! c) as [cv |] eqn:Ec;
        cbn [classTypeToPropValidator putValidatorMap]; rewrite ?Hst1;
        case_bool_decide as Hc; subst;
        rewrite ?lookup_insert_eq, ?lookup_insert_ne, ?Ec, ?mergeValidators_get by congruence;
        reflexivity.
    + rewrite Hst1. case_bool_decide as Hc; subst; [| reflexivity].
      destruct (classTypeToPropValidator st !! c); simpl; [| reflexivity].
      match goal with |- ?x = _ => destruct x; reflexivity end.
  - rewrite Hst1. case_bool_decide as Hc; subst; [| reflexivity].
    unfold validatorMapOf.
    match goal with |- ?x = _ => destruct x; reflexivity end.
Qed.

Lemma ClassDecorator_metadataFor_Some c st n pm :
  metadataFor st c n = Some pm ->
  metadataFor (ClassDecorator getPrototypeOf c st) c n = Some pm.
Proof.
  unfold ClassDecorator, metadataFor, metadataMapOf.
  intros Hn.
  set (st1 := match getPrototypeOf c ≫= _ with Some _ => _ | None => st end).
  assert (H1 : match classTypeToPropMetadata st1 !! c with
               | Some m => JsMap.get n m
               | None => None
               end = Some pm).
  { subst st1. destruct (getPrototypeOf c ≫= _) as [parentMap |].
    - unfold getOrCreateMetadataMap.
      destruct (classTypeToPropMetadata st !! c) as [cm |];
        cbn [classTypeToPropMetadata putMetadataMap];
        rewrite lookup_insert_eq; [| discriminate].
      apply mergeMetadata_get_Some, Hn.
    - destruct (classTypeToPropMetadata st !! c); [exact Hn | discriminate]. }
  clearbody st1. cbn [classTypeToPropMetadata].
  destruct (getPrototypeOf c ≫= _) as [parentMap |].
  - unfold getOrCreateValidatorMap.
    destruct (classTypeToPropValidator st1 !! c);
      cbn [classTypeToPropMetadata putValidatorMap];
      destruct (classTypeToPropMetadata st1 !! c); (exact H1 || discriminate).
  - destruct (classTypeToPropMetadata st1 !! c); (exact H1 || discriminate).
Qed.

(** What a class declaration leaves as the validators of each name. *)
Lemma declareClass_validatorsFor c p props st st' n :
  getPrototypeOf c = Some p -> p <> c ->
  classTypeToPropValidator st !! c = None ->
  declareClass getPrototypeOf c props st = Return st' ->
  validatorsFor st' c n =
    match ownValidators props n with
    | [] => validatorsFor st p n
    | _ :: _ => Some (ownValidators props n)
    end.
Proof.
  intros Hp Hne Hfresh. unfold declareClass.
  destruct (declareProps c props st) as [st1 | |] eqn:E; simpl; try discriminate.
  intros [= <-]. rewrite ClassDecorator_validatorsFor, Hp.
  rewrite bool_decide_eq_true_2 by reflexivity.
  rewrite (declareProps_validatorsFor c props st st1 c n E).
  rewrite (declareProps_validatorsFor c props st st1 p n E).
  rewrite bool_decide_eq_true_2 by reflexivity.
  rewrite bool_decide_eq_false_2 by exact Hne.
  unfold ownValidators.
  destruct (declared props n) as [options |].
  - destruct (propValidatorsOf options); reflexivity.
  - unfold validatorsFor at 1, validatorMapOf. rewrite Hfresh. reflexivity.
Qed.


(** C4, as the code has it: a property the class body redeclares has the
    metadata (type, optionality, default) of the child's declaration and
    none of the parent's.  Its validators are the child's when the
    redeclaration lists at least one; a redeclaration that lists none
    leaves the parent's validator list attached. *)
Theorem C4_redeclared_field_replaces_metadata
    (c p : ClassType) (props : list (string * PropOptions)) (st st' : Store)
    (propName : string) (options : PropOptions) :
  getPrototypeOf c = Some p -> p <> c ->
  classTypeToPropValidator st !! c = None ->
  declareClass getPrototypeOf c props st = Return st' ->
  declared props propName = Some options ->
  metadataFor st' c propName = Some (currentMetadataOf options propName) /\
  validatorsFor st' c propName =
    match propValidatorsOf options with
    | [] => validatorsFor st p propName
    | _ :: _ => Some (propValidatorsOf options)
    end.
Proof.
  intros Hp Hne Hfresh Hdecl Hown. split.
  - unfold declareClass in Hdecl.
    destruct (declareProps c props st) as [st1 | |] eqn:E; simpl in Hdecl; try discriminate.
    injection Hdecl as <-. apply ClassDecorator_metadataFor_Some.
    rewrite (declareProps_metadataFor c props st st1 c propName E).
    rewrite bool_decide_eq_true_2 by reflexivity. rewrite Hown. reflexivity.
  - rewrite (declareClass_validatorsFor c p props st st' propName Hp Hne Hfresh Hdecl).
    unfold ownValidators. rewrite Hown. reflexivity.
Qed.

(** ** The invariant of the registry *)

Lemma wfStore_empty : wfStore emptyStore.
Proof. split; intros c m H; simpl in H; rewrite lookup_empty in H; discriminate. Qed.

Lemma wfMetadata_empty : wfMetadata JsMap.empty.
Proof. split; [apply NoDup_nil_2 | constructor]. Qed.

Lemma wfMetadata_set n pm m :
  wfMetadata m -> name pm = n -> wfMetadata (JsMap.set n pm m).
Proof.
  intros [Hnd Hall] Hn. split.
  - apply NoDup_keys_set, Hnd.
  - apply Forall_set; [exact Hall | exact Hn].
Qed.

Lemma wfMetadata_mapOf st c : wfStore st -> wfMetadata (metadataMapOf st c).
Proof.
  intros [Hm _]. unfold metadataMapOf.
  destruct (classTypeToPropMetadata st !! c) eqn:E; [eauto | apply wfMetadata_empty].
Qed.

Lemma wfValidators_mapOf st c : wfStore st -> wfValidators (validatorMapOf st c).
Proof.
  intros [_ Hv]. unfold validatorMapOf.
  destruct (classTypeToPropValidator st !! c) eqn:E; [eauto | apply NoDup_nil_2].
Qed.

Lemma PropDecorator_wf options c n st st' :
  wfStore st -> PropDecorator options c n st = Return st' -> wfStore st'.
Proof.
  intros Hwf H. apply PropDecorator_Return in H as (_ & Hm & Hv).
  split; intros c' m.
  - rewrite Hm. destruct (decide (c = c')) as [<- | Hne].
    + rewrite lookup_insert_eq. intros [= <-].
      apply wfMetadata_set; [apply wfMetadata_mapOf, Hwf | reflexivity].
    + rewrite lookup_insert_ne by exact Hne. apply (wf_metadata st Hwf).
  - rewrite Hv. destruct (decide (c = c')) as [<- | Hne].
    + rewrite lookup_insert_eq. intros [= <-].
      pose proof (wfValidators_mapOf st c Hwf) as Hc.
      destruct (propValidatorsOf options);
        [apply NoDup_keys_delete | apply NoDup_keys_set]; exact Hc.
    + rewrite lookup_insert_ne by exact Hne. apply (wf_validators st Hwf).
Qed.

Lemma mergeMetadata_wf parent : forall current,
  wfMetadata current -> wfMetadata (mergeMetadata parent current).
Proof.
  induction parent as [| pm parent IH]; intros current Hwf; simpl; [exact Hwf |].
  apply IH. destruct (Bool.eqb _ false); [| exact Hwf].
  apply wfMetadata_set; [exact Hwf | reflexivity].
Qed.

Lemma mergeValidators_wf parent : forall current,
  wfValidators current -> wfValidators (mergeValidators parent current).
Proof.
  induction parent as [| [k vs] parent IH]; intros current Hwf; simpl; [exact Hwf |].
  apply IH. destruct (Bool.eqb _ false); [| exact Hwf].
  apply NoDup_keys_set, Hwf.
Qed.

Lemma ClassDecorator_wf c st : wfStore st -> wfStore (ClassDecorator getPrototypeOf c st).
Proof.
  intros Hwf. unfold ClassDecorator.
  set (st1 := match getPrototypeOf c ≫= _ with Some _ => _ | None => st end).
  assert (Hwf1 : wfStore st1).
  { subst st1. destruct (getPrototypeOf c ≫= _) as [pm |]; [| exact Hwf].
    pose proof (wfMetadata_mapOf st c Hwf) as Hc. unfold metadataMapOf in Hc.
    unfold getOrCreateMetadataMap.
    destruct (classTypeToPropMetadata st !! c) as [cm |] eqn:Ec;
      (split; intros c' m; cbn [classTypeToPropMetadata classTypeToPropValidator putMetadataMap];
       [ destruct (decide (c = c')) as [<- | Hne];
         [ rewrite lookup_insert_eq; intros [= <-]; apply mergeMetadata_wf, Hc
         | rewrite !lookup_insert_ne by exact Hne; apply (wf_metadata st Hwf) ]
       | apply (wf_validators st Hwf) ]). }
  clearbody st1.
  destruct (getPrototypeOf c ≫= _) as [pv |];
    [| split; [apply (wf_metadata st1 Hwf1) | apply (wf_validators st1 Hwf1)]].
  pose proof (wfValidators_mapOf st1 c Hwf1) as Hc. unfold validatorMapOf in Hc.
  unfold getOrCreateValidatorMap.
  destruct (classTypeToPropValidator st1 !! c) as [cv |] eqn:Ec;
    (split; intros c' m; cbn [classTypeToPropMetadata classTypeToPropValidator putValidatorMap];
     [ apply (wf_metadata st1 Hwf1)
     | destruct (decide (c = c')) as [<- | Hne];
       [ rewrite lookup_insert_eq; intros [= <-]; apply mergeValidators_wf, Hc
       | rewrite !lookup_insert_ne by exact Hne; apply (wf_validators st1 Hwf1) ] ]).
Qed.

(** Every class declaration keeps the registry well formed. *)
Lemma declareClass_wf c props : forall st st',
  wfStore st -> declareClass getPrototypeOf c props st = Return st' -> wfStore st'.
Proof.
  unfold declareClass. intros st st' Hwf.
  destruct (declareProps c props st) as [st1 | |] eqn:E; simpl; try discriminate.
  intros [= <-]. apply ClassDecorator_wf.
  clear - Hwf E. revert st st1 Hwf E.
  induction props as [| [k options] props IH]; intros st st1 Hwf; simpl.
  - intros [= <-]. exact Hwf.
  - destruct (PropDecorator options c k st) as [st2 | |] eqn:E2; simpl; try discriminate.
    apply IH. eapply PropDecorator_wf; eauto.
Qed.

End RegistryFacts.

(* ===================================================================== *)
(** * Records: field population and the validation pass *)
(* ===================================================================== *)

Section RecordFacts.

Variable DateParse : string -> number.
Variable ObjectToString : Value -> string.
Variable store : Store.

Import JsMapFacts.

#[local] Abbreviation convert := (convertToType DateParse ObjectToString store).

Section Loops.

Variable rec : Value -> Type_ -> outcome Value.
Variables (val : Value) (classType : ClassType).

Lemma convertProps_app (before after : list PropMetadata) : forall parsed,
  convertProps rec val classType (before ++ after)%list parsed =
    let! parsed' := convertProps rec val classType before parsed in
    convertProps rec val classType after parsed'.
Proof.
  induction before as [| pm before IH]; intros parsed; simpl; [reflexivity |].
  destruct (convertProp rec val classType parsed pm); simpl; auto.
Qed.

(** A turn of the loop writes no property but its own. *)
Lemma convertProp_get_other parsed pm parsed' key :
  convertProp rec val classType parsed pm = Return parsed' ->
  key <> name pm ->
  JsMap.get key parsed' = JsMap.get key parsed.
Proof.
  unfold convertProp. intros H Hne.
  assert (Hassign : forall propValue,
    (let! v := rec propValue (type pm) in Return (JsMap.set (name pm) v parsed))
      = Return parsed' -> JsMap.get key parsed' = JsMap.get key parsed).
  { intros propValue. destruct (rec propValue (type pm)); simpl; try discriminate.
    intros [= <-]. apply get_set_ne, Hne. }
  destruct (looseEqUndefined (getProp val (name pm))); [| eauto].
  destruct (looseEqUndefined (default pm)); [| eauto].
  destruct (Bool.eqb (isOptional pm) false); [discriminate |].
  destruct (isUndefined (default pm)); [| eauto].
  injection H as <-. reflexivity.
Qed.

Lemma convertProps_get_other (metadata : list PropMetadata) key : forall parsed parsed',
  convertProps rec val classType metadata parsed = Return parsed' ->
  Forall (fun pm => key <> name pm) metadata ->
  JsMap.get key parsed' = JsMap.get key parsed.
Proof.
  induction metadata as [| pm metadata IH]; intros parsed parsed'; simpl.
  - intros [= <-] _. reflexivity.
  - destruct (convertProp rec val classType parsed pm) as [p1 | |] eqn:E1;
      simpl; try discriminate.
    intros H Hall. apply Forall_cons in Hall as [Hpm Hall].
    rewrite (IH _ _ H Hall). eapply convertProp_get_other; eauto.
Qed.

Lemma runValidators_app propName propValue (vs1 vs2 : list PropValidator) : forall parsed,
  runValidators val classType propName propValue (vs1 ++ vs2)%list parsed =
    let! parsed' := runValidators val classType propName propValue vs1 parsed in
    runValidators val classType propName propValue vs2 parsed'.
Proof.
  induction vs1 as [| v vs1 IH]; intros parsed; simpl; [reflexivity |].
  destruct (v propValue propName parsed) as [parsed' error].
  destruct (truthy error); simpl; auto.
Qed.

Lemma validateProps_app vmap (names1 names2 : list string) : forall parsed,
  validateProps val classType vmap (names1 ++ names2)%list parsed =
    let! parsed' := validateProps val classType vmap names1 parsed in
    validateProps val classType vmap names2 parsed'.
Proof.
  induction names1 as [| n names1 IH]; intros parsed; simpl; [reflexivity |].
  match goal with |- bind ?m _ = _ => destruct m end; simpl; auto.
Qed.

Lemma runValidators_keepsAbsent key propName propValue (vs : list PropValidator) :
  Forall (keepsAbsent key propName) vs -> forall parsed parsed',
  JsMap.get key parsed = None ->
  runValidators val classType propName propValue vs parsed = Return parsed' ->
  JsMap.get key parsed' = None.
Proof.
  induction 1 as [| v vs Hv _ IH]; intros parsed parsed' Habs; simpl.
  - intros [= <-]. exact Habs.
  - specialize (Hv propValue parsed Habs).
    destruct (v propValue propName parsed) as [p1 error]. simpl in Hv.
    destruct (truthy error); [discriminate |]. eauto.
Qed.

Lemma validateProps_keepsAbsent key vmap :
  (forall n vs, JsMap.get n vmap = Some vs -> n <> key -> Forall (keepsAbsent key n) vs) ->
  forall names parsed parsed',
  JsMap.get key parsed = None ->
  validateProps val classType vmap names parsed = Return parsed' ->
  JsMap.get key parsed' = None.
Proof.
  intros Hframe. induction names as [| n names IH]; intros parsed parsed' Habs; simpl.
  - intros [= <-]. exact Habs.
  - destruct (JsMap.get n vmap) as [vs |] eqn:En; simpl; [| apply IH; exact Habs].
    destruct (String.eqb n key) eqn:E.
    + apply String.eqb_eq in E. subst n. rewrite Habs. simpl. apply IH. exact Habs.
    + apply String.eqb_neq in E.
      destruct (negb _); simpl; [| apply IH; exact Habs].
      destruct (runValidators _ _ _ _ vs parsed) as [p1 | |] eqn:Er;
        simpl; try discriminate.
      apply IH.
      exact (runValidators_keepsAbsent key n _ vs (Hframe n vs En E) parsed p1 Habs Er).
Qed.

(** A field whose raw value is absent or null, in one turn of the loop. *)
Lemma convertProp_absent parsed pm :
  looseEqUndefined (getProp val (name pm)) = true ->
  (isUndefined (default pm) = false ->
   looseEqUndefined (default pm) = false \/ isOptional pm = true ->
   convertProp rec val classType parsed pm =
     let! v := rec (default pm) (type pm) in
     Return (JsMap.set (name pm) v parsed)) /\
  (looseEqUndefined (substituted (getProp val (name pm)) pm) = true ->
   isOptional pm = false ->
   convertProp rec val classType parsed pm =
     Throw (MissingRequiredField val classType (name pm))) /\
  (isUndefined (substituted (getProp val (name pm)) pm) = true ->
   isOptional pm = true ->
   convertProp rec val classType parsed pm = Return parsed).
Proof.
  intros Hraw. unfold convertProp, substituted. rewrite Hraw.
  destruct (default pm) eqn:Ed; cbn [isUndefined looseEqUndefined];
    destruct (isOptional pm) eqn:Eo; cbn [Bool.eqb];
    repeat split; intros; try reflexivity; try discriminate;
    repeat match goal with
           | H : _ \/ _ |- _ => destruct H
           end; try discriminate.
  all: match goal with
       | H : isUndefined (getProp _ _) = true |- _ =>
           destruct (getProp val (name pm)); discriminate
       end.
Qed.

(** An explicit [null] for an optional field without default is
    replaced by the absent default, and the field is skipped like an
    absent one. *)
Lemma convertProp_null_without_default parsed pm :
  getProp val (name pm) = VNull ->
  default pm = VUndefined -> isOptional pm = true ->
  convertProp rec val classType parsed pm = Return parsed.
Proof.
  intros Hraw Hdef Hopt. unfold convertProp. rewrite Hraw, Hdef, Hopt. reflexivity.
Qed.

End Loops.

Lemma wfMetadata_names (m : JsMap.t PropMetadata) :
  wfMetadata m -> List.map name (JsMap.values m) = JsMap.keys m.
Proof.
  intros [_ Hname]. unfold JsMap.values, JsMap.keys.
  induction Hname as [| [k pm] m Hk _ IH]; simpl; [reflexivity |].
  simpl in Hk. rewrite Hk, IH. reflexivity.
Qed.

(** In a well-formed metadata map, a field stands alone under its name. *)
Lemma wfMetadata_split (m : JsMap.t PropMetadata) (pm : PropMetadata) :
  wfMetadata m -> pm ∈ JsMap.values m ->
  exists before after,
    JsMap.values m = (before ++ pm :: after)%list /\
    Forall (fun pm' => name pm <> name pm') before /\
    Forall (fun pm' => name pm <> name pm') after.
Proof.
  intros Hwf Hin. pose proof (wfMetadata_names m Hwf) as Hnames.
  destruct Hwf as [Hnd _]. rewrite <- Hnames in Hnd.
  apply list_elem_of_split in Hin as (before & after & Heq).
  exists before, after. split; [exact Heq |].
  rewrite Heq, List.map_app in Hnd. simpl in Hnd.
  apply NoDup_app in Hnd as (_ & Hdisj & Hnd).
  apply NoDup_cons in Hnd as [Hafter _].
  split; apply Forall_forall; intros pm' Hpm' Heqn.
  - apply (Hdisj (name pm')).
    + apply list_elem_of_In, in_map, list_elem_of_In, Hpm'.
    + rewrite <- Heqn. left.
  - apply Hafter. rewrite Heqn.
    apply list_elem_of_In, in_map, list_elem_of_In, Hpm'.
Qed.

Lemma val_not_null (val : Value) : val <> VNull -> isNull val = false.
Proof. destruct val; intros H; try reflexivity. contradiction. Qed.

(** A registered class and an object that is not [null]: Step2, then
    Step3 on what Step2 built, then the object. *)
Lemma convert_class_steps (fuel : nat) (val : Value) (classType : ClassType) :
  classType ∈ classSet store ->
  typeof val = "object" -> val <> VNull ->
  convert (S fuel) val (TClass classType) =
    let! parsed := convertAllProps store (convert fuel) val classType JsMap.empty in
    let! parsed := validateAllProps store val classType parsed in
    Return (VObject (Some classType) parsed).
Proof.
  intros Hreg Hobj Hnull. cbn [convertToType].
  rewrite bool_decide_eq_true_2 by exact Hreg.
  unfold convertToClass. rewrite Hobj, (val_not_null val Hnull). cbn [String.eqb negb].
  change (String.eqb "object" "object") with true. cbn [negb].
  destruct (convertAllProps _ _ _ _ _) as [p | |]; simpl; try reflexivity.
  destruct (validateAllProps _ _ _ _) as [p' | |]; reflexivity.
Qed.

(** C6: a declared field whose raw value is absent or null, while the
    fields of an object are populated.  The default, when there is one,
    is substituted: unless it is [null] for a required field, the turn
    of the field converts the default and stores the result under the
    name of the field, so that once the fields before it have converted
    the population goes on from the record with the converted default,
    and a populated record holds the converted default.  When the value
    is still absent or null and the field is required, the turn throws
    the missing-required-field error; the conversion cannot return, and
    it throws that error as soon as the fields before it convert.  When
    the value is still [undefined] and the field is optional, the turn
    leaves the record as it is; the populated record has no property of
    that name, nor has the object returned, as long as no validator of
    another property, run for that property, creates it. *)
Theorem C6_population_of_absent_or_null_field
    (fuel : nat) (val : Value) (classType : ClassType)
    (propNameToMetadata : JsMap.t PropMetadata) (propMetadata : PropMetadata) :
  classType ∈ classSet store ->
  classTypeToPropMetadata store !! classType = Some propNameToMetadata ->
  wfMetadata propNameToMetadata ->
  propMetadata ∈ JsMap.values propNameToMetadata ->
  typeof val = "object" -> val <> VNull ->
  looseEqUndefined (getProp val (name propMetadata)) = true ->
  let value := substituted (getProp val (name propMetadata)) propMetadata in
  (isUndefined (default propMetadata) = false ->
   (looseEqUndefined (default propMetadata) = false \/ isOptional propMetadata = true ->
    (forall parsed,
       convertProp (convert fuel) val classType parsed propMetadata =
         let! v := convert fuel (default propMetadata) (type propMetadata) in
         Return (JsMap.set (name propMetadata) v parsed)) /\
    (forall before after parsed,
       JsMap.values propNameToMetadata = (before ++ propMetadata :: after)%list ->
       convertProps (convert fuel) val classType before JsMap.empty = Return parsed ->
       convertAllProps store (convert fuel) val classType JsMap.empty =
         let! v := convert fuel (default propMetadata) (type propMetadata) in
         convertProps (convert fuel) val classType after
           (JsMap.set (name propMetadata) v parsed))) /\
   (forall parsed,
      convertAllProps store (convert fuel) val classType JsMap.empty = Return parsed ->
      exists v,
        convert fuel (default propMetadata) (type propMetadata) = Return v /\
        JsMap.get (name propMetadata) parsed = Some v)) /\
  (looseEqUndefined value = true -> isOptional propMetadata = false ->
   (forall parsed,
      convertProp (convert fuel) val classType parsed propMetadata =
        Throw (MissingRequiredField val classType (name propMetadata))) /\
   (forall out, convert (S fuel) val (TClass classType) <> Return out) /\
   (forall before after parsed,
      JsMap.values propNameToMetadata = (before ++ propMetadata :: after)%list ->
      convertProps (convert fuel) val classType before JsMap.empty = Return parsed ->
      convert (S fuel) val (TClass classType) =
        Throw (MissingRequiredField val classType (name propMetadata)))) /\
  (isUndefined value = true -> isOptional propMetadata = true ->
   (forall parsed,
      convertProp (convert fuel) val classType parsed propMetadata = Return parsed) /\
   (forall parsed,
      convertAllProps store (convert fuel) val classType JsMap.empty = Return parsed ->
      JsMap.get (name propMetadata) parsed = None) /\
   ((forall propName validators,
        validatorsFor store classType propName = Some validators ->
        propName <> name propMetadata ->
        Forall (keepsAbsent (name propMetadata) propName) validators) ->
    forall proto props,
      convert (S fuel) val (TClass classType) = Return (VObject proto props) ->
      JsMap.get (name propMetadata) props = None)).
Proof.
  intros Hreg Hmeta Hwf Hin Hobj Hnull Hraw value.
  pose proof (convert_class_steps fuel val classType Hreg Hobj Hnull) as Hsteps.
  destruct (wfMetadata_split _ _ Hwf Hin) as (before & after & Hsplit & Hbefore & Hafter).
  assert (Hall : forall parsed,
    convertAllProps store (convert fuel) val classType JsMap.empty = Return parsed ->
    exists p1 p2,
      convertProps (convert fuel) val classType before JsMap.empty = Return p1 /\
      convertProp (convert fuel) val classType p1 propMetadata = Return p2 /\
      JsMap.get (name propMetadata) p1 = None /\
      JsMap.get (name propMetadata) parsed = JsMap.get (name propMetadata) p2).
  { intros parsed H. unfold convertAllProps in H.
    rewrite Hmeta, Hsplit, convertProps_app in H.
    destruct (convertProps _ _ _ before _) as [p1 | |] eqn:E1;
      cbn [bind] in H; try discriminate.
    cbn [convertProps] in H.
    destruct (convertProp _ _ _ p1 propMetadata) as [p2 | |] eqn:E2;
      cbn [bind] in H; try discriminate.
    exists p1, p2. split; [reflexivity |]. split; [exact E2 |]. split.
    - rewrite (convertProps_get_other _ _ _ _ _ _ _ E1 Hbefore). reflexivity.
    - exact (convertProps_get_other _ _ _ _ _ _ _ H Hafter). }
  split; [| split].
  - (* the default *)
    intros Hdef. split.
    { intros Hside.
      assert (Hturn : forall parsed,
        convertProp (convert fuel) val classType parsed propMetadata =
          let! v := convert fuel (default propMetadata) (type propMetadata) in
          Return (JsMap.set (name propMetadata) v parsed)).
      { intros parsed.
        exact (proj1 (convertProp_absent (convert fuel) val classType parsed
                        propMetadata Hraw) Hdef Hside). }
      split; [exact Hturn |].
      intros before' after' parsed Hsplit' Hbefore'. unfold convertAllProps.
      rewrite Hmeta, Hsplit', convertProps_app, Hbefore'. cbn [bind convertProps].
      rewrite Hturn.
      destruct (convert fuel _ _) as [v | |]; reflexivity. }
    intros parsed Hparsed.
    destruct (Hall parsed Hparsed) as (p1 & p2 & _ & E2 & _ & Hget).
    destruct (convertProp_absent (convert fuel) val classType p1 propMetadata Hraw)
      as (Hd & Hreq & _).
    destruct (looseEqUndefined (default propMetadata)) eqn:Enull;
      [destruct (isOptional propMetadata) eqn:Eopt |].
    + rewrite Hd in E2 by auto.
      destruct (convert fuel _ _) as [v | |]; simpl in E2; try discriminate.
      injection E2 as <-. exists v. rewrite Hget, get_set_eq. auto.
    + rewrite Hreq in E2; [discriminate | | reflexivity].
      unfold substituted. rewrite Hdef. exact Enull.
    + rewrite Hd in E2 by auto.
      destruct (convert fuel _ _) as [v | |]; simpl in E2; try discriminate.
      injection E2 as <-. exists v. rewrite Hget, get_set_eq. auto.
  - (* required *)
    intros Hvalue Hopt. split; [| split].
    + intros parsed.
      exact (proj1 (proj2 (convertProp_absent (convert fuel) val classType parsed
                             propMetadata Hraw)) Hvalue Hopt).
    + intros out Hout. rewrite Hsteps in Hout.
      destruct (convertAllProps _ _ _ _ _) as [parsed | |] eqn:Eall; try discriminate.
      destruct (Hall parsed eq_refl) as (p1 & p2 & _ & E2 & _).
      destruct (convertProp_absent (convert fuel) val classType p1 propMetadata Hraw)
        as (_ & Hreq & _).
      rewrite (Hreq Hvalue Hopt) in E2. discriminate.
    + intros before' after' parsed Hsplit' Hbefore'.
      rewrite Hsteps. unfold convertAllProps.
      rewrite Hmeta, Hsplit', convertProps_app, Hbefore'. simpl.
      destruct (convertProp_absent (convert fuel) val classType parsed propMetadata Hraw)
        as (_ & Hreq & _).
      rewrite (Hreq Hvalue Hopt). reflexivity.
  - (* optional *)
    intros Hvalue Hopt.
    assert (Hpop : forall parsed,
      convertAllProps store (convert fuel) val classType JsMap.empty = Return parsed ->
      JsMap.get (name propMetadata) parsed = None).
    { intros parsed Hparsed.
      destruct (Hall parsed Hparsed) as (p1 & p2 & _ & E2 & Hp1 & Hget).
      destruct (convertProp_absent (convert fuel) val classType p1 propMetadata Hraw)
        as (_ & _ & Hskip).
      rewrite (Hskip Hvalue Hopt) in E2. injection E2 as <-. congruence. }
    split; [| split; [exact Hpop |]].
    { intros parsed.
      exact (proj2 (proj2 (convertProp_absent (convert fuel) val classType parsed
                             propMetadata Hraw)) Hvalue Hopt). }
    intros Hframe proto props Hout. rewrite Hsteps in Hout.
    destruct (convertAllProps _ _ _ _ _) as [parsed | |] eqn:Eall; try discriminate.
    simpl in Hout. unfold validateAllProps in Hout.
    unfold validatorsFor, validatorMapOf in Hframe.
    destruct (classTypeToPropValidator store !! classType) as [vmap |]; simpl in Hout.
    + destruct (validateProps _ _ _ _ _) as [parsed' | |] eqn:Ev; try discriminate.
      injection Hout as _ <-.
      eapply validateProps_keepsAbsent; [exact Hframe | | exact Ev]. auto.
    + injection Hout as _ <-. auto.
Qed.

(** C7: converting an object that is not [null] to a registered class
    populates every declared field (Step2), then hands the populated
    record to the validation pass (Step3).  In that pass the properties
    are taken in the order of the validator map and the validators of a
    property in the order of its list, each on what the one before it
    left of the record.  When the validators before it pass and the
    value of the property is present, a validator that returns a
    non-empty reason makes the whole conversion throw the validation
    error, whatever validators and properties come after it. *)
Theorem C7_validation_after_population_is_fail_fast
    (fuel : nat) (val : Value) (classType : ClassType)
    (propNameToValidators before after : JsMap.t (list PropValidator))
    (propName : string) (validatorsBefore validatorsAfter : list PropValidator)
    (validator : PropValidator)
    (populated parsed1 parsed2 : JsMap.t Value) (propValue : Value) (reason : string) :
  classType ∈ classSet store ->
  typeof val = "object" -> val <> VNull ->
  classTypeToPropValidator store !! classType = Some propNameToValidators ->
  wfValidators propNameToValidators ->
  propNameToValidators =
    (before ++ (propName, validatorsBefore ++ validator :: validatorsAfter) :: after)%list ->
  convertAllProps store (convert fuel) val classType JsMap.empty = Return populated ->
  validateProps val classType propNameToValidators (JsMap.keys before) populated
    = Return parsed1 ->
  JsMap.get propName parsed1 = Some propValue -> propValue <> VUndefined ->
  runValidators val classType propName propValue validatorsBefore parsed1
    = Return parsed2 ->
  snd (validator propValue propName parsed2) = Some reason -> reason <> "" ->
  convert (S fuel) val (TClass classType) =
    (let! parsed := convertAllProps store (convert fuel) val classType JsMap.empty in
     let! parsed := validateAllProps store val classType parsed in
     Return (VObject (Some classType) parsed)) /\
  convert (S fuel) val (TClass classType) =
    Throw (InvalidProperty val classType propName propValue reason).
Proof.
  intros Hreg Hobj Hnull Hvmap Hwf Hsplit Hpop Hbefore Hvalue Hpresent Hvs Hfail Hreason.
  pose proof (convert_class_steps fuel val classType Hreg Hobj Hnull) as Hsteps.
  split; [exact Hsteps |].
  rewrite Hsteps, Hpop. cbn [bind].
  unfold validateAllProps. rewrite Hvmap.
  assert (Hkeys : JsMap.keys propNameToValidators =
            (JsMap.keys before ++ propName :: JsMap.keys after)%list).
  { rewrite Hsplit. unfold JsMap.keys. rewrite List.map_app. reflexivity. }
  assert (Hget : JsMap.get propName propNameToValidators =
            Some (validatorsBefore ++ validator :: validatorsAfter)%list).
  { unfold wfValidators in Hwf. rewrite Hkeys in Hwf.
    apply NoDup_app in Hwf as (_ & Hdisj & _).
    rewrite Hsplit, get_app.
    destruct (JsMap.get propName before) eqn:E.
    - exfalso. assert (Hin : propName ∈ JsMap.keys before).
      { destruct (decide (propName ∈ JsMap.keys before)) as [|Hn]; [assumption |].
        rewrite (proj2 (get_None propName before) Hn) in E. discriminate. }
      apply (Hdisj _ Hin). left.
    - simpl. rewrite String.eqb_refl. reflexivity. }
  rewrite Hkeys, validateProps_app, Hbefore. cbn [bind validateProps].
  rewrite Hget, Hvalue.
  assert (Hdef : isUndefined propValue = false)
    by (destruct propValue; try reflexivity; contradiction).
  rewrite Hdef. cbn [negb].
  rewrite runValidators_app, Hvs. cbn [bind runValidators].
  destruct (validator propValue propName parsed2) as [parsed3 error]. simpl in Hfail.
  subst error. cbn [truthy].
  apply String.eqb_neq in Hreason. rewrite Hreason. reflexivity.
Qed.

End RecordFacts.

(* ===================================================================== *)
(** * Fuel *)
(* ===================================================================== *)

Section FuelFacts.

Variable DateParse : string -> number.
Variable ObjectToString : Value -> string.
Variable store : Store.

Section Extends.

Variables rec rec' : Value -> Type_ -> outcome Value.
Hypothesis Hext : extends rec rec'.

Lemma convertElements_extends elementType : forall elems,
  convertElements rec elems elementType <> OutOfFuel ->
  convertElements rec' elems elementType = convertElements rec elems elementType.
Proof.
  induction elems as [| v elems IH]; simpl; [reflexivity |].
  intros H. destruct (rec v elementType) as [v' | e |] eqn:Ev.
  - rewrite (Hext v elementType) by (rewrite Ev; discriminate).
    rewrite Ev. cbn [bind] in *.
    rewrite IH; [reflexivity |].
    intros Hf. rewrite Hf in H. apply H. reflexivity.
  - rewrite (Hext v elementType) by (rewrite Ev; discriminate).
    rewrite Ev. reflexivity.
  - exfalso. apply H. reflexivity.
Qed.

Lemma convertToArray_extends val elementType :
  convertToArray rec val elementType <> OutOfFuel ->
  convertToArray rec' val elementType = convertToArray rec val elementType.
Proof.
  unfold convertToArray. destruct elementType as [t |]; [| reflexivity].
  destruct val; try reflexivity.
  intros H. rewrite convertElements_extends; [reflexivity |].
  intros Hf. rewrite Hf in H. apply H. reflexivity.
Qed.

Lemma convertProp_extends val classType parsed pm :
  convertProp rec val classType parsed pm <> OutOfFuel ->
  convertProp rec' val classType parsed pm = convertProp rec val classType parsed pm.
Proof.
  unfold convertProp.
  assert (Hassign : forall propValue,
    (let! v := rec propValue (type pm) in Return (JsMap.set (name pm) v parsed))
      <> OutOfFuel ->
    (let! v := rec' propValue (type pm) in Return (JsMap.set (name pm) v parsed)) =
    (let! v := rec propValue (type pm) in Return (JsMap.set (name pm) v parsed))).
  { intros propValue H. rewrite Hext; [reflexivity |].
    intros Hf. rewrite Hf in H. apply H. reflexivity. }
  destruct (looseEqUndefined (getProp val (name pm))); [| apply Hassign].
  destruct (looseEqUndefined (default pm)); [| apply Hassign].
  destruct (Bool.eqb (isOptional pm) false); [reflexivity |].
  destruct (isUndefined (default pm)); [reflexivity | apply Hassign].
Qed.

Lemma convertProps_extends val classType : forall metadata parsed,
  convertProps rec val classType metadata parsed <> OutOfFuel ->
  convertProps rec' val classType metadata parsed =
    convertProps rec val classType metadata parsed.
Proof.
  induction metadata as [| pm metadata IH]; intros parsed; simpl; [reflexivity |].
  intros H. rewrite convertProp_extends.
  - destruct (convertProp rec val classType parsed pm); simpl in *; auto.
  - intros Hf. rewrite Hf in H. apply H. reflexivity.
Qed.

Lemma convertToClass_extends val classType :
  convertToClass store rec val classType <> OutOfFuel ->
  convertToClass store rec' val classType = convertToClass store rec val classType.
Proof.
  unfold convertToClass, convertAllProps.
  destruct (negb _); [reflexivity |]. destruct (isNull val); [reflexivity |].
  destruct (classTypeToPropMetadata store !! classType) as [m |]; [| reflexivity].
  intros H. rewrite convertProps_extends; [reflexivity |].
  intros Hf. rewrite Hf in H. apply H. reflexivity.
Qed.

End Extends.

(** One more unit of fuel changes no outcome of the program. *)
Lemma convertToType_S_fuel : forall fuel,
  extends (convertToType DateParse ObjectToString store fuel)
          (convertToType DateParse ObjectToString store (S fuel)).
Proof.
  induction fuel as [| fuel IH]; intros val toType H; [exfalso; apply H; reflexivity |].
  cbn [convertToType] in *.
  destruct toType as [[| | |] | | | elems | classType]; try reflexivity.
  - rewrite (convertToArray_extends _ _ IH); [reflexivity |].
    intros Hf. rewrite Hf in H. apply H. reflexivity.
  - destruct (bool_decide _); [| reflexivity].
    rewrite (convertToClass_extends _ _ IH); [reflexivity |].
    intros Hf. rewrite Hf in H. apply H. reflexivity.
Qed.

Lemma convertToType_more_fuel (fuel fuel' : nat) (val : Value) (toType : Type_) :
  (fuel <= fuel')%nat ->
  convertToType DateParse ObjectToString store fuel val toType <> OutOfFuel ->
  convertToType DateParse ObjectToString store fuel' val toType =
    convertToType DateParse ObjectToString store fuel val toType.
Proof.
  induction 1 as [| fuel' Hle IH]; intros H; [reflexivity |].
  rewrite <- (IH H). apply convertToType_S_fuel. rewrite (IH H). exact H.
Qed.

End FuelFacts.

(* ===================================================================== *)
(** * The statements on the example schema *)
(* ===================================================================== *)

Section ExampleFacts.

Import Example.

#[local] Abbreviation convert := (convertToType DateParse ObjectToString store).

Lemma child_registered : "Child" ∈ classSet store.
Proof. apply (bool_decide_unpack _). vm_compute. exact I. Defined.

Lemma child_declared :
  declareClass getPrototypeOf "Child" childProps afterBase = Return store.
Proof. reflexivity. Defined.

Lemma child_is_fresh : classTypeToPropValidator afterBase !! "Child" = None.
Proof. reflexivity. Defined.

Lemma base_is_not_child : "Base" <> "Child".
Proof. discriminate. Defined.

Lemma example_store_wf : wfStore store.
Proof.
  apply (declareClass_wf getPrototypeOf "Child" childProps afterBase store);
    [| exact child_declared].
  apply (declareClass_wf getPrototypeOf "Base" baseProps emptyStore afterBase);
    [exact wfStore_empty | reflexivity].
Qed.

Lemma child_metadata : classTypeToPropMetadata store !! "Child" = Some childMetadata.
Proof. reflexivity. Defined.

(** C4, as the spec words it, fails on the example: [Child] redeclares
    [id] without validators, and the validator [Base] declared for [id]
    is attached to [id] in [Child]. *)
Lemma C4_counterexample :
  declareClass getPrototypeOf "Child" childProps afterBase = Return store /\
  declared childProps "id" = Some idOfChild /\
  metadataFor afterBase "Base" "id" = Some (currentMetadataOf idOfBase "id") /\
  validatorsFor store "Child" "id" = Some [nonNegative] /\
  ~ onlyOwnValidators store "Child" "id" idOfChild.
Proof.
  repeat split; try reflexivity.
  intros H. exact (H [nonNegative] nonNegative eq_refl (or_introl eq_refl)).
Qed.

Lemma C4_witness :
  metadataFor store "Child" "id" = Some (currentMetadataOf idOfChild "id") /\
  validatorsFor store "Child" "id" = validatorsFor afterBase "Base" "id" /\
  validatorsFor store "Child" "age" = Some [nonNegative; atMost150].
Proof.
  destruct (C4_redeclared_field_replaces_metadata getPrototypeOf
              "Child" "Base" childProps afterBase store "id" idOfChild
              eq_refl base_is_not_child child_is_fresh child_declared eq_refl)
    as [Hm Hv].
  destruct (C4_redeclared_field_replaces_metadata getPrototypeOf
              "Child" "Base" childProps afterBase store "age" ageOfChild
              eq_refl base_is_not_child child_is_fresh child_declared eq_refl)
    as [_ Hv'].
  split; [exact Hm | split; [exact Hv | exact Hv']].
Defined.


(** [age] is 300 in [old]: [nonNegative] passes, [atMost150] does not. *)
Lemma C7_witness :
  convert 2 old (TClass "Child") =
    Throw (InvalidProperty old "Child" "age" (VNumber (Finite 300)) "v must <= 150").
Proof.
  assert (Hnull : old <> VNull) by discriminate.
  assert (Hpresent : VNumber (Finite 300) <> VUndefined) by discriminate.
  assert (Hreason : "v must <= 150" <> "") by discriminate.
  exact (proj2 (C7_validation_after_population_is_fail_fast
           DateParse ObjectToString store 1 old "Child"
           [("age", [nonNegative; atMost150]); ("id", [nonNegative])]
           [] [("id", [nonNegative])] "age" [nonNegative] [] atMost150
           [("id", VNumber (Finite 1)); ("age", VNumber (Finite 300))]
           [("id", VNumber (Finite 1)); ("age", VNumber (Finite 300))]
           [("id", VNumber (Finite 1)); ("age", VNumber (Finite 300))]
           (VNumber (Finite 300)) "v must <= 150"
           child_registered eq_refl Hnull eq_refl
           (wf_validators store example_store_wf "Child" _ eq_refl)
           eq_refl eq_refl eq_refl eq_refl Hpresent eq_refl eq_refl Hreason)).
Defined.

Lemma C8_witness :
  "Child" ∈ classSet store /\
  convert 1 VNull (TClass "Child") = Return VNull /\
  convert 1 VNull (TPrimitive PrimitiveType.Int) = Throw (NotInt VNull).
Proof.
  split; [exact child_registered |].
  exact (C8_null_to_class_is_null_to_Int_fails DateParse ObjectToString store
           0 "Child" child_registered).
Defined.

Lemma C10_witness :
  convert 1 (VNumber (Finite 5)) (TPrimitive PrimitiveType.Int) = Return (VNumber (Finite 5)) /\
  VNumber (Finite 5) <> VUndefined.
Proof.
  split; [reflexivity |].
  exact (C10_result_is_never_undefined DateParse ObjectToString store
           1 (VNumber (Finite 5)) (TPrimitive PrimitiveType.Int) (VNumber (Finite 5)) eq_refl).
Defined.

End ExampleFacts.

(* ===================================================================== *)
(** * The class [Account] *)
(* ===================================================================== *)

Section FrameFacts.

Variable ObjectToString : Value -> string.
Variable StringToNumber : string -> number.

(** A validator that writes nothing keeps every absent property absent. *)
Lemma keepsAbsent_unchanged (key propName : string) (validator : PropValidator) :
  (forall propValue parsed, fst (validator propValue propName parsed) = parsed) ->
  keepsAbsent key propName validator.
Proof. intros H propValue parsed Habs. rewrite H. exact Habs. Qed.

(** The validator of [NewValidatorStringNotEmpty] writes to the property
    it is run for, if at all. *)
Lemma StringNotEmpty_writes (options : option StringNotEmptyOptions.t)
    (propValue : Value) (propName : string) (parsed : JsMap.t Value) :
  let written :=
    fst (NewValidatorStringNotEmpty ObjectToString StringToNumber options
           propValue propName parsed) in
  written = parsed \/
  written = JsMap.set propName (VString (trimString (show ObjectToString propValue))) parsed.
Proof.
  cbv zeta. unfold NewValidatorStringNotEmpty.
  destruct options as [[[[|] |] mx mn] |];
    cbn [StringNotEmptyOptions.trim StringNotEmptyOptions.max StringNotEmptyOptions.min];
    repeat match goal with
           | |- context [match ?o with Some _ => _ | None => _ end] => destruct o
           | |- context [if ?b then _ else _] => destruct b
           end; cbn [fst]; auto.
Qed.

Lemma keepsAbsent_StringNotEmpty (options : option StringNotEmptyOptions.t)
    (key propName : string) :
  propName <> key ->
  keepsAbsent key propName
    (NewValidatorStringNotEmpty ObjectToString StringToNumber options).
Proof.
  intros Hne propValue parsed Habs.
  destruct (StringNotEmpty_writes options propValue propName parsed) as [-> | ->];
    [exact Habs |].
  rewrite JsMapFacts.get_set_ne by (intros E; apply Hne; symmetry; exact E).
  exact Habs.
Qed.

End FrameFacts.

Section AccountFacts.

Import Account.

Lemma account_registered : "Account" ∈ classSet store.
Proof. apply (bool_decide_unpack _). vm_compute. exact I. Defined.

Lemma account_declared :
  declareClass Example.getPrototypeOf "Account" accountProps emptyStore = Return store.
Proof. reflexivity. Defined.

Lemma account_metadata :
  classTypeToPropMetadata store !! "Account" = Some accountMetadata.
Proof. reflexivity. Defined.

Lemma account_validators :
  classTypeToPropValidator store !! "Account" = Some accountValidators.
Proof. reflexivity. Defined.

Lemma account_store_wf : wfStore store.
Proof.
  exact (declareClass_wf Example.getPrototypeOf "Account" accountProps emptyStore store
           wfStore_empty account_declared).
Qed.

(** No validator of [Account] creates [nick]: the validator of [kind]
    writes [kind], those of [age] write nothing. *)
Lemma account_frame (propName : string) (validators : list PropValidator) :
  validatorsFor store "Account" propName = Some validators ->
  propName <> "nick" ->
  Forall (keepsAbsent "nick" propName) validators.
Proof.
  unfold validatorsFor, validatorMapOf. rewrite account_validators.
  unfold accountValidators. cbn [JsMap.get].
  intros H Hne.
  destruct (String.eqb propName "kind") eqn:Ekind.
  - injection H as <-. constructor; [| constructor].
    apply keepsAbsent_StringNotEmpty. exact Hne.
  - destruct (String.eqb propName "age") eqn:Eage; [| discriminate H].
    injection H as <-.
    repeat constructor; apply keepsAbsent_unchanged; reflexivity.
Qed.

(** In [complete], [level] is absent and has the default 1, and [nick] is
    absent, optional and without default; in [noAge] the required [age]
    is absent. *)
Lemma C6_witness :
  convertProp (convertToType Example.DateParse Example.ObjectToString store 1)
    complete "Account" [("kind", VString "string")]
    (currentMetadataOf levelOfAccount "level")
    = Return [("kind", VString "string"); ("level", VNumber (Finite 1))] /\
  convertToType Example.DateParse Example.ObjectToString store 2 noAge (TClass "Account")
    = Throw (MissingRequiredField noAge "Account" "age") /\
  convertToType Example.DateParse Example.ObjectToString store 2 complete (TClass "Account")
    = Return (VObject (Some "Account") converted) /\
  JsMap.get "nick" converted = None.
Proof.
  assert (Hwf : wfMetadata accountMetadata)
    by exact (wf_metadata store account_store_wf "Account" accountMetadata account_metadata).
  assert (Hcomplete : complete <> VNull) by discriminate.
  assert (HnoAge : noAge <> VNull) by discriminate.
  assert (Hlevel : currentMetadataOf levelOfAccount "level" ∈ JsMap.values accountMetadata).
  { apply list_elem_of_further, list_elem_of_here. }
  assert (Hnick : currentMetadataOf Example.nickOfChild "nick" ∈ JsMap.values accountMetadata).
  { do 2 apply list_elem_of_further. apply list_elem_of_here. }
  assert (Hage : currentMetadataOf Example.ageOfChild "age" ∈ JsMap.values accountMetadata).
  { do 3 apply list_elem_of_further. apply list_elem_of_here. }
  pose proof (C6_population_of_absent_or_null_field
                Example.DateParse Example.ObjectToString store
                1 complete "Account" accountMetadata
                (currentMetadataOf levelOfAccount "level")
                account_registered account_metadata Hwf Hlevel eq_refl Hcomplete eq_refl)
    as (Hdefault & _ & _).
  pose proof (C6_population_of_absent_or_null_field
                Example.DateParse Example.ObjectToString store
                1 noAge "Account" accountMetadata
                (currentMetadataOf Example.ageOfChild "age")
                account_registered account_metadata Hwf Hage eq_refl HnoAge eq_refl)
    as (_ & Hrequired & _).
  pose proof (C6_population_of_absent_or_null_field
                Example.DateParse Example.ObjectToString store
                1 complete "Account" accountMetadata
                (currentMetadataOf Example.nickOfChild "nick")
                account_registered account_metadata Hwf Hnick eq_refl Hcomplete eq_refl)
    as (_ & _ & Hoptional).
  destruct (Hdefault eq_refl) as [Hturn _].
  destruct (Hturn (or_introl eq_refl)) as [Hturn' _].
  destruct (Hrequired eq_refl eq_refl) as (_ & _ & Hthrow).
  destruct (Hoptional eq_refl eq_refl) as (_ & _ & Habsent).
  split; [| split; [| split; [reflexivity |]]].
  - rewrite Hturn'. reflexivity.
  - exact (Hthrow [currentMetadataOf kindOfAccount "kind";
                   currentMetadataOf levelOfAccount "level";
                   currentMetadataOf Example.nickOfChild "nick"]
                  [] [("kind", VString "string"); ("level", VNumber (Finite 1))]
                  eq_refl eq_refl).
  - exact (Habsent account_frame (Some "Account") converted eq_refl).
Defined.

End AccountFacts.

(* ===================================================================== *)
(** * More on the converters *)
(* ===================================================================== *)

Section NumberFacts.

Lemma remainder_zero (q : Q) :
  strictNeqZero (rem1 (Finite q)) = false <-> isIntegerQ q = true.
Proof.
  unfold strictNeqZero, rem1, isIntegerQ, truncQ.
  rewrite negb_false_iff, Qeq_bool_iff, Qred_correct, Z.eqb_eq.
  destruct q as [n d]. unfold Qeq, Qminus, Qplus, Qopp, inject_Z. cbn [Qnum Qden].
  pose proof (Z.quot_rem' n (Zpos d)) as Hqr.
  rewrite !Z.mul_1_r. rewrite Z.mul_0_l. lia.
Qed.

Lemma isIntegerQ_spec (q : Q) :
  isIntegerQ q = true <-> exists z : Z, (q == inject_Z z)%Q.
Proof.
  unfold isIntegerQ. rewrite Z.eqb_eq. destruct q as [n d].
  unfold Qeq, inject_Z. cbn [Qnum Qden]. split.
  - intros Hrem. exists (Z.quot n (Zpos d)).
    pose proof (Z.quot_rem' n (Zpos d)) as Hqr. lia.
  - intros [z Hz]. rewrite Z.mul_1_r in Hz. subst n.
    apply Z.rem_mul. lia.
Qed.

End NumberFacts.

Section ConversionFacts.

Variable DateParse : string -> number.
Variable ObjectToString : Value -> string.
Variable store : Store.

#[local] Abbreviation convert := (convertToType DateParse ObjectToString store).

Lemma convertToInt_Return (val v : Value) :
  convertToInt ObjectToString val = Return v ->
  exists (q : Q) (z : Z), v = VNumber (Finite q) /\ (q == inject_Z z)%Q.
Proof.
  unfold convertToInt.
  set (parsed := if String.eqb (typeof val) "number" then _ else _).
  destruct parsed as [| neg | q]; cbn [isNaN orb]; intros H;
    [discriminate H | discriminate H |].
  destruct (strictNeqZero (rem1 (Finite q))) eqn:E; [discriminate H |].
  injection H as <-. apply remainder_zero, isIntegerQ_spec in E as [z Hz]. eauto.
Qed.

Lemma convertToInt_number (n : number) :
  convertToInt ObjectToString (VNumber n) =
    (if match n with Finite q => isIntegerQ q | _ => false end
     then Return (VNumber n) else Throw (NotInt (VNumber n))).
Proof.
  unfold convertToInt. cbn [typeof].
  change (String.eqb "number" "number") with true. cbv iota.
  destruct n as [| neg | q]; try reflexivity.
  cbn [isNaN orb].
  destruct (isIntegerQ q) eqn:E.
  - apply remainder_zero in E. rewrite E. reflexivity.
  - destruct (strictNeqZero (rem1 (Finite q))) eqn:E'; [reflexivity |].
    apply remainder_zero in E'. congruence.
Qed.

(** X1: whatever [convertToInt] is given, what it returns is a finite
    number with an integer value. *)
Theorem X1_convertToInt_returns_integers (val v : Value) :
  convertToInt ObjectToString val = Return v ->
  exists (q : Q) (z : Z), v = VNumber (Finite q) /\ (q == inject_Z z)%Q.
Proof. exact (convertToInt_Return val v). Qed.

(** X2: on a number, [convertToInt] returns the number itself when it is
    finite with an integer value, and throws for every other number;
    [convertToFloat] returns every number but [NaN], the infinities
    included. *)
Theorem X2_numbers_to_Int_and_Float (n : number) :
  convertToInt ObjectToString (VNumber n) =
    (if match n with Finite q => isIntegerQ q | _ => false end
     then Return (VNumber n) else Throw (NotInt (VNumber n))) /\
  convertToFloat ObjectToString (VNumber n) =
    (if isNaN n then Throw (NotFloat (VNumber n)) else Return (VNumber n)).
Proof. split; [apply convertToInt_number | reflexivity]. Qed.

Lemma convertElements_Return (rec : Value -> Type_ -> outcome Value)
    (elementType : Type_) : forall elems parsed,
  convertElements rec elems elementType = Return parsed <->
  Forall2 (fun x y => rec x elementType = Return y) elems parsed.
Proof.
  induction elems as [| x elems IH]; intros parsed; simpl.
  - split.
    + intros [= <-]. constructor.
    + intros H. inversion H. reflexivity.
  - split.
    + destruct (rec x elementType) as [y | |] eqn:Ex; cbn [bind]; try discriminate.
      destruct (convertElements rec elems elementType) as [ys | |] eqn:Eys;
        cbn [bind]; try discriminate.
      intros [= <-]. constructor; [exact Ex | apply IH; reflexivity].
    + intros H. inversion H as [| x' y xs ys Hx Hxs]; subst.
      rewrite Hx. cbn [bind]. apply IH in Hxs. rewrite Hxs. reflexivity.
Qed.

Lemma convertElements_Throw (rec : Value -> Type_ -> outcome Value)
    (elementType : Type_) (x : Value) (after : list Value) (e : Error) :
  forall before,
  Forall (fun y => exists y', rec y elementType = Return y') before ->
  rec x elementType = Throw e ->
  convertElements rec (before ++ x :: after)%list elementType = Throw e.
Proof.
  induction before as [| y before IH]; intros Hbefore Hx; simpl.
  - rewrite Hx. reflexivity.
  - apply Forall_cons in Hbefore as [[y' Hy] Hbefore].
    rewrite Hy. cbn [bind]. rewrite (IH Hbefore Hx). reflexivity.
Qed.

(** X3: an array converts exactly when each of its elements converts to
    the element type; the result is the array of the converted elements,
    in the same order and of the same length. *)
Theorem X3_array_is_converted_elementwise
    (fuel : nat) (elems : list Value) (elementType : Type_) (rest : list Type_)
    (v : Value) :
  convertToType DateParse ObjectToString store (S fuel)
    (VArray elems) (TArray (elementType :: rest)) = Return v <->
  exists parsed,
    v = VArray parsed /\
    Forall2 (fun x y =>
               convertToType DateParse ObjectToString store fuel x elementType
                 = Return y) elems parsed.
Proof.
  cbn [convertToType convertToArray head].
  split.
  - destruct (convertElements _ elems elementType) as [parsed | |] eqn:E;
      cbn [bind isUndefined]; try discriminate.
    intros [= <-]. exists parsed. split; [reflexivity |].
    apply convertElements_Return. exact E.
  - intros (parsed & -> & H). apply convertElements_Return in H.
    rewrite H. reflexivity.
Qed.

(** X4: the conversion of an array stops at the first element that does
    not convert, and throws the error of that element unchanged. *)
Theorem X4_array_throws_the_first_element_error
    (fuel : nat) (before after : list Value) (x : Value)
    (elementType : Type_) (rest : list Type_) (e : Error) :
  Forall (fun y => exists y',
            convertToType DateParse ObjectToString store fuel y elementType
              = Return y') before ->
  convertToType DateParse ObjectToString store fuel x elementType = Throw e ->
  convertToType DateParse ObjectToString store (S fuel)
    (VArray (before ++ x :: after)%list) (TArray (elementType :: rest)) = Throw e.
Proof.
  intros Hbefore Hx. cbn [convertToType convertToArray head].
  rewrite (convertElements_Throw _ _ _ _ _ _ Hbefore Hx). reflexivity.
Qed.

Lemma convertToInt_again (val v : Value) :
  convertToInt ObjectToString val = Return v ->
  convertToInt ObjectToString v = Return v.
Proof.
  intros H. destruct (convertToInt_Return val v H) as (q & z & -> & Hz).
  rewrite convertToInt_number. replace (isIntegerQ q) with true; [reflexivity |].
  symmetry. apply isIntegerQ_spec. eauto.
Qed.

Lemma convertToFloat_again (val v : Value) :
  convertToFloat ObjectToString val = Return v ->
  convertToFloat ObjectToString v = Return v.
Proof.
  unfold convertToFloat at 1.
  set (parsed := if String.eqb (typeof val) "number" then _ else _).
  destruct (isNaN parsed) eqn:E; [discriminate |].
  intros [= <-]. unfold convertToFloat. cbn [typeof].
  change (String.eqb "number" "number") with true. cbv iota. rewrite E. reflexivity.
Qed.

Lemma convertToString_again (val v : Value) :
  convertToString ObjectToString val = Return v ->
  convertToString ObjectToString v = Return v.
Proof.
  intros H. apply convertToString_Return in H as [[-> | ->] ->]; reflexivity.
Qed.

Lemma convertToDate_again (val v : Value) :
  convertToDate DateParse ObjectToString val = Return v ->
  convertToDate DateParse ObjectToString v = Return v.
Proof.
  unfold convertToDate at 1.
  destruct (isNaN (newDate DateParse ObjectToString val)) eqn:E; [discriminate |].
  intros [= <-]. unfold convertToDate. cbn [newDate]. rewrite E. reflexivity.
Qed.

Lemma convertToObject_again (val v : Value) :
  convertToObject val = Return v -> convertToObject v = Return v.
Proof.
  unfold convertToObject at 1. destruct (negb _) eqn:E; [discriminate |].
  intros [= <-]. unfold convertToObject. rewrite E. reflexivity.
Qed.

Lemma Forall2_same_again {A} (R : A -> A -> Prop) (l l' : list A) :
  (forall x y, R x y -> R y y) -> Forall2 R l l' -> Forall2 R l' l'.
Proof. intros HR H. induction H; constructor; eauto. Qed.

(** X5: for a target type that reaches neither [Boolean] nor a class,
    converting the result of a successful conversion once more, to the
    same type, returns it unchanged. *)
Theorem X5_converting_a_result_again_returns_it
    (fuel : nat) (val : Value) (toType : Type_) (v : Value) :
  repeatable toType = true ->
  convertToType DateParse ObjectToString store fuel val toType = Return v ->
  convertToType DateParse ObjectToString store fuel v toType = Return v.
Proof.
  revert val toType v.
  induction fuel as [| fuel IH]; intros val toType v Hrep; [discriminate |].
  cbn [convertToType].
  assert (Hscalar : forall (f : Value -> outcome Value),
    (forall a b, f a = Return b -> f b = Return b) ->
    (let! parsed := f val in
     if isUndefined parsed then Throw (UndefinedResult val toType) else Return parsed)
      = Return v ->
    (let! parsed := f v in
     if isUndefined parsed then Throw (UndefinedResult v toType) else Return parsed)
      = Return v).
  { intros f Hf. destruct (f val) as [a | |] eqn:E; cbn [bind]; try discriminate.
    destruct (isUndefined a) eqn:Ea; [discriminate |].
    intros [= <-]. rewrite (Hf _ _ E). cbn [bind]. rewrite Ea. reflexivity. }
  destruct toType as [[| | |] | | | elems | classType]; try discriminate Hrep.
  - apply Hscalar, convertToInt_again.
  - apply Hscalar, convertToFloat_again.
  - apply Hscalar, convertToString_again.
  - apply Hscalar, convertToDate_again.
  - apply Hscalar, convertToObject_again.
  - apply (Hscalar (fun x => convertToArray
             (convertToType DateParse ObjectToString store fuel) x (head elems))).
    intros a b. unfold convertToArray.
    destruct elems as [| elementType rest]; [discriminate |]. cbn [head].
    destruct a; try discriminate.
    destruct (convertElements _ _ elementType) as [parsed | |] eqn:E;
      cbn [bind]; try discriminate.
    intros [= <-]. apply convertElements_Return in E.
    apply (Forall2_same_again _ _ _ (fun x y => IH x elementType y Hrep)) in E.
    apply convertElements_Return in E. rewrite E. reflexivity.
Qed.

Lemma convertElements_terminates (rec : Value -> Type_ -> outcome Value)
    (elementType : Type_) :
  (forall x, rec x elementType <> OutOfFuel) ->
  forall elems, convertElements rec elems elementType <> OutOfFuel.
Proof.
  intros Hrec. induction elems as [| x elems IH]; simpl; [discriminate |].
  specialize (Hrec x). destruct (rec x elementType); cbn [bind]; try congruence.
  destruct (convertElements rec elems elementType); cbn [bind]; congruence.
Qed.

(** X6: a conversion to a type that reaches no class has an outcome as soon
    as the fuel exceeds the nesting of the array literals of the type,
    whatever the input: it returns or throws. *)
Theorem X6_conversions_to_class_free_types_terminate
    (fuel : nat) (val : Value) (toType : Type_) :
  classFree toType = true ->
  (typeDepth toType < fuel)%nat ->
  convertToType DateParse ObjectToString store fuel val toType <> OutOfFuel.
Proof.
  revert val toType.
  induction fuel as [| fuel IH]; intros val toType Hfree Hdepth; [lia |].
  cbn [convertToType].
  assert (Hscalar : forall (m : outcome Value),
    m <> OutOfFuel ->
    (let! parsed := m in
     if isUndefined parsed then Throw (UndefinedResult val toType) else Return parsed)
      <> OutOfFuel).
  { intros m Hm. destruct m as [a | |]; cbn [bind]; try congruence.
    destruct (isUndefined a); discriminate. }
  apply Hscalar.
  destruct toType as [[| | |] | | | elems | classType]; try discriminate Hfree.
  - unfold convertToInt. destruct (_ || _)%bool; discriminate.
  - unfold convertToFloat. destruct (isNaN _); discriminate.
  - unfold convertToString. repeat destruct (strictEqString _ _); discriminate.
  - unfold convertToBoolean. repeat destruct (strictEqString _ _); discriminate.
  - unfold convertToDate. destruct (isNaN _); discriminate.
  - unfold convertToObject. destruct (negb _); discriminate.
  - unfold convertToArray. destruct elems as [| elementType rest]; [discriminate |].
    cbn [head]. destruct val as [| | | | | items | |]; try discriminate.
    cbn [typeDepth classFree] in Hdepth, Hfree.
    assert (Helems : forall l, convertElements
              (convertToType DateParse ObjectToString store fuel) l elementType
              <> OutOfFuel).
    { apply convertElements_terminates. intros x. apply IH; [exact Hfree | lia]. }
    specialize (Helems items).
    destruct (convertElements _ _ _); cbn [bind]; congruence.
Qed.

End ConversionFacts.

(* ===================================================================== *)
(** * More on the conversion to a class *)
(* ===================================================================== *)

Section ClassFacts.

Variable DateParse : string -> number.
Variable ObjectToString : Value -> string.
Variable store : Store.

Import JsMapFacts.

#[local] Abbreviation convert := (convertToType DateParse ObjectToString store).

(** One turn of the loop of Step2 in terms of the value it works on. *)
Lemma convertProp_effective (rec : Value -> Type_ -> outcome Value)
    (val : Value) (classType : ClassType) (parsed : JsMap.t Value) (pm : PropMetadata) :
  convertProp rec val classType parsed pm =
    if (looseEqUndefined (effectiveValue val pm) && negb (isOptional pm))%bool then
      Throw (MissingRequiredField val classType (name pm))
    else if isUndefined (effectiveValue val pm) then Return parsed
    else
      let! v := rec (effectiveValue val pm) (type pm) in
      Return (JsMap.set (name pm) v parsed).
Proof.
  unfold convertProp, effectiveValue.
  destruct (looseEqUndefined (getProp val (name pm))) eqn:Eraw.
  - destruct (default pm); destruct (isOptional pm); reflexivity.
  - rewrite Eraw. cbn [andb].
    destruct (getProp val (name pm)); try discriminate; reflexivity.
Qed.

Lemma convertProps_get_undeclared (rec : Value -> Type_ -> outcome Value)
    (val : Value) (classType : ClassType) (m : JsMap.t PropMetadata)
    (key : string) (parsed parsed' : JsMap.t Value) :
  wfMetadata m -> key ∉ JsMap.keys m ->
  convertProps rec val classType (JsMap.values m) parsed = Return parsed' ->
  JsMap.get key parsed' = JsMap.get key parsed.
Proof.
  intros Hwf Hkey H. eapply convertProps_get_other; [exact H |].
  rewrite <- (wfMetadata_names m Hwf) in Hkey.
  apply Forall_forall. intros pm Hpm Heq. apply Hkey. rewrite Heq.
  apply list_elem_of_In, in_map, list_elem_of_In, Hpm.
Qed.

(** What Step2 leaves for one declared field, when it returns. *)
Lemma convertAllProps_field (fuel : nat) (val : Value) (classType : ClassType)
    (m : JsMap.t PropMetadata) (pm : PropMetadata) (parsed : JsMap.t Value) :
  classTypeToPropMetadata store !! classType = Some m ->
  wfMetadata m -> pm ∈ JsMap.values m ->
  convertAllProps store (convert fuel) val classType JsMap.empty = Return parsed ->
  if isUndefined (effectiveValue val pm)
  then JsMap.get (name pm) parsed = None
  else exists v,
         convert fuel (effectiveValue val pm) (type pm) = Return v /\
         JsMap.get (name pm) parsed = Some v.
Proof.
  intros Hmeta Hwf Hin H.
  destruct (wfMetadata_split _ _ Hwf Hin) as (before & after & Hsplit & Hbefore & Hafter).
  unfold convertAllProps in H. rewrite Hmeta, Hsplit, convertProps_app in H.
  destruct (convertProps _ _ _ before _) as [p1 | |] eqn:E1;
    cbn [bind] in H; try discriminate.
  cbn [convertProps] in H.
  destruct (convertProp _ _ _ p1 pm) as [p2 | |] eqn:E2; cbn [bind] in H; try discriminate.
  rewrite (convertProps_get_other _ _ _ _ _ _ _ H Hafter).
  rewrite convertProp_effective in E2.
  destruct (_ && _)%bool; [discriminate |].
  destruct (isUndefined (effectiveValue val pm)).
  - injection E2 as <-.
    rewrite (convertProps_get_other _ _ _ _ _ _ _ E1 Hbefore). reflexivity.
  - destruct (convert fuel _ _) as [v | |]; cbn [bind] in E2; try discriminate.
    injection E2 as <-. exists v. rewrite get_set_eq. auto.
Qed.

(** X7: when the fields of an object have been populated, the record holds
    for each declared field the conversion of its raw value, or of its
    default when the raw value is absent or null, and no property for a
    field whose value is then still [undefined]; it holds no property under
    a name that is not declared.  For a class without validators that
    record is the object returned. *)
Theorem X7_populated_record_holds_the_declared_fields_only
    (fuel : nat) (val : Value) (classType : ClassType)
    (propNameToMetadata : JsMap.t PropMetadata) (parsed : JsMap.t Value) :
  classType ∈ classSet store ->
  typeof val = "object" -> val <> VNull ->
  classTypeToPropMetadata store !! classType = Some propNameToMetadata ->
  wfMetadata propNameToMetadata ->
  convertAllProps store (convert fuel) val classType JsMap.empty = Return parsed ->
  (forall pm, pm ∈ JsMap.values propNameToMetadata ->
     if isUndefined (effectiveValue val pm)
     then JsMap.get (name pm) parsed = None
     else exists v,
            convert fuel (effectiveValue val pm) (type pm) = Return v /\
            JsMap.get (name pm) parsed = Some v) /\
  (forall key, key ∉ JsMap.keys propNameToMetadata -> JsMap.get key parsed = None) /\
  (validatorMapOf store classType = JsMap.empty ->
   convert (S fuel) val (TClass classType) = Return (VObject (Some classType) parsed)).
Proof.
  intros Hreg Hobj Hnull Hmeta Hwf H. split; [| split].
  - intros pm Hin. exact (convertAllProps_field fuel val classType _ pm parsed Hmeta Hwf Hin H).
  - intros key Hkey. unfold convertAllProps in H. rewrite Hmeta in H.
    rewrite (convertProps_get_undeclared _ _ _ _ _ _ _ Hwf Hkey H). reflexivity.
  - intros Hnone. rewrite (convert_class_steps _ _ _ fuel val classType Hreg Hobj Hnull).
    rewrite H. cbn [bind]. unfold validateAllProps.
    unfold validatorMapOf in Hnone.
    destruct (classTypeToPropValidator store !! classType) as [vm |]; [| reflexivity].
    subst vm. reflexivity.
Qed.

(** X8: the fields are converted in the order of the metadata map, and the
    conversion of an object stops at the first field whose value does not
    convert: it throws the error of that field's conversion unchanged. *)
Theorem X8_class_throws_the_first_field_error
    (fuel : nat) (val : Value) (classType : ClassType)
    (propNameToMetadata : JsMap.t PropMetadata)
    (before after : list PropMetadata) (pm : PropMetadata)
    (parsed : JsMap.t Value) (e : Error) :
  classType ∈ classSet store ->
  typeof val = "object" -> val <> VNull ->
  classTypeToPropMetadata store !! classType = Some propNameToMetadata ->
  JsMap.values propNameToMetadata = (before ++ pm :: after)%list ->
  convertProps (convert fuel) val classType before JsMap.empty = Return parsed ->
  isUndefined (effectiveValue val pm) = false ->
  (looseEqUndefined (effectiveValue val pm) = true -> isOptional pm = true) ->
  convert fuel (effectiveValue val pm) (type pm) = Throw e ->
  convert (S fuel) val (TClass classType) = Throw e.
Proof.
  intros Hreg Hobj Hnull Hmeta Hsplit Hbefore Hdef Hopt He.
  rewrite (convert_class_steps _ _ _ fuel val classType Hreg Hobj Hnull).
  unfold convertAllProps. rewrite Hmeta, Hsplit, convertProps_app, Hbefore.
  cbn [bind convertProps]. rewrite convertProp_effective, Hdef, He.
  destruct (looseEqUndefined (effectiveValue val pm)); [| reflexivity].
  rewrite (Hopt eq_refl). reflexivity.
Qed.

Lemma typeof_object_not_undefined (val : Value) :
  typeof val = "object" -> val <> VNull -> looseEqUndefined val = false.
Proof. destruct val; intros H Hn; try discriminate; try reflexivity. contradiction. Qed.

(** X9: a class with a field of its own type whose default is an object
    that lacks that field cannot be converted to from any object that lacks
    the field: with no amount of fuel does the conversion return, since the
    default is converted to the class in turn. *)
Theorem X9_default_of_the_own_class_never_returns
    (classType : ClassType) (propNameToMetadata : JsMap.t PropMetadata)
    (pm : PropMetadata) :
  classTypeToPropMetadata store !! classType = Some propNameToMetadata ->
  wfMetadata propNameToMetadata ->
  pm ∈ JsMap.values propNameToMetadata ->
  type pm = TClass classType ->
  typeof (default pm) = "object" -> default pm <> VNull ->
  looseEqUndefined (getProp (default pm) (name pm)) = true ->
  forall fuel val v,
    typeof val = "object" -> val <> VNull ->
    looseEqUndefined (getProp val (name pm)) = true ->
    convert fuel val (TClass classType) <> Return v.
Proof.
  intros Hmeta Hwf Hin Htype Hdobj Hdnull Hdraw.
  induction fuel as [| fuel IH]; intros val v Hobj Hnull Hraw; [discriminate |].
  destruct (decide (classType ∈ classSet store)) as [Hreg | Hreg].
  - rewrite (convert_class_steps _ _ _ fuel val classType Hreg Hobj Hnull).
    destruct (convertAllProps _ _ _ _ _) as [parsed | |] eqn:E; cbn [bind]; try discriminate.
    pose proof (convertAllProps_field fuel val classType _ pm parsed Hmeta Hwf Hin E) as Hf.
    unfold effectiveValue in Hf. rewrite Hraw in Hf.
    pose proof (typeof_object_not_undefined _ Hdobj Hdnull) as Hd.
    replace (isUndefined (default pm)) with false in Hf
      by (destruct (default pm); try discriminate; reflexivity).
    destruct Hf as (v' & Hv' & _). rewrite Htype in Hv'.
    exfalso. exact (IH (default pm) v' Hdobj Hdnull Hdraw Hv').
  - cbn [convertToType]. rewrite bool_decide_eq_false_2 by exact Hreg. discriminate.
Qed.

(** X10: a [Date] conversion that returns yields a date whose time value
    is not [NaN], and a date converts to a date of the same time value;
    [null] is not rejected but converts to the date of time value 0, while
    [undefined] throws. *)
Theorem X10_convertToDate_results (val v : Value) :
  (convertToDate DateParse ObjectToString val = Return v ->
   exists t, v = VDate t /\ isNaN t = false) /\
  (forall t, isNaN t = false ->
     convertToDate DateParse ObjectToString (VDate t) = Return (VDate t)) /\
  convertToDate DateParse ObjectToString VNull = Return (VDate (Finite 0)) /\
  convertToDate DateParse ObjectToString VUndefined = Throw (NotDate VUndefined).
Proof.
  repeat split.
  - unfold convertToDate. destruct (isNaN _) eqn:E; [discriminate |].
    intros [= <-]. eauto.
  - intros t Ht. unfold convertToDate. cbn [newDate]. rewrite Ht. reflexivity.
Qed.

(** X11: [convertToObject] compares the value itself with ['object']: the
    only input it returns is the string ["object"]; objects, arrays and
    every other value throw. *)
Theorem X11_convertToObject_accepts_one_string (fuel : nat) (val v : Value) :
  convert (S fuel) val TObject = Return v <-> val = VString "object" /\ v = val.
Proof.
  cbn [convertToType]. unfold convertToObject, strictEqString.
  destruct val as [| | b | n | s | l | p o | d]; cbn [negb bind];
    try (split; [discriminate | intros [[=] _]]).
  destruct (String.eqb s "object") eqn:E; cbn [negb bind isUndefined].
  - apply String.eqb_eq in E. subst s. split; [intros [= <-]; auto | intros [_ ->]; reflexivity].
  - apply String.eqb_neq in E. split; [discriminate | intros [[= Hs] _]; contradiction].
Qed.

End ClassFacts.

Section UnregisteredFacts.

Variable DateParse : string -> number.
Variable ObjectToString : Value -> string.

Lemma declareProps_classSet (c : ClassType) (props : list (string * PropOptions)) :
  forall st st', declareProps c props st = Return st' -> classSet st' = classSet st.
Proof.
  induction props as [| [k options] props IH]; intros st st'; simpl.
  - intros [= <-]. reflexivity.
  - destruct (PropDecorator options c k st) as [st1 | |] eqn:E; cbn [bind]; try discriminate.
    intros H. rewrite (IH _ _ H).
    apply PropDecorator_Return in E as (Hs & _). exact Hs.
Qed.

(** X12: [@Prop] alone does not register a class: after the property
    decorators of a class that [@Class] has not been applied to, every
    conversion to the class throws the unsupported-type error, [null]
    included. *)
Theorem X12_props_without_Class_are_unsupported
    (c : ClassType) (props : list (string * PropOptions)) (st st' : Store)
    (fuel : nat) (val : Value) :
  c ∉ classSet st ->
  declareProps c props st = Return st' ->
  convertToType DateParse ObjectToString st' (S fuel) val (TClass c)
    = Throw (UnsupportedType val (TClass c)).
Proof.
  intros Hc H. cbn [convertToType].
  rewrite bool_decide_eq_false_2; [reflexivity |].
  rewrite (declareProps_classSet c props st st' H). exact Hc.
Qed.

End UnregisteredFacts.

(* ===================================================================== *)
(** * More on the registry *)
(* ===================================================================== *)

Section InheritanceFacts.

Variable getPrototypeOf : ClassType -> option ClassType.

Import JsMapFacts.

Lemma PropDecorator_other options c n st st' c' :
  PropDecorator options c n st = Return st' -> c' <> c ->
  classTypeToPropMetadata st' !! c' = classTypeToPropMetadata st !! c' /\
  classTypeToPropValidator st' !! c' = classTypeToPropValidator st !! c'.
Proof.
  intros H Hne. apply PropDecorator_Return in H as (_ & Hm & Hv).
  rewrite Hm, Hv, !lookup_insert_ne by congruence. auto.
Qed.

Lemma declareProps_other c props : forall st st' c',
  declareProps c props st = Return st' -> c' <> c ->
  classTypeToPropMetadata st' !! c' = classTypeToPropMetadata st !! c' /\
  classTypeToPropValidator st' !! c' = classTypeToPropValidator st !! c'.
Proof.
  induction props as [| [k options] props IH]; intros st st' c'; simpl.
  - intros [= <-] _. auto.
  - destruct (PropDecorator options c k st) as [st1 | |] eqn:E; cbn [bind]; try discriminate.
    intros H Hne. destruct (IH _ _ c' H Hne) as [-> ->].
    exact (PropDecorator_other _ _ _ _ _ c' E Hne).
Qed.

(** [@Class] rewrites no map but those of its class. *)
Lemma ClassDecorator_maps c st :
  exists m v,
    classTypeToPropMetadata (ClassDecorator getPrototypeOf c st) =
      match m with
      | Some m => <[c := m]> (classTypeToPropMetadata st)
      | None => classTypeToPropMetadata st
      end /\
    classTypeToPropValidator (ClassDecorator getPrototypeOf c st) =
      match v with
      | Some v => <[c := v]> (classTypeToPropValidator st)
      | None => classTypeToPropValidator st
      end.
Proof.
  unfold ClassDecorator. cbn [classTypeToPropMetadata classTypeToPropValidator].
  set (st1 := match getPrototypeOf c ≫= _ with Some _ => _ | None => st end).
  assert (H1 : exists m,
    classTypeToPropMetadata st1 =
      match m with
      | Some m => <[c := m]> (classTypeToPropMetadata st)
      | None => classTypeToPropMetadata st
      end /\
    classTypeToPropValidator st1 = classTypeToPropValidator st).
  { subst st1. destruct (getPrototypeOf c ≫= _) as [pm |]; [| exists None; auto].
    unfold getOrCreateMetadataMap.
    destruct (classTypeToPropMetadata st !! c) as [cm |];
      cbn [classTypeToPropMetadata classTypeToPropValidator putMetadataMap].
    - exists (Some (mergeMetadata (JsMap.values pm) cm)). auto.
    - exists (Some (mergeMetadata (JsMap.values pm) JsMap.empty)).
      rewrite insert_insert_eq. auto. }
  clearbody st1. destruct H1 as (m & Hm & Hv).
  destruct (getPrototypeOf c ≫= _) as [pv |]; [| exists m, None; rewrite Hm, Hv; auto].
  unfold getOrCreateValidatorMap.
  destruct (classTypeToPropValidator st1 !! c) as [cv |];
    cbn [classTypeToPropMetadata classTypeToPropValidator putValidatorMap];
    rewrite Hm, Hv.
  - exists m, (Some (mergeValidators pv cv)). auto.
  - exists m, (Some (mergeValidators pv JsMap.empty)). rewrite insert_insert_eq. auto.
Qed.

Lemma ClassDecorator_other c st c' :
  c' <> c ->
  classTypeToPropMetadata (ClassDecorator getPrototypeOf c st) !! c'
    = classTypeToPropMetadata st !! c' /\
  classTypeToPropValidator (ClassDecorator getPrototypeOf c st) !! c'
    = classTypeToPropValidator st !! c'.
Proof.
  intros Hne. destruct (ClassDecorator_maps c st) as (m & v & -> & ->).
  destruct m, v; rewrite ?lookup_insert_ne by congruence; auto.
Qed.

Lemma declareClass_other c props st st' c' :
  declareClass getPrototypeOf c props st = Return st' -> c' <> c ->
  classTypeToPropMetadata st' !! c' = classTypeToPropMetadata st !! c' /\
  classTypeToPropValidator st' !! c' = classTypeToPropValidator st !! c'.
Proof.
  unfold declareClass.
  destruct (declareProps c props st) as [st1 | |] eqn:E; cbn [bind]; try discriminate.
  intros [= <-] Hne.
  destruct (ClassDecorator_other c st1 c' Hne) as [-> ->].
  exact (declareProps_other c props st st1 c' E Hne).
Qed.

Lemma declareClass_classSet c props st st' :
  declareClass getPrototypeOf c props st = Return st' ->
  classSet st' = {[c]} ∪ classSet st.
Proof.
  unfold declareClass.
  destruct (declareProps c props st) as [st1 | |] eqn:E; cbn [bind]; try discriminate.
  intros [= <-]. unfold ClassDecorator. cbn [classSet].
  set (st2 := match getPrototypeOf c ≫= _ with Some _ => _ | None => st1 end).
  assert (H2 : classSet st2 = classSet st1).
  { subst st2. destruct (getPrototypeOf c ≫= _); [| reflexivity].
    unfold getOrCreateMetadataMap. destruct (classTypeToPropMetadata st1 !! c); reflexivity. }
  clearbody st2.
  assert (H3 : classSet (match getPrototypeOf c ≫= (fun p => classTypeToPropValidator st2 !! p) with
                         | Some parentValidatorMap =>
                             let '(propNameToValidators, st) := getOrCreateValidatorMap c st2 in
                             putValidatorMap c (mergeValidators parentValidatorMap propNameToValidators) st
                         | None => st2
                         end) = classSet st2).
  { destruct (getPrototypeOf c ≫= _); [| reflexivity].
    unfold getOrCreateValidatorMap. destruct (classTypeToPropValidator st2 !! c); reflexivity. }
  rewrite H3, H2, (declareProps_classSet c props st st1 E). reflexivity.
Qed.

(** X13: declaring a class registers it, keeps every class registered
    before, and leaves the metadata and the validators of every other
    class as they were. *)
Theorem X13_declaring_a_class_touches_no_other_class
    (c : ClassType) (props : list (string * PropOptions)) (st st' : Store) :
  declareClass getPrototypeOf c props st = Return st' ->
  c ∈ classSet st' /\
  classSet st ⊆ classSet st' /\
  (forall c' n, c' <> c ->
     metadataFor st' c' n = metadataFor st c' n /\
     validatorsFor st' c' n = validatorsFor st c' n).
Proof.
  intros H. rewrite (declareClass_classSet c props st st' H).
  split; [set_solver | split; [set_solver |]].
  intros c' n Hne. destruct (declareClass_other c props st st' c' H Hne) as [Hm Hv].
  unfold metadataFor, metadataMapOf, validatorsFor, validatorMapOf.
  rewrite Hm, Hv. auto.
Qed.

Lemma mergeMetadata_get parent : forall current n,
  JsMap.get n (mergeMetadata parent current) =
    match JsMap.get n current with
    | Some pm => Some pm
    | None => List.find (fun pm => String.eqb n (name pm)) parent
    end.
Proof.
  induction parent as [| pm parent IH]; intros current n; simpl.
  - destruct (JsMap.get n current); reflexivity.
  - rewrite IH. unfold JsMap.has.
    destruct (JsMap.get (name pm) current) as [y |] eqn:Ep; simpl.
    + destruct (JsMap.get n current) eqn:En; [reflexivity |].
      destruct (String.eqb n (name pm)) eqn:E; [| reflexivity].
      apply String.eqb_eq in E. congruence.
    + rewrite get_set. destruct (String.eqb n (name pm)) eqn:E; [| reflexivity].
      apply String.eqb_eq in E. subst n. rewrite Ep. reflexivity.
Qed.

Lemma find_values (m : JsMap.t PropMetadata) (n : string) :
  wfMetadata m ->
  List.find (fun pm => String.eqb n (name pm)) (JsMap.values m) = JsMap.get n m.
Proof.
  intros [_ Hname]. unfold JsMap.values.
  induction Hname as [| [k pm] m Hk _ IH]; simpl; [reflexivity |].
  simpl in Hk. rewrite Hk. destruct (String.eqb n k); [reflexivity | exact IH].
Qed.

(** What [@Class] leaves in the registry for the metadata. *)
Lemma ClassDecorator_metadataFor c st n :
  wfStore st ->
  metadataFor (ClassDecorator getPrototypeOf c st) c n =
    match metadataFor st c n with
    | Some pm => Some pm
    | None =>
        match getPrototypeOf c with
        | Some p => metadataFor st p n
        | None => None
        end
    end.
Proof.
  intros Hwf. unfold ClassDecorator, metadataFor.
  set (st1 := match getPrototypeOf c ≫= _ with Some _ => _ | None => st end).
  assert (H1 : JsMap.get n (metadataMapOf st1 c) =
               match JsMap.get n (metadataMapOf st c) with
               | Some pm => Some pm
               | None =>
                   match getPrototypeOf c with
                   | Some p => JsMap.get n (metadataMapOf st p)
                   | None => None
                   end
               end).
  { subst st1. destruct (getPrototypeOf c) as [p |]; simpl.
    - unfold metadataMapOf at 3.
      destruct (classTypeToPropMetadata st !! p) as [pm |] eqn:Ep.
      + unfold getOrCreateMetadataMap, metadataMapOf.
        destruct (classTypeToPropMetadata st !! c) as [cm |];
          cbn [classTypeToPropMetadata putMetadataMap];
          rewrite lookup_insert_eq, mergeMetadata_get,
            (find_values pm n (wf_metadata st Hwf p pm Ep)); reflexivity.
      + destruct (JsMap.get n (metadataMapOf st c)); reflexivity.
    - destruct (JsMap.get n (metadataMapOf st c)); reflexivity. }
  clearbody st1. rewrite <- H1. unfold metadataMapOf.
  cbn [classTypeToPropMetadata].
  destruct (getPrototypeOf c ≫= _) as [pv |]; [| reflexivity].
  unfold getOrCreateValidatorMap.
  destruct (classTypeToPropValidator st1 !! c);
    cbn [classTypeToPropMetadata putValidatorMap]; reflexivity.
Qed.

Lemma declareProps_wf c props : forall st st',
  wfStore st -> declareProps c props st = Return st' -> wfStore st'.
Proof.
  induction props as [| [k options] props IH]; intros st st' Hwf; simpl.
  - intros [= <-]. exact Hwf.
  - destruct (PropDecorator options c k st) as [st1 | |] eqn:E; cbn [bind]; try discriminate.
    apply IH. exact (PropDecorator_wf _ _ _ _ _ Hwf E).
Qed.

(** The metadata a class declaration leaves for each name. *)
Lemma declareClass_metadataFor c p props st st' n :
  getPrototypeOf c = Some p -> p <> c ->
  classTypeToPropMetadata st !! c = None ->
  wfStore st ->
  declareClass getPrototypeOf c props st = Return st' ->
  metadataFor st' c n =
    match declared props n with
    | Some options => Some (currentMetadataOf options n)
    | None => metadataFor st p n
    end.
Proof.
  intros Hp Hne Hfresh Hwf. unfold declareClass.
  destruct (declareProps c props st) as [st1 | |] eqn:E; cbn [bind]; try discriminate.
  intros [= <-].
  rewrite (ClassDecorator_metadataFor c st1 n (declareProps_wf c props st st1 Hwf E)), Hp.
  rewrite (declareProps_metadataFor c props st st1 c n E).
  rewrite (declareProps_metadataFor c props st st1 p n E).
  rewrite bool_decide_eq_true_2 by reflexivity.
  rewrite bool_decide_eq_false_2 by exact Hne.
  destruct (declared props n); [reflexivity |].
  unfold metadataFor at 1, metadataMapOf. rewrite Hfresh. reflexivity.
Qed.

(** X14: a class that extends another has, for every property name its
    body does not declare, the metadata the parent has for that name, and
    for every name it declares the metadata of its own declaration. *)
Theorem X14_undeclared_fields_are_inherited
    (c p : ClassType) (props : list (string * PropOptions)) (st st' : Store)
    (propName : string) :
  getPrototypeOf c = Some p -> p <> c ->
  classTypeToPropMetadata st !! c = None ->
  wfStore st ->
  declareClass getPrototypeOf c props st = Return st' ->
  metadataFor st' c propName =
    match declared props propName with
    | Some options => Some (currentMetadataOf options propName)
    | None => metadataFor st p propName
    end.
Proof. apply declareClass_metadataFor. Qed.

(** X15: inheritance needs no walk up the ancestors: when [B extends A] and
    [C extends B] are declared in that order, a property name that neither
    [B] nor [C] declares has in [C] the metadata and the validators that
    [A] has for it. *)
Theorem X15_grandparent_fields_reach_the_grandchild
    (a b c : ClassType) (propsB propsC : list (string * PropOptions))
    (st st1 st2 : Store) (propName : string) :
  getPrototypeOf b = Some a -> getPrototypeOf c = Some b ->
  a <> b -> b <> c ->
  classTypeToPropMetadata st !! b = None -> classTypeToPropValidator st !! b = None ->
  classTypeToPropMetadata st !! c = None -> classTypeToPropValidator st !! c = None ->
  wfStore st ->
  declareClass getPrototypeOf b propsB st = Return st1 ->
  declareClass getPrototypeOf c propsC st1 = Return st2 ->
  declared propsB propName = None -> declared propsC propName = None ->
  metadataFor st2 c propName = metadataFor st a propName /\
  validatorsFor st2 c propName = validatorsFor st a propName.
Proof.
  intros Hb Hc Hab Hbc HmB HvB HmC HvC Hwf H1 H2 HdB HdC.
  assert (Hcb : c <> b) by congruence.
  destruct (declareClass_other b propsB st st1 c H1 Hcb) as [HmC1 HvC1].
  rewrite HmC in HmC1. rewrite HvC in HvC1.
  pose proof (declareClass_wf getPrototypeOf b propsB st st1 Hwf H1) as Hwf1.
  split.
  - rewrite (declareClass_metadataFor c b propsC st1 st2 propName Hc Hbc HmC1 Hwf1 H2), HdC.
    rewrite (declareClass_metadataFor b a propsB st st1 propName Hb Hab HmB Hwf H1), HdB.
    reflexivity.
  - rewrite (declareClass_validatorsFor getPrototypeOf c b propsC st1 st2 propName
               Hc Hbc HvC1 H2).
    unfold ownValidators. rewrite HdC.
    rewrite (declareClass_validatorsFor getPrototypeOf b a propsB st st1 propName
               Hb Hab HvB H1).
    unfold ownValidators. rewrite HdB. reflexivity.
Qed.

(** X16: the order of the declarations matters: a class declared while its
    parent has no metadata and no validators in the registry has only what
    its own body declares, also after the parent has been declared. *)
Theorem X16_a_parent_declared_later_is_not_inherited
    (c p : ClassType) (props propsP : list (string * PropOptions))
    (st st1 st2 : Store) (propName : string) :
  getPrototypeOf c = Some p -> p <> c ->
  classTypeToPropMetadata st !! c = None -> classTypeToPropValidator st !! c = None ->
  classTypeToPropMetadata st !! p = None -> classTypeToPropValidator st !! p = None ->
  wfStore st ->
  declareClass getPrototypeOf c props st = Return st1 ->
  declareClass getPrototypeOf p propsP st1 = Return st2 ->
  declared props propName = None ->
  metadataFor st2 c propName = None /\
  validatorsFor st2 c propName = None.
Proof.
  intros Hp Hne HmC HvC HmP HvP Hwf H1 H2 Hd.
  assert (Hcp : c <> p) by congruence.
  destruct (declareClass_other p propsP st1 st2 c H2 Hcp) as [Hm Hv].
  unfold metadataFor, metadataMapOf, validatorsFor, validatorMapOf. rewrite Hm, Hv.
  pose proof (declareClass_metadataFor c p props st st1 propName Hp Hne HmC Hwf H1) as Em.
  pose proof (declareClass_validatorsFor getPrototypeOf c p props st st1 propName
                Hp Hne HvC H1) as Ev.
  unfold ownValidators in Ev. rewrite Hd in Em, Ev.
  unfold metadataFor, metadataMapOf, validatorsFor, validatorMapOf in Em, Ev.
  rewrite HmP in Em. rewrite HvP in Ev. auto.
Qed.

(** X17: every class declaration keeps the maps of the registry well
    formed: a map holds a property name once, and the metadata filed under
    a name bears that name. *)
Theorem X17_declarations_keep_the_registry_well_formed
    (c : ClassType) (props : list (string * PropOptions)) (st st' : Store) :
  wfStore st ->
  declareClass getPrototypeOf c props st = Return st' ->
  wfStore st'.
Proof. apply declareClass_wf. Qed.

Lemma keys_set_new {V} (k : string) (v : V) (m : JsMap.t V) :
  JsMap.get k m = None -> JsMap.keys (JsMap.set k v m) = (JsMap.keys m ++ [k])%list.
Proof.
  unfold JsMap.keys. induction m as [| [k0 v0] m IH]; simpl; [reflexivity |].
  destruct (String.eqb k k0); [discriminate |]. intros H. simpl. rewrite (IH H). reflexivity.
Qed.

Lemma mergeMetadata_keys parent : forall current,
  NoDup (List.map name parent) ->
  JsMap.keys (mergeMetadata parent current) =
    (JsMap.keys current
       ++ List.filter (fun n => negb (JsMap.has n current)) (List.map name parent))%list.
Proof.
  induction parent as [| pm parent IH]; intros current Hnd;
    cbn [mergeMetadata List.map List.filter].
  - rewrite app_nil_r. reflexivity.
  - apply NoDup_cons in Hnd as [Hpm Hnd]. rewrite (IH _ Hnd).
    destruct (JsMap.has (name pm) current) eqn:Eh; cbn [Bool.eqb negb]; [reflexivity |].
    assert (Ep : JsMap.get (name pm) current = None).
    { unfold JsMap.has in Eh. destruct (JsMap.get (name pm) current); [discriminate | reflexivity]. }
    rewrite (keys_set_new _ _ _ Ep), <- app_assoc. cbn [app]. f_equal. f_equal.
    apply List.filter_ext_in. intros n Hn.
    assert (Hne : n <> name pm) by (intros ->; apply Hpm, list_elem_of_In, Hn).
    unfold JsMap.has. rewrite get_set_ne by exact Hne. reflexivity.
Qed.

Lemma declareProps_keys c : forall props st st',
  NoDup (JsMap.keys (metadataMapOf st c) ++ List.map fst props)%list ->
  declareProps c props st = Return st' ->
  JsMap.keys (metadataMapOf st' c) =
    (JsMap.keys (metadataMapOf st c) ++ List.map fst props)%list.
Proof.
  induction props as [| [k options] props IH]; intros st st' Hnd; simpl.
  - intros [= <-]. rewrite app_nil_r. reflexivity.
  - destruct (PropDecorator options c k st) as [st1 | |] eqn:E; cbn [bind]; try discriminate.
    intros H.
    assert (Hk : JsMap.get k (metadataMapOf st c) = None).
    { apply get_None. apply NoDup_app in Hnd as (_ & Hdisj & _).
      intros Hin. apply (Hdisj k Hin). left. }
    assert (H1 : JsMap.keys (metadataMapOf st1 c) =
                 (JsMap.keys (metadataMapOf st c) ++ [k])%list).
    { apply PropDecorator_Return in E as (_ & Hm & _).
      unfold metadataMapOf at 1. rewrite Hm, lookup_insert_eq.
      apply keys_set_new, Hk. }
    assert (Hnd1 : NoDup (JsMap.keys (metadataMapOf st1 c) ++ List.map fst props)%list)
      by (rewrite H1, <- app_assoc; exact Hnd).
    rewrite (IH st1 st' Hnd1 H), H1, <- app_assoc. reflexivity.
Qed.

(** X18: the fields of a class that extends another are kept, and so
    converted, in this order: the properties of its own body in the order
    of the body, then the properties of the parent that the body does not
    declare, in the order the parent has them. *)
Theorem X18_own_fields_come_before_inherited_ones
    (c p : ClassType) (props : list (string * PropOptions)) (st st' : Store) :
  getPrototypeOf c = Some p -> p <> c ->
  classTypeToPropMetadata st !! c = None ->
  wfStore st ->
  NoDup (List.map fst props) ->
  declareClass getPrototypeOf c props st = Return st' ->
  JsMap.keys (metadataMapOf st' c) =
    (List.map fst props
       ++ List.filter (undeclared props) (JsMap.keys (metadataMapOf st p)))%list.
Proof.
  intros Hp Hne Hfresh Hwf Hnd. unfold declareClass.
  destruct (declareProps c props st) as [st1 | |] eqn:E; cbn [bind]; try discriminate.
  intros [= <-].
  assert (Hown : JsMap.keys (metadataMapOf st1 c) = List.map fst props).
  { assert (Hempty : metadataMapOf st c = JsMap.empty)
      by (unfold metadataMapOf; rewrite Hfresh; reflexivity).
    assert (Hnd' : NoDup (JsMap.keys (metadataMapOf st c) ++ List.map fst props)%list)
      by (rewrite Hempty; exact Hnd).
    rewrite (declareProps_keys c props st st1 Hnd' E), Hempty. reflexivity. }
  assert (Hhas : forall n, negb (JsMap.has n (metadataMapOf st1 c)) = undeclared props n).
  { intros n. unfold JsMap.has, undeclared.
    pose proof (declareProps_metadataFor c props st st1 c n E) as Hm.
    rewrite bool_decide_eq_true_2 in Hm by reflexivity.
    unfold metadataFor in Hm. rewrite Hm.
    destruct (declared props n); [reflexivity |].
    unfold metadataFor, metadataMapOf. rewrite Hfresh. reflexivity. }
  destruct (declareProps_other c props st st1 p E Hne) as [Hlook _].
  remember (JsMap.keys (metadataMapOf st p)) as parentKeys eqn:Hpk.
  unfold metadataMapOf in Hpk.
  assert (Hphase2 : forall st2,
    JsMap.keys (metadataMapOf
      (match getPrototypeOf c ≫= (fun q => classTypeToPropValidator st2 !! q) with
       | Some parentValidatorMap =>
           let '(propNameToValidators, st0) := getOrCreateValidatorMap c st2 in
           putValidatorMap c (mergeValidators parentValidatorMap propNameToValidators) st0
       | None => st2
       end) c) = JsMap.keys (metadataMapOf st2 c)).
  { intros st2. destruct (getPrototypeOf c ≫= _); [| reflexivity].
    unfold getOrCreateValidatorMap.
    destruct (classTypeToPropValidator st2 !! c); reflexivity. }
  unfold ClassDecorator.
  change (JsMap.keys (metadataMapOf {| classSet := ?a; classTypeToPropMetadata := ?b;
                                     classTypeToPropValidator := ?d |} c))
    with (JsMap.keys (match b !! c with Some m => m | None => JsMap.empty end)).
  match goal with
  | |- JsMap.keys (match classTypeToPropMetadata ?s !! c with _ => _ end) = _ =>
      change (JsMap.keys (metadataMapOf s c) =
              (List.map fst props ++ List.filter (undeclared props) parentKeys)%list)
  end.
  rewrite Hphase2, Hp. cbn [mbind option_bind]. rewrite Hlook.
  destruct (classTypeToPropMetadata st !! p) as [pmap |] eqn:Ep.
  - pose proof (wf_metadata st Hwf p pmap Ep) as Hpwf.
    unfold getOrCreateMetadataMap.
    assert (Hc : metadataMapOf st1 c =
                 match classTypeToPropMetadata st1 !! c with
                 | Some m => m | None => JsMap.empty end) by reflexivity.
    destruct (classTypeToPropMetadata st1 !! c) as [cm |];
      unfold metadataMapOf; cbn [classTypeToPropMetadata putMetadataMap];
      rewrite lookup_insert_eq, mergeMetadata_keys, <- Hc, Hown
        by (rewrite (wfMetadata_names pmap Hpwf); exact (proj1 Hpwf));
      rewrite (wfMetadata_names pmap Hpwf); subst parentKeys;
      f_equal; apply List.filter_ext; intros n; rewrite <- Hhas; reflexivity.
  - subst parentKeys. simpl List.filter. rewrite app_nil_r. exact Hown.
Qed.

End InheritanceFacts.

Section DeclarationFacts.

Variable DateParse : string -> number.
Variable ObjectToString : Value -> string.
Variable store : Store.

(** X19: a property declared with a default, [null] included, is optional
    whatever [isOptional] says, and is always present on the populated
    record: its turn of the loop neither throws the missing-field error
    nor skips the field, it converts the raw value, or the default when
    the raw value is absent or null, and stores the result. *)
Theorem X19_a_default_makes_the_field_always_present
    (options : PropOptions) (c : ClassType) (propName : string) (st st' : Store) :
  PropDecorator options c propName st = Return st' ->
  isUndefined (opt_default options) = false ->
  exists pm,
    metadataFor st' c propName = Some pm /\
    isOptional pm = true /\
    forall rec val classType parsed,
      convertProp rec val classType parsed pm =
        let! v := rec (if looseEqUndefined (getProp val propName)
                       then opt_default options else getProp val propName)
                      (opt_type options) in
        Return (JsMap.set propName v parsed).
Proof.
  intros H Hdef. exists (currentMetadataOf options propName).
  rewrite (PropDecorator_metadataFor _ _ _ _ _ c propName H).
  rewrite bool_decide_eq_true_2 by reflexivity. rewrite String.eqb_refl.
  split; [reflexivity |].
  assert (Hopt : isOptional (currentMetadataOf options propName) = true).
  { unfold currentMetadataOf. cbn [isOptional]. rewrite Hdef. reflexivity. }
  split; [exact Hopt |].
  intros rec val classType parsed. rewrite convertProp_effective, Hopt.
  rewrite andb_false_r. unfold effectiveValue. cbn [name default type currentMetadataOf].
  destruct (looseEqUndefined (getProp val propName)) eqn:Eraw.
  - rewrite Hdef. reflexivity.
  - destruct (getProp val propName); try discriminate; reflexivity.
Qed.

(** X20: [@Prop] checks the length of the outer array literal of a type
    only.  It throws exactly when the type is an array literal whose
    length is not 1, so for [[]] and for a literal of two types or
    more.  A type [[inner]] is accepted whatever the
    array literal [inner] holds; with an empty [inner] every conversion of an array that has a
    first element throws, and an array type with several element types is
    converted as the array type of the first of them. *)
Theorem X20_only_the_outer_array_type_is_checked
    (inner : list Type_) (isOpt : option bool) (dflt : Value) (validate : ValidateOption)
    (c : ClassType) (propName : string) (st : Store)
    (fuel : nat) (x : Value) (l : list Value)
    (val : Value) (elementType second : Type_) (rest : list Type_)
    (options : PropOptions) (error : Error) :
  (PropDecorator options c propName st = Throw error <->
   exists elems,
     opt_type options = TArray elems /\ List.length elems <> 1%nat /\
     error = ArrayTypeLength (TArray elems)) /\
  PropDecorator {| opt_type := TArray []; opt_isOptional := isOpt;
                   opt_default := dflt; opt_validate := validate |}
    c propName st = Throw (ArrayTypeLength (TArray [])) /\
  PropDecorator {| opt_type := TArray (elementType :: second :: rest);
                   opt_isOptional := isOpt;
                   opt_default := dflt; opt_validate := validate |}
    c propName st = Throw (ArrayTypeLength (TArray (elementType :: second :: rest))) /\
  (exists st',
     PropDecorator {| opt_type := TArray [TArray inner]; opt_isOptional := isOpt;
                      opt_default := dflt; opt_validate := validate |}
       c propName st = Return st') /\
  convertToType DateParse ObjectToString store (S (S fuel))
    (VArray (x :: l)) (TArray [TArray []]) = Throw (ElementTypeUndefined x) /\
  convertToType DateParse ObjectToString store fuel val (TArray (elementType :: rest)) =
    convertToType DateParse ObjectToString store fuel val (TArray [elementType]).
Proof.
  split; [| split; [| split; [| split; [| split]]]].
  - unfold PropDecorator. split.
    + destruct (opt_type options) as [| | | elems |] eqn:Et;
        try (destruct (getOrCreateMetadataMap c st) as [mm st1];
             destruct (getOrCreateValidatorMap c _) as [vm st2];
             destruct (_ <? _)%nat; discriminate).
      destruct (List.length elems =? 1)%nat eqn:El; cbn [negb].
      * destruct (getOrCreateMetadataMap c st) as [mm st1].
        destruct (getOrCreateValidatorMap c _) as [vm st2].
        destruct (_ <? _)%nat; discriminate.
      * intros [= <-]. exists elems. apply Nat.eqb_neq in El. auto.
    + intros (elems & Et & El & ->). rewrite Et.
      apply Nat.eqb_neq in El. rewrite El. reflexivity.
  - reflexivity.
  - reflexivity.
  - unfold PropDecorator. cbn [opt_type List.length Nat.eqb negb].
    destruct (getOrCreateMetadataMap c st) as [mm st1].
    destruct (getOrCreateValidatorMap c _) as [vm st2].
    destruct (_ <? _)%nat; eauto.
  - reflexivity.
  - destruct fuel as [| fuel]; [reflexivity |].
    cbn [convertToType head]. unfold convertToArray.
    destruct val; try reflexivity.
    destruct (convertElements _ _ elementType) as [parsed | |]; reflexivity.
Qed.

End DeclarationFacts.

(* ===================================================================== *)
(** * The built-in validators *)
(* ===================================================================== *)

Section ValidatorFacts.

Variable ObjectToString : Value -> string.
Variable StringToNumber : string -> number.

Lemma greaterOrEqual_finite (m q : Q) :
  greaterOrEqual ObjectToString StringToNumber (VNumber (Finite q)) (Finite m) = Qle_bool m q.
Proof.
  unfold greaterOrEqual. cbn [ToNumber lessThan].
  destruct (Qle_bool m q); reflexivity.
Qed.

Lemma lessOrEqual_finite (m q : Q) :
  lessOrEqual ObjectToString StringToNumber (VNumber (Finite q)) (Finite m) = Qle_bool q m.
Proof.
  unfold lessOrEqual. cbn [ToNumber lessThan].
  destruct (Qle_bool q m); reflexivity.
Qed.

Lemma greater_finite (m q : Q) :
  greater ObjectToString StringToNumber (VNumber (Finite q)) (Finite m) = negb (Qle_bool q m).
Proof.
  unfold greater. cbn [ToNumber lessThan].
  destruct (Qle_bool q m); reflexivity.
Qed.

Lemma less_finite (m q : Q) :
  less ObjectToString StringToNumber (VNumber (Finite q)) (Finite m) = negb (Qle_bool m q).
Proof.
  unfold less. cbn [ToNumber lessThan].
  destruct (Qle_bool m q); reflexivity.
Qed.

Lemma accepts_if (b : bool) (reason : string) (obj : JsMap.t Value)
    (validator : PropValidator) (val : Value) (propName : string) :
  validator val propName obj = (obj, if b then None else Some reason) ->
  reason <> "" ->
  (accepts validator val propName obj <-> b = true).
Proof.
  unfold accepts. intros -> Hr. cbn [snd]. destruct b; cbn [truthy].
  - tauto.
  - apply String.eqb_neq in Hr. rewrite Hr. cbn [negb]. split; discriminate.
Qed.

(** X21: on a finite number, the validator of [NewValidatorMin(min)]
    accepts exactly the numbers that are at least [min], and that of
    [NewValidatorMax(max)] exactly those that are at most [max]; both
    reject [NaN] whatever the bound, and neither writes to the record. *)
Theorem X21_Min_and_Max_validators
    (m q : Q) (bound : number) (val : Value) (propName : string) (obj : JsMap.t Value) :
  (accepts (NewValidatorMin ObjectToString StringToNumber (Finite m))
     (VNumber (Finite q)) propName obj <-> (m <= q)%Q) /\
  (accepts (NewValidatorMax ObjectToString StringToNumber (Finite m))
     (VNumber (Finite q)) propName obj <-> (q <= m)%Q) /\
  ~ accepts (NewValidatorMin ObjectToString StringToNumber bound)
      (VNumber NaN) propName obj /\
  ~ accepts (NewValidatorMax ObjectToString StringToNumber bound)
      (VNumber NaN) propName obj /\
  fst (NewValidatorMin ObjectToString StringToNumber bound val propName obj) = obj /\
  fst (NewValidatorMax ObjectToString StringToNumber bound val propName obj) = obj.
Proof.
  split; [| split; [| split; [| split; [| split; reflexivity]]]].
  - rewrite <- Qle_bool_iff, <- greaterOrEqual_finite.
    apply (accepts_if _ _ _ _ _ _ eq_refl). discriminate.
  - rewrite <- Qle_bool_iff, <- lessOrEqual_finite.
    apply (accepts_if _ _ _ _ _ _ eq_refl). discriminate.
  - intros H. unfold accepts in H. destruct bound as [| [|] |]; cbn in H; discriminate H.
  - intros H. unfold accepts in H. destruct bound as [| [|] |]; cbn in H; discriminate H.
Qed.

(** X22: [NewValidatorMinMax(min, max)] throws for finite bounds exactly
    when [max < min]; the validator it makes accepts a value exactly when
    the validators of [NewValidatorMin(min)] and [NewValidatorMax(max)]
    both accept it, and writes nothing.  A [NaN] bound, be it [min] or
    [max], is not refused, and makes a validator that rejects every
    value. *)
Theorem X22_MinMax_validator (a b : Q) (min max : number) :
  (NewValidatorMinMax ObjectToString StringToNumber (Finite a) (Finite b)
     = Refused (Finite a) (Finite b) <-> (b < a)%Q) /\
  (forall v,
     NewValidatorMinMax ObjectToString StringToNumber min max = Made v ->
     forall val propName obj,
       (accepts v val propName obj <->
        accepts (NewValidatorMin ObjectToString StringToNumber min) val propName obj /\
        accepts (NewValidatorMax ObjectToString StringToNumber max) val propName obj) /\
       fst (v val propName obj) = obj) /\
  (exists v,
     NewValidatorMinMax ObjectToString StringToNumber NaN max = Made v /\
     forall val propName obj, ~ accepts v val propName obj) /\
  (exists v,
     NewValidatorMinMax ObjectToString StringToNumber min NaN = Made v /\
     forall val propName obj, ~ accepts v val propName obj).
Proof.
  split; [| split; [| split]].
  - unfold NewValidatorMinMax. rewrite less_finite.
    destruct (Qle_bool a b) eqn:E; cbn [negb].
    + apply Qle_bool_iff in E. split; [discriminate |].
      intros Hlt. exfalso. exact (Qlt_not_le _ _ Hlt E).
    + split; [| reflexivity]. intros _. apply Qnot_le_lt. intros Hle.
      apply Qle_bool_iff in Hle. congruence.
  - intros v. unfold NewValidatorMinMax.
    destruct (less _ _ _ min); [discriminate |]. intros [= <-] val propName obj.
    split; [| reflexivity].
    rewrite (accepts_if _ _ _ _ _ _ eq_refl) by discriminate.
    rewrite (accepts_if (greaterOrEqual ObjectToString StringToNumber val min)
               _ _ (NewValidatorMin ObjectToString StringToNumber min) _ _ eq_refl)
      by discriminate.
    rewrite (accepts_if (lessOrEqual ObjectToString StringToNumber val max)
               _ _ (NewValidatorMax ObjectToString StringToNumber max) _ _ eq_refl)
      by discriminate.
    apply andb_true_iff.
  - unfold NewValidatorMinMax.
    assert (Hless : less ObjectToString StringToNumber (VNumber max) NaN = false)
      by (unfold less; cbn [ToNumber]; destruct max as [| [|] |]; reflexivity).
    rewrite Hless. eexists. split; [reflexivity |].
    intros val propName obj H. unfold accepts in H. cbn [snd] in H.
    assert (Hge : greaterOrEqual ObjectToString StringToNumber val NaN = false)
      by (unfold greaterOrEqual; destruct (ToNumber _ _ val) as [| [|] |]; reflexivity).
    rewrite Hge in H. cbn in H. discriminate H.
  - unfold NewValidatorMinMax.
    assert (Hless : less ObjectToString StringToNumber (VNumber NaN) min = false)
      by reflexivity.
    rewrite Hless. eexists. split; [reflexivity |].
    intros val propName obj H. unfold accepts in H. cbn [snd] in H.
    assert (Hle : lessOrEqual ObjectToString StringToNumber val NaN = false)
      by reflexivity.
    rewrite Hle, andb_false_r in H. cbn in H. discriminate H.
Qed.

Lemma greater_zero_length (n : nat) :
  greater ObjectToString StringToNumber
    (VNumber (Finite (inject_Z (Z.of_nat n)))) (Finite 0) = negb (n =? 0)%nat.
Proof. rewrite greater_finite. destruct n; reflexivity. Qed.

(** X23: the validator of [NewValidatorArrayNotEmpty] accepts an array
    exactly when it has an element; it also accepts every string that is
    not empty, and rejects [undefined], [null], booleans, numbers and
    dates.  It writes nothing. *)
Theorem X23_ArrayNotEmpty_validator
    (l : list Value) (s : string) (b : bool) (n t : number)
    (val : Value) (propName : string) (obj : JsMap.t Value) :
  (accepts (NewValidatorArrayNotEmpty ObjectToString StringToNumber)
     (VArray l) propName obj <-> l <> []) /\
  (accepts (NewValidatorArrayNotEmpty ObjectToString StringToNumber)
     (VString s) propName obj <-> s <> "") /\
  ~ accepts (NewValidatorArrayNotEmpty ObjectToString StringToNumber) VUndefined propName obj /\
  ~ accepts (NewValidatorArrayNotEmpty ObjectToString StringToNumber) VNull propName obj /\
  ~ accepts (NewValidatorArrayNotEmpty ObjectToString StringToNumber) (VBoolean b) propName obj /\
  ~ accepts (NewValidatorArrayNotEmpty ObjectToString StringToNumber) (VNumber n) propName obj /\
  ~ accepts (NewValidatorArrayNotEmpty ObjectToString StringToNumber) (VDate t) propName obj /\
  fst (NewValidatorArrayNotEmpty ObjectToString StringToNumber val propName obj) = obj.
Proof.
  assert (Hrejects : forall v,
    (ToBoolean v && greater ObjectToString StringToNumber (lengthOf v) (Finite 0))%bool = false ->
    ~ accepts (NewValidatorArrayNotEmpty ObjectToString StringToNumber) v propName obj).
  { intros v Hv H. apply (accepts_if _ _ _ _ _ _ eq_refl) in H; [congruence | discriminate]. }
  split; [| split; [| repeat split; try (apply Hrejects; reflexivity)]].
  - rewrite (accepts_if _ _ _ _ _ _ eq_refl) by discriminate.
    cbn [ToBoolean lengthOf getProp andb].
    change (String.eqb "length" "length") with true. cbv iota.
    rewrite greater_zero_length. destruct l; cbn; split; congruence.
  - rewrite (accepts_if _ _ _ _ _ _ eq_refl) by discriminate.
    cbn [ToBoolean lengthOf]. rewrite greater_zero_length.
    destruct s; cbn; split; congruence.
  - apply Hrejects. destruct b; reflexivity.
  - apply Hrejects. rewrite andb_false_iff. right. reflexivity.
Qed.

Ltac bool_to_Q :=
  repeat match goal with
         | H : Qeq_bool _ _ = true |- _ => apply Qeq_bool_iff in H
         | H : Qeq_bool _ _ = false |- _ => apply Qeq_bool_neq in H
         | H : Qle_bool _ _ = true |- _ => apply Qle_bool_iff in H
         | H : Qle_bool ?a ?b = false |- _ =>
             assert (~ (a <= b)%Q) by (rewrite <- Qle_bool_iff; congruence); clear H
         end.

(** The verdict on a string that is not trimmed any more. *)
Lemma StringNotEmpty_verdict (s : string) (max min : option Q)
    (propName : string) (obj : JsMap.t Value) :
  let options :=
    Some {| StringNotEmptyOptions.trim := None;
            StringNotEmptyOptions.max := option_map Finite max;
            StringNotEmptyOptions.min := option_map Finite min |} in
  fst (NewValidatorStringNotEmpty ObjectToString StringToNumber options
         (VString s) propName obj) = obj /\
  (accepts (NewValidatorStringNotEmpty ObjectToString StringToNumber options)
     (VString s) propName obj <->
   s <> "" /\ withinMax max (String.length s) /\ withinMin min (String.length s)).
Proof.
  cbv zeta. unfold accepts, NewValidatorStringNotEmpty, withinMax, withinMin.
  cbn [StringNotEmptyOptions.trim StringNotEmptyOptions.max StringNotEmptyOptions.min
       ToBoolean lengthOf].
  rewrite greater_zero_length.
  destruct s as [| c s]; cbn [String.eqb negb andb String.length Nat.eqb].
  - destruct max as [mx |], min as [mn |]; cbn [option_map andb fst snd truthy];
      rewrite ?andb_false_r; cbn [fst snd truthy String.eqb negb];
      (split; [reflexivity | split; [discriminate | intros [H _]; contradiction]]).
  - destruct max as [mx |], min as [mn |]; cbn [option_map];
      rewrite ?greater_finite, ?less_finite; rewrite ?andb_true_r;
      repeat match goal with
             | |- context [Qeq_bool ?a ?b] => destruct (Qeq_bool a b) eqn:?
             | |- context [Qle_bool ?a ?b] => destruct (Qle_bool a b) eqn:?
             end;
      cbn [negb andb fst snd truthy String.eqb];
      bool_to_Q;
      (split; [reflexivity |]);
      (split; [try discriminate; intros _; repeat split; try discriminate; auto
              | try reflexivity; intros (_ & Hmax & Hmin); exfalso;
                repeat match goal with H : _ \/ _ |- _ => destruct H end;
                auto]).
Qed.

Lemma StringNotEmpty_with_trim
    (s : string) (max min : option Q) (val : Value)
    (propName : string) (obj : JsMap.t Value) :
  fst (NewValidatorStringNotEmpty ObjectToString StringToNumber (trimOptions max min)
         val propName obj)
    = JsMap.set propName (VString (trimString (show ObjectToString val))) obj /\
  (accepts (NewValidatorStringNotEmpty ObjectToString StringToNumber (trimOptions max min))
     (VString s) propName obj <->
   trimString s <> "" /\
   withinMax max (String.length (trimString s)) /\
   withinMin min (String.length (trimString s))).
Proof.
  pose proof (fun v => StringNotEmpty_verdict v max min propName
                (JsMap.set propName (VString v) obj)) as Hv.
  cbv zeta in Hv.
  assert (Hsame : forall v,
    NewValidatorStringNotEmpty ObjectToString StringToNumber (trimOptions max min)
      v propName obj =
    NewValidatorStringNotEmpty ObjectToString StringToNumber
      (Some {| StringNotEmptyOptions.trim := None;
               StringNotEmptyOptions.max := option_map Finite max;
               StringNotEmptyOptions.min := option_map Finite min |})
      (VString (trimString (show ObjectToString v))) propName
      (JsMap.set propName (VString (trimString (show ObjectToString v))) obj))
    by reflexivity.
  split.
  - rewrite Hsame. apply Hv.
  - unfold accepts. rewrite Hsame. apply Hv.
Qed.

(** X24: with [trim], the validator of [NewValidatorStringNotEmpty] writes
    the trimmed string form of the value to the record under the property
    name, whatever its verdict; a string is accepted exactly when, once
    trimmed, it is not empty and its length is within [max] and [min],
    where a bound of 0 bounds nothing. *)
Theorem X24_StringNotEmpty_validator_with_trim
    (s : string) (max min : option Q) (val : Value)
    (propName : string) (obj : JsMap.t Value) :
  fst (NewValidatorStringNotEmpty ObjectToString StringToNumber (trimOptions max min)
         val propName obj)
    = JsMap.set propName (VString (trimString (show ObjectToString val))) obj /\
  (accepts (NewValidatorStringNotEmpty ObjectToString StringToNumber (trimOptions max min))
     (VString s) propName obj <->
   trimString s <> "" /\
   withinMax max (String.length (trimString s)) /\
   withinMin min (String.length (trimString s))).
Proof. apply StringNotEmpty_with_trim. Qed.

(** X25: the validators of a property are all called with the value read
    before the first of them ran.  After a trimming validator has
    accepted a string and written the trimmed string to the record, a
    length bound given as a validator of its own is applied to the string
    as it was: a string whose trimmed length is within the bound and whose
    own length is not makes the validation throw, while the same bound
    given to the trimming validator accepts it. *)
Theorem X25_later_validators_see_the_untrimmed_value
    (val : Value) (classType : ClassType) (propName : string)
    (s : string) (n : Q) (obj : JsMap.t Value) :
  trimString s <> "" ->
  (inject_Z (Z.of_nat (String.length (trimString s))) <= n)%Q ->
  (n < inject_Z (Z.of_nat (String.length s)))%Q ->
  runValidators val classType propName (VString s)
    [NewValidatorStringNotEmpty ObjectToString StringToNumber (trimOptions None None);
     NewValidatorStringNotEmpty ObjectToString StringToNumber
       (Some {| StringNotEmptyOptions.trim := None;
                StringNotEmptyOptions.max := Some (Finite n);
                StringNotEmptyOptions.min := None |})] obj
    = Throw (InvalidProperty val classType propName (VString s)
               ("validate prop:" ++ propName ++ " fail, expect string length:"
                  ++ show ObjectToString
                       (VNumber (Finite (inject_Z (Z.of_nat (String.length s)))))
                  ++ " <= max:" ++ show ObjectToString (VNumber (Finite n)))) /\
  runValidators val classType propName (VString s)
    [NewValidatorStringNotEmpty ObjectToString StringToNumber (trimOptions (Some n) None)]
    obj
    = Return (JsMap.set propName (VString (trimString s)) obj).
Proof.
  intros Hne Hle Hlt.
  assert (Hpos : (0 < inject_Z (Z.of_nat (String.length (trimString s))))%Q).
  { destruct (trimString s); [contradiction |].
    unfold Qlt, inject_Z. cbn [Qnum Qden String.length]. lia. }
  assert (Hn0 : Qeq_bool n 0 = false).
  { destruct (Qeq_bool n 0) eqn:E; [| reflexivity].
    apply Qeq_bool_iff in E. rewrite E in Hle. exfalso. exact (Qlt_not_le _ _ Hpos Hle). }
  assert (Hs : String.eqb s "" = false).
  { destruct s; [| reflexivity]. exfalso.
    apply (Qlt_not_le _ _ Hlt). apply Qlt_le_weak.
    eapply Qlt_le_trans; [exact Hpos | exact Hle]. }
  assert (Hgt : Qle_bool (inject_Z (Z.of_nat (String.length s))) n = false).
  { destruct (Qle_bool _ n) eqn:E; [| reflexivity].
    apply Qle_bool_iff in E. exfalso. exact (Qlt_not_le _ _ Hlt E). }
  split.
  - cbn [runValidators].
    destruct (StringNotEmpty_with_trim s None None (VString s) propName obj) as [Hfst Hacc].
    unfold accepts in Hacc.
    destruct (NewValidatorStringNotEmpty _ _ (trimOptions None None) (VString s) propName obj)
      as [obj1 error] eqn:E1.
    cbn [fst snd] in Hacc, Hfst.
    replace (truthy error) with false
      by (symmetry; apply Hacc; cbn [withinMax withinMin]; auto).
    unfold NewValidatorStringNotEmpty.
    cbn [StringNotEmptyOptions.trim StringNotEmptyOptions.max StringNotEmptyOptions.min
         ToBoolean lengthOf].
    rewrite greater_finite, Hn0, Hs, Hgt. reflexivity.
  - cbn [runValidators].
    destruct (StringNotEmpty_with_trim s (Some n) None (VString s) propName obj)
      as [Hfst Hacc].
    unfold accepts in Hacc.
    destruct (NewValidatorStringNotEmpty _ _ (trimOptions (Some n) None) (VString s) propName obj)
      as [obj1 error] eqn:E1.
    cbn [fst snd] in Hacc, Hfst.
    replace (truthy error) with false
      by (symmetry; apply Hacc; cbn [withinMax withinMin]; auto).
    rewrite Hfst. reflexivity.
Qed.

End ValidatorFacts.

(* ===================================================================== *)
(** * The successful validation *)
(* ===================================================================== *)

Section ValidationFacts.

Variable DateParse : string -> number.
Variable ObjectToString : Value -> string.
Variable store : Store.

#[local] Abbreviation convert := (convertToType DateParse ObjectToString store).

Lemma runValidators_quiet (val : Value) (classType : ClassType) (propName : string)
    (propValue : Value) (parsed : JsMap.t Value) : forall validators,
  Forall (fun validator =>
            fst (validator propValue propName parsed) = parsed /\
            accepts validator propValue propName parsed) validators ->
  runValidators val classType propName propValue validators parsed = Return parsed.
Proof.
  induction 1 as [| v vs [Hfst Hacc] _ IH]; cbn [runValidators]; [reflexivity |].
  unfold accepts in Hacc.
  destruct (v propValue propName parsed) as [p e]. cbn [fst snd] in Hfst, Hacc.
  subst p. rewrite Hacc. exact IH.
Qed.

Lemma validateProps_quiet (val : Value) (classType : ClassType)
    (vmap : JsMap.t (list PropValidator)) (parsed : JsMap.t Value) :
  (forall propName validators propValue,
     JsMap.get propName vmap = Some validators ->
     JsMap.get propName parsed = Some propValue ->
     propValue <> VUndefined ->
     Forall (fun validator =>
               fst (validator propValue propName parsed) = parsed /\
               accepts validator propValue propName parsed) validators) ->
  forall propNames,
    validateProps val classType vmap propNames parsed = Return parsed.
Proof.
  intros Hok. induction propNames as [| n propNames IH]; cbn [validateProps]; [reflexivity |].
  destruct (JsMap.get n vmap) as [vs |] eqn:En; cbn [bind]; [| exact IH].
  destruct (JsMap.get n parsed) as [pv |] eqn:Ep; cbn [isUndefined negb bind]; [| exact IH].
  destruct (isUndefined pv) eqn:Eu; cbn [negb bind]; [exact IH |].
  rewrite (runValidators_quiet val classType n pv parsed vs); [exact IH |].
  apply (Hok n vs pv En Ep). destruct pv; discriminate.
Qed.

(** X26: when the fields of an object have been populated and every
    validator of the class accepts the populated value of its property
    without writing to the record, the conversion returns the populated
    record as an object of the class.  The validators of a property that
    the record does not hold are not asked. *)
Theorem X26_accepted_record_is_returned
    (fuel : nat) (val : Value) (classType : ClassType) (parsed : JsMap.t Value) :
  classType ∈ classSet store ->
  typeof val = "object" -> val <> VNull ->
  convertAllProps store (convert fuel) val classType JsMap.empty = Return parsed ->
  (forall propName validators propValue,
     validatorsFor store classType propName = Some validators ->
     JsMap.get propName parsed = Some propValue ->
     propValue <> VUndefined ->
     Forall (fun validator =>
               fst (validator propValue propName parsed) = parsed /\
               accepts validator propValue propName parsed) validators) ->
  convert (S fuel) val (TClass classType) = Return (VObject (Some classType) parsed).
Proof.
  intros Hreg Hobj Hnull Hpop Hok.
  rewrite (convert_class_steps _ _ _ fuel val classType Hreg Hobj Hnull), Hpop.
  cbn [bind]. unfold validateAllProps.
  unfold validatorsFor, validatorMapOf in Hok.
  destruct (classTypeToPropValidator store !! classType) as [vmap |]; [| reflexivity].
  rewrite (validateProps_quiet val classType vmap parsed Hok). reflexivity.
Qed.

End ValidationFacts.

(* ===================================================================== *)
(** * The further statements on the example schemas *)
(* ===================================================================== *)

Section MoreExampleFacts.

Import Example.

#[local] Abbreviation convert := (convertToType DateParse ObjectToString store).

Lemma X1_witness :
  exists (q : Q) (z : Z), VNumber (Finite 5) = VNumber (Finite q) /\ (q == inject_Z z)%Q.
Proof.
  exact (X1_convertToInt_returns_integers ObjectToString
           (VString "5abc") (VNumber (Finite 5)) eq_refl).
Defined.

Lemma X4_witness :
  convert 2 (VArray [VNumber (Finite 1); VString "x"; VNumber (Finite 2)])
    (TArray [TPrimitive PrimitiveType.Int]) = Throw (NotInt (VString "x")).
Proof.
  apply (X4_array_throws_the_first_element_error DateParse ObjectToString store 1
           [VNumber (Finite 1)] [VNumber (Finite 2)] (VString "x")
           (TPrimitive PrimitiveType.Int) [] (NotInt (VString "x"))).
  - constructor; [| constructor]. exists (VNumber (Finite 1)). reflexivity.
  - reflexivity.
Defined.

Lemma X5_witness :
  convert 2 (VArray [VString "5abc"]) (TArray [TPrimitive PrimitiveType.Int])
    = Return (VArray [VNumber (Finite 5)]) /\
  convert 2 (VArray [VNumber (Finite 5)]) (TArray [TPrimitive PrimitiveType.Int])
    = Return (VArray [VNumber (Finite 5)]).
Proof.
  split; [reflexivity |].
  exact (X5_converting_a_result_again_returns_it DateParse ObjectToString store 2
           (VArray [VString "5abc"]) (TArray [TPrimitive PrimitiveType.Int])
           (VArray [VNumber (Finite 5)]) eq_refl eq_refl).
Defined.

Lemma X6_witness :
  convert 2 (VArray [VNull]) (TArray [TPrimitive PrimitiveType.Boolean]) <> OutOfFuel.
Proof.
  apply (X6_conversions_to_class_free_types_terminate DateParse ObjectToString store 2
           (VArray [VNull]) (TArray [TPrimitive PrimitiveType.Boolean]) eq_refl).
  cbn [typeDepth]. lia.
Defined.

Lemma X7_witness :
  JsMap.get "nick" [("id", VNumber (Finite 1)); ("age", VNumber (Finite 30))] = None /\
  JsMap.get "extra" [("id", VNumber (Finite 1)); ("age", VNumber (Finite 30))] = None.
Proof.
  assert (Hnull : young <> VNull) by discriminate.
  destruct (X7_populated_record_holds_the_declared_fields_only
              DateParse ObjectToString store 1 young "Child" childMetadata
              [("id", VNumber (Finite 1)); ("age", VNumber (Finite 30))]
              child_registered eq_refl Hnull child_metadata
              (wf_metadata store example_store_wf "Child" childMetadata child_metadata)
              eq_refl) as (Hfields & Hother & _).
  split.
  - apply (Hfields (currentMetadataOf nickOfChild "nick")).
    apply list_elem_of_further, list_elem_of_here.
  - apply Hother. apply (bool_decide_unpack _). vm_compute. exact I.
Defined.

Lemma X8_witness :
  convert 2 Chain.badId (TClass "Child") = Throw (NotFloat (VString "x")).
Proof.
  assert (Hnull : Chain.badId <> VNull) by discriminate.
  apply (X8_class_throws_the_first_field_error DateParse ObjectToString store 1
           Chain.badId "Child" childMetadata []
           [currentMetadataOf nickOfChild "nick"; currentMetadataOf ageOfChild "age"]
           (currentMetadataOf idOfChild "id") JsMap.empty (NotFloat (VString "x"))
           child_registered eq_refl Hnull child_metadata eq_refl eq_refl eq_refl).
  - discriminate.
  - reflexivity.
Defined.

Lemma node_store_wf : wfStore Chain.withNode.
Proof.
  apply (declareClass_wf Chain.getPrototypeOf "Node" [("next", Chain.nextOfNode)]
           emptyStore Chain.withNode wfStore_empty).
  reflexivity.
Qed.

Lemma X9_witness :
  convertToType DateParse ObjectToString Chain.withNode 7
    (VObject None [("id", VNumber (Finite 1))]) (TClass "Node")
    <> Return (VObject (Some "Node") []).
Proof.
  assert (Hd : VObject None [] <> VNull) by discriminate.
  assert (Hv : VObject None [("id", VNumber (Finite 1))] <> VNull) by discriminate.
  assert (Hin : currentMetadataOf Chain.nextOfNode "next"
                  ∈ JsMap.values [("next", currentMetadataOf Chain.nextOfNode "next")])
    by apply list_elem_of_here.
  exact (X9_default_of_the_own_class_never_returns DateParse ObjectToString Chain.withNode
           "Node" [("next", currentMetadataOf Chain.nextOfNode "next")]
           (currentMetadataOf Chain.nextOfNode "next")
           eq_refl (wf_metadata _ node_store_wf "Node" _ eq_refl) Hin
           eq_refl eq_refl Hd eq_refl 7
           (VObject None [("id", VNumber (Finite 1))]) (VObject (Some "Node") [])
           eq_refl Hv eq_refl).
Defined.

Lemma X12_witness :
  convertToType DateParse ObjectToString Chain.onlyProps 1
    (VObject None [("id", VNumber (Finite 1))]) (TClass "A")
    = Throw (UnsupportedType (VObject None [("id", VNumber (Finite 1))]) (TClass "A")).
Proof.
  apply (X12_props_without_Class_are_unsupported DateParse ObjectToString
           "A" Chain.propsA emptyStore Chain.onlyProps).
  - apply not_elem_of_empty.
  - reflexivity.
Defined.

Lemma X13_witness :
  "Child" ∈ classSet store /\
  classSet afterBase ⊆ classSet store /\
  metadataFor store "Base" "id" = metadataFor afterBase "Base" "id" /\
  validatorsFor store "Base" "id" = validatorsFor afterBase "Base" "id".
Proof.
  destruct (X13_declaring_a_class_touches_no_other_class getPrototypeOf
              "Child" childProps afterBase store child_declared)
    as (Hin & Hsub & Hother).
  split; [exact Hin | split; [exact Hsub |]].
  exact (Hother "Base" "id" base_is_not_child).
Defined.

Lemma chain_wf_A : wfStore Chain.afterA.
Proof.
  apply (declareClass_wf Chain.getPrototypeOf "A" Chain.propsA emptyStore
           Chain.afterA wfStore_empty).
  reflexivity.
Qed.

Lemma chain_wf_B : wfStore Chain.afterB.
Proof.
  apply (declareClass_wf Chain.getPrototypeOf "B" Chain.propsB Chain.afterA
           Chain.afterB chain_wf_A).
  reflexivity.
Qed.

Lemma a_is_not_b : "A" <> "B".
Proof. discriminate. Defined.

Lemma b_is_not_c : "B" <> "C".
Proof. discriminate. Defined.

Lemma X14_witness :
  metadataFor Chain.afterB "B" "id" = metadataFor Chain.afterA "A" "id" /\
  metadataFor Chain.afterB "B" "nick" = Some (currentMetadataOf nickOfChild "nick").
Proof.
  split.
  - exact (X14_undeclared_fields_are_inherited Chain.getPrototypeOf
             "B" "A" Chain.propsB Chain.afterA Chain.afterB "id"
             eq_refl a_is_not_b eq_refl chain_wf_A eq_refl).
  - exact (X14_undeclared_fields_are_inherited Chain.getPrototypeOf
             "B" "A" Chain.propsB Chain.afterA Chain.afterB "nick"
             eq_refl a_is_not_b eq_refl chain_wf_A eq_refl).
Defined.

Lemma X15_witness :
  metadataFor Chain.afterC "C" "id" = metadataFor Chain.afterA "A" "id" /\
  validatorsFor Chain.afterC "C" "id" = validatorsFor Chain.afterA "A" "id".
Proof.
  exact (X15_grandparent_fields_reach_the_grandchild Chain.getPrototypeOf
           "A" "B" "C" Chain.propsB Chain.propsC Chain.afterA Chain.afterB Chain.afterC "id"
           eq_refl eq_refl a_is_not_b b_is_not_c eq_refl eq_refl eq_refl eq_refl
           chain_wf_A eq_refl eq_refl eq_refl eq_refl).
Defined.

Lemma X16_witness :
  metadataFor Chain.thenA "A" "id" = Some (currentMetadataOf idOfBase "id") /\
  metadataFor Chain.thenA "B" "id" = None /\
  validatorsFor Chain.thenA "B" "id" = None.
Proof.
  split; [reflexivity |].
  exact (X16_a_parent_declared_later_is_not_inherited Chain.getPrototypeOf
           "B" "A" Chain.propsB Chain.propsA emptyStore Chain.firstB Chain.thenA "id"
           eq_refl a_is_not_b eq_refl eq_refl eq_refl eq_refl wfStore_empty
           eq_refl eq_refl eq_refl).
Defined.

Lemma X17_witness : wfStore Chain.afterC.
Proof.
  apply (X17_declarations_keep_the_registry_well_formed Chain.getPrototypeOf
           "C" Chain.propsC Chain.afterB Chain.afterC chain_wf_B).
  reflexivity.
Defined.

Lemma X18_witness :
  JsMap.keys (metadataMapOf Chain.afterC "C") = ["age"; "nick"; "id"].
Proof.
  assert (Hnd : NoDup (List.map fst Chain.propsC))
    by (apply NoDup_singleton).
  exact (X18_own_fields_come_before_inherited_ones Chain.getPrototypeOf
           "C" "B" Chain.propsC Chain.afterB Chain.afterC
           eq_refl b_is_not_c eq_refl chain_wf_B Hnd eq_refl).
Defined.

Lemma X19_witness :
  exists st' pm,
    PropDecorator Chain.withNullDefault "Node" "next" emptyStore = Return st' /\
    metadataFor st' "Node" "next" = Some pm /\
    isOptional pm = true /\
    convertProp (convertToType DateParse ObjectToString Chain.withNode 1)
      (VObject None []) "Node" JsMap.empty pm
      = Return [("next", VNull)].
Proof.
  destruct (PropDecorator Chain.withNullDefault "Node" "next" emptyStore)
    as [st' | |] eqn:E; try discriminate E.
  destruct (X19_a_default_makes_the_field_always_present
              Chain.withNullDefault "Node" "next" emptyStore st' E eq_refl)
    as (pm & Hm & Hopt & Hconv).
  exists st', pm. split; [reflexivity | split; [exact Hm | split; [exact Hopt |]]].
  rewrite Hconv. reflexivity.
Defined.

Lemma X25_witness :
  runValidators (VObject None []) "Child" "nick" (VString "  ab  ")
    [NewValidatorStringNotEmpty ObjectToString Chain.StringToNumber (trimOptions (Some 2%Q) None)]
    JsMap.empty
    = Return [("nick", VString "ab")].
Proof.
  assert (Hne : trimString "  ab  " <> "") by discriminate.
  assert (Hle : (inject_Z (Z.of_nat (String.length (trimString "  ab  "))) <= 2)%Q)
    by (vm_compute; discriminate).
  assert (Hlt : (2 < inject_Z (Z.of_nat (String.length "  ab  ")))%Q)
    by reflexivity.
  exact (proj2 (X25_later_validators_see_the_untrimmed_value
                  ObjectToString Chain.StringToNumber
                  (VObject None []) "Child" "nick" "  ab  " 2%Q JsMap.empty Hne Hle Hlt)).
Defined.

Lemma X26_witness :
  convert 2 young (TClass "Child") =
    Return (VObject (Some "Child")
              [("id", VNumber (Finite 1)); ("age", VNumber (Finite 30))]).
Proof.
  assert (Hnull : young <> VNull) by discriminate.
  apply (X26_accepted_record_is_returned DateParse ObjectToString store 1 young "Child"
           [("id", VNumber (Finite 1)); ("age", VNumber (Finite 30))]
           child_registered eq_refl Hnull eq_refl).
  intros propName validators propValue Hv Hp _.
  change (validatorsFor store "Child" propName)
    with (JsMap.get propName [("age", [nonNegative; atMost150]); ("id", [nonNegative])]) in Hv.
  cbn [JsMap.get] in Hv.
  destruct (String.eqb propName "age") eqn:Eage.
  - apply String.eqb_eq in Eage. subst propName.
    injection Hv as <-. injection Hp as <-. repeat constructor.
  - destruct (String.eqb propName "id") eqn:Eid; [| discriminate Hv].
    apply String.eqb_eq in Eid. subst propName.
    injection Hv as <-. injection Hp as <-. repeat constructor.
Defined.

End MoreExampleFacts.
